(** * Green-Scheduling: a shallow embedding of the simulation core

    The development follows the Python sources file by file:
    [config] (config.py), [scheduler] (scheduler.py), [algorithm]
    (algorithm.py), [energy_monitor] (energy_monitor.py) and [simulation]
    (simulation.py).

    Modelling conventions.
    - Python floats are modelled by exact rationals ([Q]); [==] on floats is
      [Qeq], [<] is [Qltb].  Rounding and NaN are not modelled.
    - Task objects live in a store ([heap]) indexed by addresses; a Python
      list of tasks is a list of addresses, so that two lists can hold the
      very same object and a write through one is seen through the other.
    - Exceptions are explicit: a function that may raise returns an
      [outcome].
    - A dictionary that is only read by key is a finite map ([gmap]);
      [Simulator.results], whose items are iterated, keeps its items in
      insertion order ([py_dict]).
    - The [while] loop of the engine is a fixpoint on a fuel argument; the
      engine instantiates it with the length of the batch, which is shown to
      be enough.
    - Wall-clock stamps that are never read back ([Task.created_at],
      [EnergyMonitor.start_time]) are left out; the stamp of a reading is an
      input of the model ([now]). *)

From Stdlib Require Import QArith ZArith String List Lia Lqa Floats Sorted.
From stdpp Require Import base option list gmap strings.

Local Open Scope Q_scope.

(** ** Exceptions *)

Inductive exn : Type :=
| KeyError (key : string)
| ValueError
| IndexError
| ZeroDivisionError.

Inductive outcome (A : Type) : Type :=
| Returned (a : A)
| Raised (e : exn).

Arguments Returned {A} a.
Arguments Raised {A} e.

Definition bind {A B : Type} (m : outcome A) (k : A -> outcome B) : outcome B :=
  match m with
  | Returned a => k a
  | Raised e => Raised e
  end.

Notation "'do' x <- m ; k" := (bind m (fun x => k))
  (at level 10, x name, m at level 100, k at level 200).

(** ** Float comparison *)

(** [a < b] on floats. *)
Definition Qltb (a b : Q) : bool := negb (Qle_bool b a).

(** [a / b] on floats, for a divisor that can be zero:
    [ZeroDivisionError] when it is.  A division by a non-zero literal cannot
    raise and is written with [/]. *)
Definition py_div (a b : Q) : outcome Q :=
  if Qeq_bool b 0 then Raised ZeroDivisionError else Returned (a / b).

(** [a == b] on optional floats ([None == None], [None != 1.0]). *)
Definition opt_float_eq (a b : option Q) : bool :=
  match a, b with
  | None, None => true
  | Some x, Some y => Qeq_bool x y
  | _, _ => false
  end.

(** ** config.py *)

Module config.
Definition BASE_POWER_WATTS : Q := 5.
Definition MAX_POWER_WATTS : Q := 15.
Definition EMISSION_FACTOR_KG_CO2_PER_KWH : Q := 0.73.
Definition POWER_COST_PER_KWH : Q := 8.
Definition ALGORITHMS : list string :=
  ["FCFS"; "SJF"; "RoundRobin"; "PriorityBased"; "EnergyOptimized"]%string.
Definition TIME_QUANTUM_MS : Z := 100.
Definition SIMULATION_TIME : Q := 60.
Definition NUM_TASKS : Z := 20.
Definition TASK_DURATION_MIN : Q := 0.5.
Definition TASK_DURATION_MAX : Q := 5.
End config.

(** ** scheduler.py *)

Module scheduler.

Inductive TaskPriority : Type := HIGH | MEDIUM | LOW.

(** [TaskPriority.value] *)
Definition value (p : TaskPriority) : Z :=
  match p with
  | HIGH => 1
  | MEDIUM => 2
  | LOW => 3
  end.

Definition TaskPriority_eqb (p q : TaskPriority) : bool :=
  match p, q with
  | HIGH, HIGH | MEDIUM, MEDIUM | LOW, LOW => true
  | _, _ => false
  end.

Record Task : Type := mkTask {
  task_id : string;
  duration : Q;
  priority : TaskPriority;
  arrival_time : Q;
  start_time : option Q;
  end_time : option Q;
  cpu_requirement : Q;
  memory_requirement : Q
}.

(** [task.start_time = v] *)
Definition set_start_time (t : Task) (v : option Q) : Task :=
  {| task_id := task_id t; duration := duration t; priority := priority t;
     arrival_time := arrival_time t; start_time := v; end_time := end_time t;
     cpu_requirement := cpu_requirement t;
     memory_requirement := memory_requirement t |}.

(** [task.end_time = v] *)
Definition set_end_time (t : Task) (v : option Q) : Task :=
  {| task_id := task_id t; duration := duration t; priority := priority t;
     arrival_time := arrival_time t; start_time := start_time t; end_time := v;
     cpu_requirement := cpu_requirement t;
     memory_requirement := memory_requirement t |}.

(** The [__eq__] that [@dataclass] generates: the tuples of the eight
    fields are compared, in declaration order. *)
Definition Task_eq (a b : Task) : bool :=
  String.eqb (task_id a) (task_id b)
  && Qeq_bool (duration a) (duration b)
  && TaskPriority_eqb (priority a) (priority b)
  && Qeq_bool (arrival_time a) (arrival_time b)
  && opt_float_eq (start_time a) (start_time b)
  && opt_float_eq (end_time a) (end_time b)
  && Qeq_bool (cpu_requirement a) (cpu_requirement b)
  && Qeq_bool (memory_requirement a) (memory_requirement b).

Definition get_wait_time (self : Task) : Q :=
  match start_time self with
  | Some s => s - arrival_time self
  | None => 0
  end.

Definition get_turnaround_time (self : Task) : Q :=
  match end_time self with
  | Some e => e - arrival_time self
  | None => 0
  end.

Definition get_energy_consumption (self : Task) (power_watts : Q) : Q :=
  let energy_joules := power_watts * duration self in
  let energy_kwh := energy_joules / (3600 * 1000) in
  energy_kwh.

End scheduler.

Import scheduler.

(** ** The object store *)

Definition addr : Type := nat.
Definition heap : Type := addr -> Task.

(** Assignment to the object at address [a]. *)
Definition store (h : heap) (a : addr) (t : Task) : heap :=
  fun x => if Nat.eqb x a then t else h x.

(** ** Python built-ins on lists of objects *)

Section Builtins.
Context {K : Type} (lt : K -> K -> bool) (key : Task -> K) (h : heap).

(** The scan of [min(l, key=...)]: the running minimum is replaced only by
    an item whose key is strictly smaller. *)
Fixpoint min_scan (best : addr) (l : list addr) : addr :=
  match l with
  | [] => best
  | x :: l' =>
      min_scan (if lt (key (h x)) (key (h best)) then x else best) l'
  end.

(** [min(l, key=...)]; [ValueError] on an empty list. *)
Definition py_min (l : list addr) : outcome addr :=
  match l with
  | [] => Raised ValueError
  | x :: l' => Returned (min_scan x l')
  end.

(** Insertion of [x] in front of a sorted list, behind every item whose key
    is strictly smaller. *)
Fixpoint sorted_insert (x : addr) (s : list addr) : list addr :=
  match s with
  | [] => [x]
  | y :: s' =>
      if lt (key (h y)) (key (h x)) then y :: sorted_insert x s'
      else x :: y :: s'
  end.

(** [sorted(l, key=...)]: the stable ascending sort of [l], keys being
    compared with [<] only. *)
Fixpoint py_sorted (l : list addr) : list addr :=
  match l with
  | [] => []
  | x :: l' => sorted_insert x (py_sorted l')
  end.
End Builtins.

(** [l[0]]; [IndexError] on an empty list. *)
Definition py_first (l : list addr) : outcome addr :=
  match l with
  | [] => Raised IndexError
  | x :: _ => Returned x
  end.

(** [l.remove(x)]: drops the first item that is [x] or equals [x];
    [ValueError] when there is none. *)
Fixpoint list_remove (h : heap) (x : addr) (l : list addr) : outcome (list addr) :=
  match l with
  | [] => Raised ValueError
  | y :: l' =>
      if Nat.eqb y x || Task_eq (h y) (h x) then Returned l'
      else do r <- list_remove h x l'; Returned (y :: r)
  end.

(** [x in l]: some item is [x] or equals [x]. *)
Definition py_contains (h : heap) (x : addr) (l : list addr) : bool :=
  existsb (fun y => Nat.eqb y x || Task_eq (h y) (h x)) l.

(** [sorted(l, key=...)] and [l.sort(key=...)] on items of any type: the
    stable ascending sort, keys being compared with [<] only. *)
Section SortedBy.
Context {A K : Type} (lt : K -> K -> bool) (key : A -> K).

Fixpoint insert_by (x : A) (s : list A) : list A :=
  match s with
  | [] => [x]
  | y :: s' =>
      if lt (key y) (key x) then y :: insert_by x s'
      else x :: y :: s'
  end.

Fixpoint sorted_by (l : list A) : list A :=
  match l with
  | [] => []
  | x :: l' => insert_by x (sorted_by l')
  end.
End SortedBy.

(** [<] on the tuples used as sort keys: the first differing component
    decides. *)
Definition tuple2_lt (a b : Z * Q) : bool :=
  if negb (Z.eqb (fst a) (fst b)) then Z.ltb (fst a) (fst b)
  else Qltb (snd a) (snd b).

Definition tuple3_lt (a b : Q * Z * Q) : bool :=
  let '(a1, a2, a3) := a in
  let '(b1, b2, b3) := b in
  if negb (Qeq_bool a1 b1) then Qltb a1 b1
  else if negb (Z.eqb a2 b2) then Z.ltb a2 b2
  else Qltb a3 b3.

(** The keys of the policies. *)
Definition key_duration (t : Task) : Q := duration t.
Definition key_priority (t : Task) : Z * Q := (value (priority t), arrival_time t).
Definition key_cpu (t : Task) : Q := cpu_requirement t.
Definition key_arrival (t : Task) : Q := arrival_time t.
Definition key_energy (t : Task) : Q * Z * Q :=
  (cpu_requirement t, value (priority t), arrival_time t).

(** ** scheduler.py: TaskQueue *)

Module TaskQueue.

Record t : Type := mk { tasks : list addr }.

Definition add_task (self : t) (task : addr) : t :=
  {| tasks := tasks self ++ [task] |}.

Definition is_empty (self : t) : bool :=
  Nat.eqb (length (tasks self)) 0.

Definition get_next_task (h : heap) (self : t) (algorithm : string)
  : outcome (option addr) :=
  match tasks self with
  | [] => Returned None
  | _ :: _ =>
      if String.eqb algorithm "FCFS" then
        do x <- py_first (tasks self); Returned (Some x)
      else if String.eqb algorithm "SJF" then
        do x <- py_min Qltb key_duration h (tasks self); Returned (Some x)
      else if String.eqb algorithm "PriorityBased" then
        do x <- py_min tuple2_lt key_priority h (tasks self); Returned (Some x)
      else if String.eqb algorithm "EnergyOptimized" then
        do x <- py_min Qltb key_cpu h (tasks self); Returned (Some x)
      else
        (* Default: FCFS *)
        do x <- py_first (tasks self); Returned (Some x)
  end.

Definition remove_task (h : heap) (self : t) (task : addr) : outcome t :=
  if py_contains h task (tasks self) then
    do l <- list_remove h task (tasks self); Returned {| tasks := l |}
  else Returned self.

Definition get_task_by_id (h : heap) (self : t) (id : string) : option addr :=
  find (fun task => String.eqb (task_id (h task)) id) (tasks self).

(** [len(queue)] *)
Definition len (self : t) : nat := length (tasks self).

End TaskQueue.

(** ** algorithm.py *)

Module algorithm.

(** The five subclasses of [SchedulingAlgorithm]; [RoundRobinScheduler]
    carries its [time_quantum] attribute. *)
Inductive Policy : Type :=
| FCFSScheduler
| SJFScheduler
| PriorityScheduler
| RoundRobinScheduler (time_quantum : Z)
| EnergyOptimizedScheduler.

(** The attributes set by [SchedulingAlgorithm.__init__]. *)
Record SchedulingAlgorithm : Type := mkScheduler {
  policy : Policy;
  name : string;
  executed_tasks : list addr;
  total_energy : Q;
  total_wait_time : Q;
  total_turnaround_time : Q
}.

(** [SchedulingAlgorithm.__init__(self, name)] *)
Definition init (p : Policy) (name : string) : SchedulingAlgorithm :=
  {| policy := p; name := name; executed_tasks := [];
     total_energy := 0; total_wait_time := 0; total_turnaround_time := 0 |}.

Definition new_FCFSScheduler : SchedulingAlgorithm :=
  init FCFSScheduler "FCFS".
Definition new_SJFScheduler : SchedulingAlgorithm :=
  init SJFScheduler "SJF".
Definition new_PriorityScheduler : SchedulingAlgorithm :=
  init PriorityScheduler "PriorityBased".
Definition new_RoundRobinScheduler (time_quantum : Z) : SchedulingAlgorithm :=
  init (RoundRobinScheduler time_quantum) "RoundRobin".
Definition new_EnergyOptimizedScheduler : SchedulingAlgorithm :=
  init EnergyOptimizedScheduler "EnergyOptimized".

Definition FCFSScheduler_schedule (tasks : list addr) : outcome (option addr) :=
  match tasks with
  | _ :: _ => do x <- py_first tasks; Returned (Some x)
  | [] => Returned None
  end.

Definition SJFScheduler_schedule (h : heap) (tasks : list addr)
  : outcome (option addr) :=
  match tasks with
  | [] => Returned None
  | _ :: _ => do x <- py_min Qltb key_duration h tasks; Returned (Some x)
  end.

Definition PriorityScheduler_schedule (h : heap) (tasks : list addr)
  : outcome (option addr) :=
  match tasks with
  | [] => Returned None
  | _ :: _ => do x <- py_min tuple2_lt key_priority h tasks; Returned (Some x)
  end.

(** [time_quantum] is the attribute of [self]; the body does not read it. *)
Definition RoundRobinScheduler_schedule (time_quantum : Z) (tasks : list addr)
  : outcome (option addr) :=
  match tasks with
  | _ :: _ => do x <- py_first tasks; Returned (Some x)
  | [] => Returned None
  end.

Definition EnergyOptimizedScheduler_schedule (h : heap) (tasks : list addr)
  : outcome (option addr) :=
  match tasks with
  | [] => Returned None
  | _ :: _ =>
      let sorted_tasks := py_sorted tuple3_lt key_energy h tasks in
      do x <- py_first sorted_tasks; Returned (Some x)
  end.

(** Method dispatch of [scheduler.schedule(tasks)]. *)
Definition schedule (h : heap) (self : SchedulingAlgorithm) (tasks : list addr)
  : outcome (option addr) :=
  match policy self with
  | FCFSScheduler => FCFSScheduler_schedule tasks
  | SJFScheduler => SJFScheduler_schedule h tasks
  | PriorityScheduler => PriorityScheduler_schedule h tasks
  | RoundRobinScheduler q => RoundRobinScheduler_schedule q tasks
  | EnergyOptimizedScheduler => EnergyOptimizedScheduler_schedule h tasks
  end.

Definition execute_task (self : SchedulingAlgorithm) (h : heap) (task : addr)
    (current_time power_watts : Q) : SchedulingAlgorithm * heap :=
  let h := store h task (set_start_time (h task) (Some current_time)) in
  let h := store h task
             (set_end_time (h task) (Some (current_time + duration (h task)))) in
  let executed := executed_tasks self ++ [task] in
  let energy_kwh := get_energy_consumption (h task) power_watts in
  ({| policy := policy self; name := name self;
      executed_tasks := executed;
      total_energy := total_energy self + energy_kwh;
      total_wait_time := total_wait_time self + get_wait_time (h task);
      total_turnaround_time :=
        total_turnaround_time self + get_turnaround_time (h task) |}, h).

Definition get_average_wait_time (self : SchedulingAlgorithm) : outcome Q :=
  match executed_tasks self with
  | _ :: _ =>
      py_div (total_wait_time self)
        (inject_Z (Z.of_nat (length (executed_tasks self))))
  | [] => Returned 0
  end.

Definition get_average_turnaround_time (self : SchedulingAlgorithm)
  : outcome Q :=
  match executed_tasks self with
  | _ :: _ =>
      py_div (total_turnaround_time self)
        (inject_Z (Z.of_nat (length (executed_tasks self))))
  | [] => Returned 0
  end.

(** The dictionary returned by [get_metrics], one field per key. *)
Record Metrics : Type := mkMetrics {
  m_algorithm : string;
  total_energy_kwh : Q;
  tasks_executed : nat;
  avg_wait_time : Q;
  avg_turnaround_time : Q;
  co2_emissions_kg : Q
}.

Definition get_metrics (self : SchedulingAlgorithm) : outcome Metrics :=
  do average_wait <- get_average_wait_time self;
  do average_turnaround <- get_average_turnaround_time self;
  Returned
    {| m_algorithm := name self;
       total_energy_kwh := total_energy self;
       tasks_executed := length (executed_tasks self);
       avg_wait_time := average_wait;
       avg_turnaround_time := average_turnaround;
       co2_emissions_kg :=
         total_energy self * config.EMISSION_FACTOR_KG_CO2_PER_KWH |}.

(** [apply_dvfs] of [EnergyOptimizedScheduler]. *)
Definition apply_dvfs (current_power_watts cpu_usage : Q) : Q :=
  if Qltb cpu_usage 30 then current_power_watts * 0.6
  else if Qltb cpu_usage 60 then current_power_watts * 0.8
  else current_power_watts.

End algorithm.

(** ** energy_monitor.py *)

Module energy_monitor.

(** One entry of [readings]: the dictionary built by [record_reading]. *)
Record Reading : Type := mkReading {
  timestamp : Q;
  cpu_usage : Q;
  memory_usage : Q;
  power_watts : Q
}.

Record EnergyMonitor : Type := mkMonitor {
  readings : list Reading;
  total_energy_kwh : Q;
  total_co2_kg : Q;
  total_cost_inr : Q
}.

(** [EnergyMonitor()] *)
Definition init : EnergyMonitor :=
  {| readings := []; total_energy_kwh := 0; total_co2_kg := 0;
     total_cost_inr := 0 |}.

Definition calculate_power_watts (cpu_usage_percent : Q) : Q :=
  let power :=
    config.BASE_POWER_WATTS
    + (config.MAX_POWER_WATTS - config.BASE_POWER_WATTS)
      * (cpu_usage_percent / 100) in
  power.

Definition calculate_co2_emissions (energy_kwh : Q) : Q :=
  energy_kwh * config.EMISSION_FACTOR_KG_CO2_PER_KWH.

Definition calculate_energy_cost (energy_kwh : Q) : Q :=
  energy_kwh * config.POWER_COST_PER_KWH.

(** [record_reading]; [now] is the value of [datetime.now()]. *)
Definition record_reading (self : EnergyMonitor) (now : Q)
    (cpu_usage memory_usage power_watts : Q) : EnergyMonitor :=
  let reading :=
    {| timestamp := now; cpu_usage := cpu_usage;
       memory_usage := memory_usage; power_watts := power_watts |} in
  {| readings := readings self ++ [reading];
     total_energy_kwh := total_energy_kwh self;
     total_co2_kg := total_co2_kg self;
     total_cost_inr := total_cost_inr self |}.

(** [self.readings[i]]; [IndexError] out of range. *)
Definition reading_at (self : EnergyMonitor) (i : nat) : outcome Reading :=
  match readings self !! i with
  | Some r => Returned r
  | None => Raised IndexError
  end.

(** One pass of the body of the [for] loop of [get_total_energy_kwh]. *)
Definition integrate_step (self : EnergyMonitor) (total_joules : outcome Q)
    (i : nat) : outcome Q :=
  do total_joules <- total_joules;
  do current <- reading_at self i;
  do next_reading <- reading_at self (i + 1);
  let time_delta := timestamp next_reading - timestamp current in
  let energy_joules := power_watts current * time_delta in
  Returned (total_joules + energy_joules).

(** [range(n)] for an integer [n] that may be negative. *)
Definition py_range (n : Z) : list nat := seq 0 (Z.to_nat n).

(** Returns the monitor with [total_energy_kwh] updated and the value. *)
Definition get_total_energy_kwh (self : EnergyMonitor)
  : outcome (EnergyMonitor * Q) :=
  do total_joules <-
    fold_left (integrate_step self)
      (py_range (Z.of_nat (length (readings self)) - 1)) (Returned 0);
  let v := total_joules / 3600000 in
  Returned ({| readings := readings self; total_energy_kwh := v;
               total_co2_kg := total_co2_kg self;
               total_cost_inr := total_cost_inr self |}, v).

(** Returns the monitor with [total_energy_kwh] and [total_co2_kg] updated
    and the value. *)
Definition get_total_co2_kg (self : EnergyMonitor)
  : outcome (EnergyMonitor * Q) :=
  do r <- get_total_energy_kwh self;
  let energy_kwh := snd r in
  let v := calculate_co2_emissions energy_kwh in
  Returned ({| readings := readings (fst r);
               total_energy_kwh := total_energy_kwh (fst r);
               total_co2_kg := v;
               total_cost_inr := total_cost_inr (fst r) |}, v).

(** Returns the monitor with [total_energy_kwh] and [total_cost_inr] updated
    and the value. *)
Definition get_total_cost_inr (self : EnergyMonitor)
  : outcome (EnergyMonitor * Q) :=
  do r <- get_total_energy_kwh self;
  let energy_kwh := snd r in
  let v := calculate_energy_cost energy_kwh in
  Returned ({| readings := readings (fst r);
               total_energy_kwh := total_energy_kwh (fst r);
               total_co2_kg := total_co2_kg (fst r);
               total_cost_inr := v |}, v).

End energy_monitor.

(** ** Dictionaries whose items are read in order

    A [dict] with string keys, as the list of its items in insertion order:
    an assignment to a key that is present replaces the value where the item
    stands, an assignment to a new key appends the item. *)

Record py_dict (V : Type) : Type := mk_dict { dict_items : list (string * V) }.
Arguments mk_dict {V} _.
Arguments dict_items {V} _.

Fixpoint items_get {V : Type} (k : string) (l : list (string * V)) : option V :=
  match l with
  | [] => None
  | (k', v) :: l' => if String.eqb k k' then Some v else items_get k l'
  end.

Fixpoint items_set {V : Type} (k : string) (v : V) (l : list (string * V))
  : list (string * V) :=
  match l with
  | [] => [(k, v)]
  | (k', v') :: l' =>
      if String.eqb k k' then (k', v) :: l' else (k', v') :: items_set k v l'
  end.

#[global] Instance py_dict_lookup {V : Type} : Lookup string V (py_dict V) :=
  fun k d => items_get k (dict_items d).

#[global] Instance py_dict_insert {V : Type} : Insert string V (py_dict V) :=
  fun k v d => mk_dict (items_set k v (dict_items d)).

#[global] Instance py_dict_empty {V : Type} : Empty (py_dict V) := mk_dict [].

(** ** simulation.py *)

Module simulation.
Import algorithm.

Record Simulator : Type := mkSimulator {
  tasks : list addr;
  schedulers : gmap string SchedulingAlgorithm;
  monitors : gmap string energy_monitor.EnergyMonitor;
  results : py_dict Metrics
}.

(** [Simulator()] *)
Definition init : Simulator :=
  {| tasks := []; schedulers := empty; monitors := empty; results := empty |}.

Definition initialize_schedulers (self : Simulator) : Simulator :=
  {| tasks := tasks self;
     schedulers :=
       list_to_map
         [("FCFS"%string, new_FCFSScheduler);
          ("SJF"%string, new_SJFScheduler);
          ("PriorityBased"%string, new_PriorityScheduler);
          ("RoundRobin"%string, new_RoundRobinScheduler config.TIME_QUANTUM_MS);
          ("EnergyOptimized"%string, new_EnergyOptimizedScheduler)];
     monitors := monitors self;
     results := results self |}.

(** The variables the [while] loop of [run_simulation_for_algorithm] reads
    and writes, with the object store. *)
Record LoopState : Type := mkLoop {
  ls_heap : heap;
  scheduler : SchedulingAlgorithm;
  monitor : energy_monitor.EnergyMonitor;
  remaining_tasks : list addr;
  current_time : Q
}.

(** [remaining_tasks and current_time < config.SIMULATION_TIME] *)
Definition loop_condition (st : LoopState) : bool :=
  match remaining_tasks st with
  | [] => false
  | _ :: _ => Qltb (current_time st) config.SIMULATION_TIME
  end.

Section Engine.
(** [now k] is the value [datetime.now()] has when the reading number [k]
    of a monitor is recorded. *)
Variable now : nat -> Q.

(** One pass of the body of the [while] loop. *)
Definition loop_body (st : LoopState) : outcome LoopState :=
  do next_task <- schedule (ls_heap st) (scheduler st) (remaining_tasks st);
  match next_task with
  | Some next_task =>
      let power_watts :=
        energy_monitor.calculate_power_watts
          (cpu_requirement (ls_heap st next_task)) in
      let '(scheduler', h) :=
        execute_task (scheduler st) (ls_heap st) next_task
          (current_time st) power_watts in
      let monitor' :=
        energy_monitor.record_reading (monitor st)
          (now (length (energy_monitor.readings (monitor st))))
          (cpu_requirement (h next_task)) 30 power_watts in
      let current_time' := current_time st + duration (h next_task) in
      do remaining <- list_remove h next_task (remaining_tasks st);
      Returned {| ls_heap := h; scheduler := scheduler';
                  monitor := monitor'; remaining_tasks := remaining;
                  current_time := current_time' |}
  | None =>
      Returned {| ls_heap := ls_heap st; scheduler := scheduler st;
                  monitor := monitor st;
                  remaining_tasks := remaining_tasks st;
                  current_time := current_time st + 0.1 |}
  end.

(** The [while] loop; [None] when [fuel] passes do not reach the exit. *)
Fixpoint while_loop (fuel : nat) (st : LoopState)
  : option (outcome LoopState) :=
  if loop_condition st then
    match fuel with
    | O => None
    | S fuel' =>
        match loop_body st with
        | Returned st' => while_loop fuel' st'
        | Raised e => Some (Raised e)
        end
    end
  else Some (Returned st).

(** [run_simulation_for_algorithm] with the number of passes allowed to
    the loop as an argument.  The result holds the simulator, the store
    and the returned metrics. *)
Definition run_simulation_with_fuel (fuel : nat) (self : Simulator)
    (h : heap) (algorithm_name : string) (tasks : list addr)
  : option (outcome (Simulator * heap * Metrics)) :=
  match schedulers self !! algorithm_name with
  | None => Some (Raised (KeyError algorithm_name))
  | Some scheduler0 =>
      let monitor0 := energy_monitor.init in
      let remaining := tasks in
      match while_loop fuel
              {| ls_heap := h; scheduler := scheduler0; monitor := monitor0;
                 remaining_tasks := remaining; current_time := 0 |} with
      | None => None
      | Some (Raised e) => Some (Raised e)
      | Some (Returned st) =>
          let self' :=
            {| tasks := simulation.tasks self;
               schedulers :=
                 <[algorithm_name := scheduler st]> (schedulers self);
               monitors :=
                 <[algorithm_name := monitor st]> (monitors self);
               results := results self |} in
          match get_metrics (scheduler st) with
          | Returned metrics => Some (Returned (self', ls_heap st, metrics))
          | Raised e => Some (Raised e)
          end
      end
  end.

(** Every pass that does not idle removes a task, so the length of the
    batch bounds the number of passes. *)
Definition run_simulation_for_algorithm (self : Simulator) (h : heap)
    (algorithm_name : string) (tasks : list addr)
  : option (outcome (Simulator * heap * Metrics)) :=
  run_simulation_with_fuel (length tasks) self h algorithm_name tasks.

(** The [for] loop of [run_all_simulations]. *)
Fixpoint run_each (names : list string) (self : Simulator) (h : heap)
  : option (outcome (Simulator * heap)) :=
  match names with
  | [] => Some (Returned (self, h))
  | algorithm_name :: names' =>
      match run_simulation_for_algorithm self h algorithm_name
              (tasks self) with
      | None => None
      | Some (Raised e) => Some (Raised e)
      | Some (Returned (self', h', metrics)) =>
          run_each names'
            {| tasks := tasks self'; schedulers := schedulers self';
               monitors := monitors self';
               results := <[algorithm_name := metrics]> (results self') |}
            h'
      end
  end.

Definition run_all_simulations (self : Simulator) (h : heap)
  : option (outcome (Simulator * heap)) :=
  run_each config.ALGORITHMS (initialize_schedulers self) h.
End Engine.

(** What the random sources give for one task: the string
    [str(uuid.uuid4())[:8]], the values of [random.random()] behind the three
    calls of [random.uniform], and the index behind [random.choice]. *)
Record Draw : Type := mkDraw {
  d_uuid : string;
  d_duration : Q;
  d_priority : nat;
  d_arrival_time : Q;
  d_cpu_requirement : Q
}.

(** [random.uniform(a, b)], from the value [u] of [random.random()]. *)
Definition uniform (a b u : Q) : Q := a + (b - a) * u.

(** [random.choice(list(TaskPriority))], from the index drawn (below 3). *)
Definition choice_priority (k : nat) : TaskPriority :=
  match k with
  | O => HIGH
  | S O => MEDIUM
  | _ => LOW
  end.

(** [Task(duration=..., priority=..., arrival_time=..., cpu_requirement=...)] *)
Definition new_task (d : Draw) : Task :=
  {| task_id := d_uuid d;
     duration :=
       uniform config.TASK_DURATION_MIN config.TASK_DURATION_MAX (d_duration d);
     priority := choice_priority (d_priority d);
     arrival_time := uniform 0 (config.SIMULATION_TIME / 2) (d_arrival_time d);
     start_time := None;
     end_time := None;
     cpu_requirement := uniform 10 100 (d_cpu_requirement d);
     memory_requirement := 256 |}.

(** One pass of the [for] loop of [generate_random_tasks]: pass [k] builds a
    task from the draws [draws k], as a new object at the free address
    [alloc + k], and appends it. *)
Definition generate_step (draws : nat -> Draw) (alloc : addr)
    (st : heap * list addr) (k : nat) : heap * list addr :=
  let task := (alloc + k)%nat in
  (store (fst st) task (new_task (draws k)), snd st ++ [task]).

(** The new objects take the addresses from [alloc] on.  The result holds
    the simulator, whose [tasks] is also the value returned, and the store. *)
Definition generate_random_tasks (draws : nat -> Draw) (alloc : addr)
    (self : Simulator) (h : heap) (num_tasks : Z) : Simulator * heap :=
  let st :=
    fold_left (generate_step draws alloc) (energy_monitor.py_range num_tasks)
      (h, []) in
  let tasks' := py_sorted Qltb key_arrival (fst st) (snd st) in
  ({| tasks := tasks'; schedulers := schedulers self;
      monitors := monitors self; results := results self |}, fst st).

(** [l[0]] on a list of items. *)
Definition first_item (l : list (string * Metrics)) : outcome (string * Metrics) :=
  match l with
  | [] => Raised IndexError
  | x :: _ => Returned x
  end.

(** Returns [(best_energy_algo, best_co2_algo)]; [self.results.items()] is
    every item of the dictionary, in insertion order. *)
Definition compare_algorithms (self : Simulator) : outcome (string * string) :=
  let sorted_by_energy :=
    sorted_by Qltb (fun x : string * Metrics => total_energy_kwh (snd x))
      (dict_items (results self)) in
  let sorted_by_co2 :=
    sorted_by Qltb (fun x : string * Metrics => co2_emissions_kg (snd x))
      (dict_items (results self)) in
  do best_energy <- first_item sorted_by_energy;
  do best_co2 <- first_item sorted_by_co2;
  Returned (fst best_energy, fst best_co2).

End simulation.

(** ** IEEE double precision view of the power model

    The same expression as [energy_monitor.calculate_power_watts], on the
    binary64 floats of the machine and with the configured constants. *)

Module power_f64.
Import PrimFloat.
Definition BASE_POWER_WATTS : float := 5%float.
Definition MAX_POWER_WATTS : float := 15%float.
Definition calculate_power_watts (cpu_usage_percent : float) : float :=
  (BASE_POWER_WATTS
   + (MAX_POWER_WATTS - BASE_POWER_WATTS) * (cpu_usage_percent / 100))%float.
End power_f64.

(** ** Notions used in the statements *)

(** Left-endpoint integration of a log of readings, in joules, as the
    specification words it: the sum over consecutive pairs of
    [power_i * (t_{i+1} - t_i)]. *)
Fixpoint left_endpoint_joules (l : list energy_monitor.Reading) : Q :=
  match l with
  | r :: (r' :: _) as tl =>
      energy_monitor.power_watts r
      * (energy_monitor.timestamp r' - energy_monitor.timestamp r)
      + left_endpoint_joules tl
  | _ => 0
  end.

(** The time cursor of the engine after the tasks [l] have run from [t0]. *)
Definition cursor_after (h : heap) (t0 : Q) (l : list addr) : Q :=
  fold_left (fun t a => t + duration (h a)) l t0.

(** Lexicographic order on the keys [(cpu_requirement, priority_rank,
    arrival_time)]. *)
Definition energy_key_le (t u : Task) : Prop :=
  cpu_requirement t < cpu_requirement u
  \/ (cpu_requirement t == cpu_requirement u
      /\ (value (priority t) < value (priority u))%Z)
  \/ (cpu_requirement t == cpu_requirement u
      /\ value (priority t) = value (priority u)
      /\ arrival_time t <= arrival_time u).

(** [b] is the first item of [l] whose key is minimal: every item before it
    has a strictly greater key, no item behind it has a smaller one. *)
Definition first_min {K : Type} (lt : K -> K -> bool) (key : Task -> K)
    (h : heap) (l : list addr) (b : addr) : Prop :=
  exists l1 l2,
    l = l1 ++ b :: l2
    /\ (forall u, In u l1 -> lt (key (h b)) (key (h u)) = true)
    /\ (forall u, In u l2 -> lt (key (h u)) (key (h b)) = false).

(** Ascending arrival times along a list of tasks: no task arrives later
    than a task behind it. *)
Fixpoint sorted_by_arrival (h : heap) (l : list addr) : Prop :=
  match l with
  | [] => True
  | a :: l' =>
      Forall (fun b => arrival_time (h a) <= arrival_time (h b)) l'
      /\ sorted_by_arrival h l'
  end.

(** Two tasks that agree on every field a policy reads. *)
Definition same_key (t u : Task) : Prop :=
  duration t == duration u
  /\ priority t = priority u
  /\ arrival_time t == arrival_time u
  /\ cpu_requirement t == cpu_requirement u.

(** Two stores that differ at most in [start_time] and [end_time]. *)
Definition same_static (h h' : heap) : Prop :=
  forall a,
    task_id (h' a) = task_id (h a)
    /\ duration (h' a) = duration (h a)
    /\ priority (h' a) = priority (h a)
    /\ arrival_time (h' a) = arrival_time (h a)
    /\ cpu_requirement (h' a) = cpu_requirement (h a)
    /\ memory_requirement (h' a) = memory_requirement (h a).

(** What passes of the loop of the engine do between a state [st] and a
    later state [st']: the tasks [e] are executed in this order, each one at
    the time cursor reached by then. *)
Definition loop_result (st st' : simulation.LoopState) (e : list addr) : Prop :=
  algorithm.executed_tasks (simulation.scheduler st')
  = algorithm.executed_tasks (simulation.scheduler st) ++ e
  /\ algorithm.policy (simulation.scheduler st')
     = algorithm.policy (simulation.scheduler st)
  /\ algorithm.name (simulation.scheduler st')
     = algorithm.name (simulation.scheduler st)
  /\ (forall a, In a e -> In a (simulation.remaining_tasks st))
  /\ (forall a, ~ In a e -> simulation.ls_heap st' a = simulation.ls_heap st a)
  /\ same_static (simulation.ls_heap st) (simulation.ls_heap st')
  /\ (List.NoDup (simulation.remaining_tasks st) ->
      List.NoDup e
      /\ forall i a, e !! i = Some a ->
           start_time (simulation.ls_heap st' a)
           = Some (cursor_after (simulation.ls_heap st)
                     (simulation.current_time st) (take i e))
           /\ end_time (simulation.ls_heap st' a)
              = Some (cursor_after (simulation.ls_heap st)
                        (simulation.current_time st) (take i e)
                      + duration (simulation.ls_heap st a))).

(** The record [get_metrics] returns for a scheduler, in closed form. *)
Definition metrics_of (s : algorithm.SchedulingAlgorithm) : algorithm.Metrics :=
  {| algorithm.m_algorithm := algorithm.name s;
     algorithm.total_energy_kwh := algorithm.total_energy s;
     algorithm.tasks_executed := length (algorithm.executed_tasks s);
     algorithm.avg_wait_time :=
       match algorithm.executed_tasks s with
       | [] => 0
       | _ :: _ =>
           algorithm.total_wait_time s
           / inject_Z (Z.of_nat (length (algorithm.executed_tasks s)))
       end;
     algorithm.avg_turnaround_time :=
       match algorithm.executed_tasks s with
       | [] => 0
       | _ :: _ =>
           algorithm.total_turnaround_time s
           / inject_Z (Z.of_nat (length (algorithm.executed_tasks s)))
       end;
     algorithm.co2_emissions_kg :=
       algorithm.total_energy s * config.EMISSION_FACTOR_KG_CO2_PER_KWH |}.

(** Lexicographic order on the keys [(priority_rank, arrival_time)]. *)
Definition priority_key_le (t u : Task) : Prop :=
  (value (priority t) < value (priority u))%Z
  \/ (value (priority t) = value (priority u)
      /\ arrival_time t <= arrival_time u).

(** The energy the engine charges for a task: its duration at the power of
    its CPU requirement. *)
Definition energy_of (h : heap) (a : addr) : Q :=
  get_energy_consumption (h a)
    (energy_monitor.calculate_power_watts (cpu_requirement (h a))).

(** The accumulators of a scheduler after the tasks [l] have run from the
    time [t0], added in the order of execution. *)
Definition energy_after (h : heap) (acc : Q) (l : list addr) : Q :=
  fold_left (fun acc a => acc + energy_of h a) l acc.

Fixpoint wait_after (h : heap) (t0 acc : Q) (l : list addr) : Q :=
  match l with
  | [] => acc
  | a :: l' =>
      wait_after h (t0 + duration (h a)) (acc + (t0 - arrival_time (h a))) l'
  end.

Fixpoint turnaround_after (h : heap) (t0 acc : Q) (l : list addr) : Q :=
  match l with
  | [] => acc
  | a :: l' =>
      turnaround_after h (t0 + duration (h a))
        (acc + (t0 + duration (h a) - arrival_time (h a))) l'
  end.

(** The sum of the durations of a batch. *)
Definition sum_durations (h : heap) (l : list addr) : Q :=
  fold_right (fun a s => duration (h a) + s) 0 l.

(** The readings the engine records for the tasks [l], the first one being
    the reading number [k] of the monitor. *)
Fixpoint readings_of (now : nat -> Q) (h : heap) (k : nat) (l : list addr)
  : list energy_monitor.Reading :=
  match l with
  | [] => []
  | a :: l' =>
      {| energy_monitor.timestamp := now k;
         energy_monitor.cpu_usage := cpu_requirement (h a);
         energy_monitor.memory_usage := 30;
         energy_monitor.power_watts :=
           energy_monitor.calculate_power_watts (cpu_requirement (h a)) |}
      :: readings_of now h (S k) l'
  end.

(** What the passes of the loop that execute [e] do to the time cursor, the
    accumulators, the monitor and the list of remaining tasks. *)
Definition loop_metrics (now : nat -> Q) (st st' : simulation.LoopState)
    (e : list addr) : Prop :=
  simulation.current_time st'
  = cursor_after (simulation.ls_heap st) (simulation.current_time st) e
  /\ algorithm.total_energy (simulation.scheduler st')
     = energy_after (simulation.ls_heap st)
         (algorithm.total_energy (simulation.scheduler st)) e
  /\ algorithm.total_wait_time (simulation.scheduler st')
     = wait_after (simulation.ls_heap st) (simulation.current_time st)
         (algorithm.total_wait_time (simulation.scheduler st)) e
  /\ algorithm.total_turnaround_time (simulation.scheduler st')
     = turnaround_after (simulation.ls_heap st) (simulation.current_time st)
         (algorithm.total_turnaround_time (simulation.scheduler st)) e
  /\ energy_monitor.readings (simulation.monitor st')
     = energy_monitor.readings (simulation.monitor st)
       ++ readings_of now (simulation.ls_heap st)
            (length (energy_monitor.readings (simulation.monitor st))) e
  /\ Permutation (simulation.remaining_tasks st)
       (e ++ simulation.remaining_tasks st')
  /\ (simulation.remaining_tasks st' = []
      \/ config.SIMULATION_TIME <= simulation.current_time st')
  /\ (forall i a, e !! i = Some a ->
        cursor_after (simulation.ls_heap st) (simulation.current_time st)
          (take i e) < config.SIMULATION_TIME).

(** A log whose timestamps never go back. *)
Fixpoint ascending_timestamps (l : list energy_monitor.Reading) : Prop :=
  match l with
  | r :: (r' :: _) as tl =>
      energy_monitor.timestamp r <= energy_monitor.timestamp r'
      /\ ascending_timestamps tl
  | _ => True
  end.

(** The contract of [random.random()]: a value of [[0.0, 1.0)]. *)
Definition unit_interval (u : Q) : Prop := 0 <= u /\ u < 1.

(** ** Sample objects *)

Module samples.
Definition task (id : string) (d : Q) (p : TaskPriority) (arrival cpu : Q) : Task :=
  {| task_id := id; duration := d; priority := p; arrival_time := arrival;
     start_time := None; end_time := None; cpu_requirement := cpu;
     memory_requirement := 256 |}.

(** Three tasks, at addresses 0, 1 and 2 (and beyond). *)
Definition abc : heap := fun a =>
  match a with
  | O => task "A" 2 LOW 0 80
  | S O => task "B" 1 HIGH 0 20
  | _ => task "C" 3 MEDIUM 0 50
  end.

(** Two tasks of one duration, the later arrival first. *)
Definition ties : heap := fun a =>
  match a with
  | O => task "A" 1 MEDIUM 5 50
  | _ => task "B" 1 MEDIUM 0 50
  end.

(** Two tasks of one CPU requirement, the lower priority first. *)
Definition cpu_ties : heap := fun a =>
  match a with
  | O => task "A" 1 LOW 0 50
  | _ => task "B" 1 HIGH 0 50
  end.

Definition fresh (batch : list addr) : simulation.Simulator :=
  simulation.initialize_schedulers
    {| simulation.tasks := batch; simulation.schedulers := empty;
       simulation.monitors := empty; simulation.results := empty |}.

Definition readings3 : list energy_monitor.Reading :=
  [energy_monitor.mkReading 0 50 30 10;
   energy_monitor.mkReading 2 80 30 13;
   energy_monitor.mkReading 5 20 30 7].
End samples.

(** * Properties *)

(** ** Comparisons *)

Lemma Qltb_lt (a b : Q) : Qltb a b = true <-> a < b.
Proof.
  unfold Qltb. rewrite negb_true_iff. split; intros H.
  - apply Qnot_le_lt. intros Hle. apply Qle_bool_iff in Hle. congruence.
  - destruct (Qle_bool b a) eqn:E; [|reflexivity].
    apply Qle_bool_iff in E. exfalso. apply (Qlt_not_le _ _ H E).
Qed.

Lemma Qltb_ge (a b : Q) : Qltb a b = false <-> b <= a.
Proof.
  unfold Qltb. rewrite negb_false_iff. apply Qle_bool_iff.
Qed.

Lemma Qeq_bool_false (a b : Q) : Qeq_bool a b = false <-> ~ a == b.
Proof.
  split.
  - intros H E. apply Qeq_bool_iff in E. congruence.
  - intros H. destruct (Qeq_bool a b) eqn:E; [|reflexivity].
    apply Qeq_bool_iff in E. contradiction.
Qed.

(** ** Task accessors *)

(** C10: a task whose [start_time] is unset has wait time 0.0, and a task
    whose [end_time] is unset has turnaround time 0.0; both accessors are
    total, so neither raises on a task that never ran. *)
Theorem accessors_of_unexecuted_task (t : Task) :
  (start_time t = None -> get_wait_time t = 0)
  /\ (end_time t = None -> get_turnaround_time t = 0).
Proof.
  unfold get_wait_time, get_turnaround_time.
  split; intros ->; reflexivity.
Qed.

Lemma accessors_of_unexecuted_task_witness :
  start_time (samples.abc 0%nat) = None
  /\ end_time (samples.abc 0%nat) = None
  /\ get_wait_time (samples.abc 0%nat) = 0
  /\ get_turnaround_time (samples.abc 0%nat) = 0.
Proof.
  destruct (accessors_of_unexecuted_task (samples.abc 0%nat)) as [Hw Ht].
  split; [reflexivity|]. split; [reflexivity|].
  split; [apply Hw | apply Ht]; reflexivity.
Defined.

(** ** The power model *)

(** C8: the power model is [base + (max - base) * (usage / 100)]; it gives
    the base power at 0 and the maximum power at 100 (also when evaluated
    on binary64 floats), and it is monotonic non-decreasing on [0, 100]. *)
Theorem calculate_power_watts_linear (u1 u2 : Q) :
  0 <= u1 -> u1 <= u2 -> u2 <= 100 ->
  energy_monitor.calculate_power_watts 0 == config.BASE_POWER_WATTS
  /\ energy_monitor.calculate_power_watts 100 == config.MAX_POWER_WATTS
  /\ power_f64.calculate_power_watts 0%float = power_f64.BASE_POWER_WATTS
  /\ power_f64.calculate_power_watts 100%float = power_f64.MAX_POWER_WATTS
  /\ energy_monitor.calculate_power_watts u1
     == config.BASE_POWER_WATTS
        + (config.MAX_POWER_WATTS - config.BASE_POWER_WATTS) * (u1 / 100)
  /\ energy_monitor.calculate_power_watts u1
     <= energy_monitor.calculate_power_watts u2.
Proof.
  intros H0 H12 H100.
  split; [reflexivity|]. split; [reflexivity|].
  split; [vm_compute; reflexivity|]. split; [vm_compute; reflexivity|].
  split; [reflexivity|].
  unfold energy_monitor.calculate_power_watts,
    config.BASE_POWER_WATTS, config.MAX_POWER_WATTS.
  assert (E : forall u, u / 100 == u * (1 # 100)) by (intro; field).
  rewrite !E. lra.
Qed.

Lemma calculate_power_watts_linear_witness :
  energy_monitor.calculate_power_watts 20
  <= energy_monitor.calculate_power_watts 50.
Proof.
  apply (calculate_power_watts_linear 20 50); vm_compute; discriminate.
Defined.

(** ** Selection at position 0 *)

(** C6: on every list of tasks the RoundRobin policy selects exactly what
    the FCFS policy selects, the task at position 0 of a non-empty list and
    none on the empty list, whatever the time quantum. *)
Theorem round_robin_selects_like_fcfs
    (h : heap) (time_quantum time_quantum' : Z) (tasks : list addr) :
  algorithm.RoundRobinScheduler_schedule time_quantum tasks
  = algorithm.FCFSScheduler_schedule tasks
  /\ algorithm.schedule h (algorithm.new_RoundRobinScheduler time_quantum) tasks
     = algorithm.schedule h algorithm.new_FCFSScheduler tasks
  /\ algorithm.FCFSScheduler_schedule tasks = Returned (head tasks)
  /\ algorithm.RoundRobinScheduler_schedule time_quantum tasks
     = algorithm.RoundRobinScheduler_schedule time_quantum' tasks.
Proof.
  destruct tasks as [|x l]; repeat split; reflexivity.
Qed.

(** ** The lookup helper of the queue *)

Lemma unregistered_name (algorithm : string) :
  ~ In algorithm config.ALGORITHMS ->
  String.eqb algorithm "FCFS" = false
  /\ String.eqb algorithm "SJF" = false
  /\ String.eqb algorithm "PriorityBased" = false
  /\ String.eqb algorithm "EnergyOptimized" = false.
Proof.
  intros Hn. unfold config.ALGORITHMS in Hn. simpl in Hn.
  repeat split; apply String.eqb_neq; intros ->; apply Hn; tauto.
Qed.

(** C5, as the code has it: for a name outside the registered set and a
    non-empty queue, [get_next_task] raises nothing; it returns the task at
    position 0, the answer it gives for FCFS. *)
Theorem get_next_task_defaults_to_fcfs
    (h : heap) (self : TaskQueue.t) (algorithm : string) :
  ~ In algorithm config.ALGORITHMS ->
  TaskQueue.tasks self <> [] ->
  TaskQueue.get_next_task h self algorithm = Returned (head (TaskQueue.tasks self))
  /\ TaskQueue.get_next_task h self algorithm
     = TaskQueue.get_next_task h self "FCFS".
Proof.
  intros Hn Hne.
  destruct (unregistered_name algorithm Hn) as (E1 & E2 & E3 & E4).
  unfold TaskQueue.get_next_task.
  destruct (TaskQueue.tasks self) as [|x l]; [contradiction|].
  rewrite E1, E2, E3, E4. split; reflexivity.
Qed.

Lemma get_next_task_defaults_to_fcfs_witness :
  TaskQueue.get_next_task samples.abc (TaskQueue.mk [1; 0; 2]%nat) "LIFO"
  = Returned (Some 1%nat).
Proof.
  apply (get_next_task_defaults_to_fcfs samples.abc
           (TaskQueue.mk [1; 0; 2]%nat) "LIFO").
  - unfold config.ALGORITHMS. simpl. intros H.
    repeat (destruct H as [H|H]; [discriminate H|]). exact H.
  - discriminate.
Defined.

(** C5, as stated, fails: for the unregistered name LIFO and a queue of three
    tasks the helper returns the first task, as it does for FCFS, and raises
    no error. *)
Lemma get_next_task_unknown_name_counterexample :
  ~ In "LIFO"%string config.ALGORITHMS
  /\ TaskQueue.tasks (TaskQueue.mk [1; 0; 2]%nat) <> []
  /\ TaskQueue.get_next_task samples.abc (TaskQueue.mk [1; 0; 2]%nat) "LIFO"
     = Returned (Some 1%nat)
  /\ TaskQueue.get_next_task samples.abc (TaskQueue.mk [1; 0; 2]%nat) "LIFO"
     = TaskQueue.get_next_task samples.abc (TaskQueue.mk [1; 0; 2]%nat) "FCFS"
  /\ ~ (exists e,
         TaskQueue.get_next_task samples.abc (TaskQueue.mk [1; 0; 2]%nat) "LIFO"
         = Raised e).
Proof.
  split.
  { unfold config.ALGORITHMS. simpl. intros H.
    repeat (destruct H as [H|H]; [discriminate H|]). exact H. }
  split; [discriminate|].
  split; [reflexivity|]. split; [reflexivity|].
  intros [e He]. discriminate He.
Qed.

(** ** Integration of the energy log *)

Lemma integrate_step_in_range
    (self : energy_monitor.EnergyMonitor) (acc : Q) (k : nat)
    (r r' : energy_monitor.Reading) :
  energy_monitor.readings self !! k = Some r ->
  energy_monitor.readings self !! S k = Some r' ->
  energy_monitor.integrate_step self (Returned acc) k
  = Returned (acc + energy_monitor.power_watts r
                    * (energy_monitor.timestamp r' - energy_monitor.timestamp r)).
Proof.
  intros Hr Hr'. unfold energy_monitor.integrate_step, energy_monitor.reading_at.
  replace (k + 1)%nat with (S k) by lia. rewrite Hr, Hr'. reflexivity.
Qed.

Lemma integrate_prefix (self : energy_monitor.EnergyMonitor) (n k : nat) (acc : Q) :
  (k + n + 1 = length (energy_monitor.readings self))%nat ->
  exists v,
    fold_left (energy_monitor.integrate_step self) (seq k n) (Returned acc)
    = Returned v
    /\ v == acc + left_endpoint_joules (drop k (energy_monitor.readings self)).
Proof.
  revert k acc. induction n as [|n IH]; intros k acc Hlen.
  - exists acc. split; [reflexivity|].
    destruct (lookup_lt_is_Some_2 (energy_monitor.readings self) k) as [r Hr];
      [lia|].
    rewrite (drop_S _ _ _ Hr).
    rewrite (drop_ge _ (S k)) by lia. simpl. lra.
  - destruct (lookup_lt_is_Some_2 (energy_monitor.readings self) k) as [r Hr];
      [lia|].
    destruct (lookup_lt_is_Some_2 (energy_monitor.readings self) (S k))
      as [r' Hr']; [lia|].
    cbn [seq fold_left]. rewrite (integrate_step_in_range self acc k r r' Hr Hr').
    destruct (IH (S k)
                (acc + energy_monitor.power_watts r
                       * (energy_monitor.timestamp r'
                          - energy_monitor.timestamp r)))
      as (v & Hv & Ev); [lia|].
    exists v. split; [exact Hv|].
    rewrite Ev. rewrite (drop_S _ _ _ Hr), (drop_S _ _ _ Hr').
    simpl. lra.
Qed.

(** C7: the total energy of a log is the left-endpoint sum
    [power_i * (t_{i+1} - t_i)] over the consecutive pairs of readings,
    divided by 3,600,000; the call raises nothing, and the value is zero
    when the log holds fewer than two readings. *)
Theorem get_total_energy_kwh_left_endpoint (self : energy_monitor.EnergyMonitor) :
  exists self' v,
    energy_monitor.get_total_energy_kwh self = Returned (self', v)
    /\ energy_monitor.total_energy_kwh self' = v
    /\ energy_monitor.readings self' = energy_monitor.readings self
    /\ v == left_endpoint_joules (energy_monitor.readings self) / 3600000
    /\ ((length (energy_monitor.readings self) < 2)%nat -> v == 0).
Proof.
  unfold energy_monitor.get_total_energy_kwh, energy_monitor.py_range.
  destruct (energy_monitor.readings self) as [|r l] eqn:El.
  - simpl. eexists _, _. split; [reflexivity|].
    repeat split; simpl; try reflexivity.
  - destruct (integrate_prefix self (length l) 0 0) as (v & Hv & Ev).
    { rewrite El. simpl. lia. }
    replace (Z.to_nat (Z.of_nat (length (r :: l)) - 1)) with (length l)
      by (simpl length; lia).
    rewrite Hv. simpl bind. eexists _, _. split; [reflexivity|].
    split; [reflexivity|]. split; [reflexivity|].
    rewrite El in Ev. rewrite drop_0 in Ev.
    assert (Ev' : v == left_endpoint_joules (r :: l)) by (rewrite Ev; ring).
    split.
    + rewrite Ev'. reflexivity.
    + intros Hlt. destruct l as [|r' l']; [|simpl in Hlt; lia].
      rewrite Ev'. reflexivity.
Qed.

Lemma get_total_energy_kwh_left_endpoint_witness :
  exists self' v,
    energy_monitor.get_total_energy_kwh
      (energy_monitor.mkMonitor [energy_monitor.mkReading 0 50 30 10] 0 0 0)
    = Returned (self', v)
    /\ v == 0.
Proof.
  destruct (get_total_energy_kwh_left_endpoint
              (energy_monitor.mkMonitor [energy_monitor.mkReading 0 50 30 10] 0 0 0))
    as (self' & v & Hrun & _ & _ & _ & Hzero).
  exists self', v. split; [exact Hrun|].
  apply Hzero. simpl. lia.
Defined.

(** The log of three readings (0s, 10W), (2s, 13W), (5s, 7W) integrates to
    10 * 2 + 13 * 3 joules: the power of the last reading is not used. *)
Lemma get_total_energy_kwh_sample :
  exists self',
    energy_monitor.get_total_energy_kwh
      (energy_monitor.mkMonitor samples.readings3 0 0 0)
    = Returned (self', (0 + 10 * (2 - 0) + 13 * (5 - 2)) / 3600000).
Proof.
  eexists. reflexivity.
Qed.

(** ** The registered schedulers *)

Lemma registered_scheduler (self : simulation.Simulator) (name : string) :
  In name config.ALGORITHMS ->
  exists p,
    simulation.schedulers (simulation.initialize_schedulers self) !! name
    = Some (algorithm.init p name).
Proof.
  unfold config.ALGORITHMS. simpl.
  intros [<-|[<-|[<-|[<-|[<-|[]]]]]]; eexists; reflexivity.
Qed.

(** ** The first minimum of a list *)

Section FirstMinimum.
Context {K : Type} (lt : K -> K -> bool) (key : Task -> K) (h : heap).
Hypothesis lt_irrefl : forall a, lt a a = false.
Hypothesis lt_trans :
  forall a b c, lt a b = true -> lt b c = true -> lt a c = true.
Hypothesis lt_neg_trans :
  forall a b c, lt a b = false -> lt b c = false -> lt a c = false.

Lemma lt_below (a b c : K) :
  lt a b = true -> lt c b = false -> lt a c = true.
Proof.
  intros Hab Hcb. destruct (lt a c) eqn:E; [reflexivity|].
  rewrite (lt_neg_trans a c b E Hcb) in Hab. discriminate.
Qed.

Lemma min_scan_first_min (rest pre mid : list addr) (best : addr) :
  (forall u, In u pre -> lt (key (h best)) (key (h u)) = true) ->
  (forall u, In u mid -> lt (key (h u)) (key (h best)) = false) ->
  first_min lt key h (pre ++ best :: mid ++ rest) (min_scan lt key h best rest).
Proof.
  revert pre mid best.
  induction rest as [|x rest IH]; intros pre mid best Hpre Hmid.
  - exists pre, mid. rewrite app_nil_r. auto.
  - simpl min_scan. destruct (lt (key (h x)) (key (h best))) eqn:E.
    + replace (pre ++ best :: mid ++ x :: rest)
        with ((pre ++ best :: mid) ++ x :: [] ++ rest)
        by (rewrite <- app_assoc; reflexivity).
      apply IH.
      * intros u Hu. apply in_app_or in Hu. destruct Hu as [Hu|[<-|Hu]].
        -- apply (lt_trans _ _ _ E (Hpre u Hu)).
        -- exact E.
        -- apply (lt_below _ _ _ E (Hmid u Hu)).
      * intros u [].
    + replace (pre ++ best :: mid ++ x :: rest)
        with (pre ++ best :: (mid ++ [x]) ++ rest)
        by (rewrite <- app_assoc; reflexivity).
      apply IH; [exact Hpre|].
      intros u Hu. apply in_app_or in Hu. destruct Hu as [Hu|[<-|[]]].
      * apply Hmid, Hu.
      * exact E.
Qed.

Lemma py_min_first_min (l : list addr) :
  l <> [] ->
  exists b, py_min lt key h l = Returned b /\ first_min lt key h l b.
Proof.
  destruct l as [|x l]; [congruence|]. intros _.
  exists (min_scan lt key h x l). split; [reflexivity|].
  apply (min_scan_first_min l [] [] x); intros u [].
Qed.

Lemma sorted_insert_head (x : addr) (s : list addr) :
  head (sorted_insert lt key h x s)
  = match s with
    | [] => Some x
    | y :: _ => if lt (key (h y)) (key (h x)) then Some y else Some x
    end.
Proof.
  destruct s as [|y s]; [reflexivity|]. simpl.
  destruct (lt (key (h y)) (key (h x))); reflexivity.
Qed.

Lemma py_sorted_first_min (l : list addr) :
  l <> [] ->
  exists b, head (py_sorted lt key h l) = Some b /\ first_min lt key h l b.
Proof.
  induction l as [|x l IH]; [congruence|]. intros _.
  simpl py_sorted. rewrite sorted_insert_head.
  destruct l as [|y l].
  - exists x. split; [reflexivity|]. exists [], []. repeat split; intros u [].
  - destruct IH as (b & Hb & l1 & l2 & El & H1 & H2); [discriminate|].
    destruct (py_sorted lt key h (y :: l)) as [|z s] eqn:Es; [discriminate|].
    simpl in Hb. injection Hb as ->.
    destruct (lt (key (h b)) (key (h x))) eqn:E.
    + exists b. split; [reflexivity|].
      exists (x :: l1), l2. rewrite El. split; [reflexivity|]. split; [|exact H2].
      intros u [<-|Hu]; [exact E | apply H1, Hu].
    + exists x. split; [reflexivity|].
      exists [], (y :: l). split; [reflexivity|]. split; [intros u []|].
      intros u Hu. rewrite El in Hu. apply in_app_or in Hu.
      destruct Hu as [Hu|[<-|Hu]].
      * destruct (lt (key (h u)) (key (h x))) eqn:Eu; [|reflexivity].
        pose proof (lt_trans _ _ _ (H1 u Hu) Eu) as Hbx. congruence.
      * exact E.
      * apply (lt_neg_trans _ _ _ (H2 u Hu) E).
Qed.

Lemma first_min_in (l : list addr) (b : addr) :
  first_min lt key h l b -> In b l.
Proof.
  intros (l1 & l2 & -> & _). apply in_or_app. right. left. reflexivity.
Qed.

Lemma first_min_le (l : list addr) (b u : addr) :
  first_min lt key h l b -> In u l -> lt (key (h u)) (key (h b)) = false.
Proof.
  intros (l1 & l2 & -> & H1 & H2) Hu. apply in_app_or in Hu.
  destruct Hu as [Hu|[<-|Hu]].
  - destruct (lt (key (h u)) (key (h b))) eqn:E; [|reflexivity].
    pose proof (lt_trans _ _ _ (H1 u Hu) E) as Hbb.
    rewrite lt_irrefl in Hbb. discriminate.
  - apply lt_irrefl.
  - apply H2, Hu.
Qed.

End FirstMinimum.

(** ** The comparisons of the policies are strict weak orders *)

Ltac reflect_cmp :=
  repeat match goal with
  | H : Qltb _ _ = true |- _ => apply Qltb_lt in H
  | H : Qltb _ _ = false |- _ => apply Qltb_ge in H
  | H : Qeq_bool _ _ = true |- _ => apply Qeq_bool_iff in H
  | H : Qeq_bool _ _ = false |- _ => apply Qeq_bool_false in H
  | H : Z.eqb _ _ = true |- _ => apply Z.eqb_eq in H
  | H : Z.eqb _ _ = false |- _ => apply Z.eqb_neq in H
  | H : Z.ltb _ _ = true |- _ => apply Z.ltb_lt in H
  | H : Z.ltb _ _ = false |- _ => apply Z.ltb_ge in H
  end.

Ltac case_cmp :=
  repeat (match goal with
          | |- context [Qeq_bool ?a ?b] => destruct (Qeq_bool a b) eqn:?
          | |- context [Z.eqb ?a ?b] => destruct (Z.eqb a b) eqn:?
          | |- context [Z.ltb ?a ?b] => destruct (Z.ltb a b) eqn:?
          | |- context [Qltb ?a ?b] => destruct (Qltb a b) eqn:?
          end;
          simpl negb; cbv beta iota;
          try solve [intros; discriminate]).

(** Closes a goal made of comparisons; the hypotheses on comparisons are to
    be in the goal, as premises. *)
Ltac solve_cmp :=
  case_cmp; intros; try reflexivity; exfalso; reflect_cmp;
  first [lra | lia].

Lemma Qltb_irrefl (a : Q) : Qltb a a = false.
Proof. apply Qltb_ge. apply Qle_refl. Qed.

Lemma Qltb_trans (a b c : Q) :
  Qltb a b = true -> Qltb b c = true -> Qltb a c = true.
Proof. solve_cmp. Qed.

Lemma Qltb_neg_trans (a b c : Q) :
  Qltb a b = false -> Qltb b c = false -> Qltb a c = false.
Proof. solve_cmp. Qed.

Lemma tuple2_lt_irrefl (a : Z * Q) : tuple2_lt a a = false.
Proof.
  destruct a as [a1 a2]. unfold tuple2_lt. simpl fst. simpl snd.
  rewrite Z.eqb_refl. apply Qltb_irrefl.
Qed.

Lemma tuple2_lt_trans (a b c : Z * Q) :
  tuple2_lt a b = true -> tuple2_lt b c = true -> tuple2_lt a c = true.
Proof.
  destruct a as [a1 a2], b as [b1 b2], c as [c1 c2].
  unfold tuple2_lt. simpl fst. simpl snd. solve_cmp.
Qed.

Lemma tuple2_lt_neg_trans (a b c : Z * Q) :
  tuple2_lt a b = false -> tuple2_lt b c = false -> tuple2_lt a c = false.
Proof.
  destruct a as [a1 a2], b as [b1 b2], c as [c1 c2].
  unfold tuple2_lt. simpl fst. simpl snd. solve_cmp.
Qed.

Lemma tuple3_lt_irrefl (a : Q * Z * Q) : tuple3_lt a a = false.
Proof.
  destruct a as [[a1 a2] a3]. unfold tuple3_lt.
  rewrite Z.eqb_refl.
  replace (Qeq_bool a1 a1) with true
    by (symmetry; apply Qeq_bool_iff; reflexivity).
  apply Qltb_irrefl.
Qed.

Lemma tuple3_lt_trans (a b c : Q * Z * Q) :
  tuple3_lt a b = true -> tuple3_lt b c = true -> tuple3_lt a c = true.
Proof.
  destruct a as [[a1 a2] a3], b as [[b1 b2] b3], c as [[c1 c2] c3].
  unfold tuple3_lt. solve_cmp.
Qed.

Lemma tuple3_lt_neg_trans (a b c : Q * Z * Q) :
  tuple3_lt a b = false -> tuple3_lt b c = false -> tuple3_lt a c = false.
Proof.
  destruct a as [[a1 a2] a3], b as [[b1 b2] b3], c as [[c1 c2] c3].
  unfold tuple3_lt. solve_cmp.
Qed.

(** ** Shortest job first *)






(** ** Energy-optimized selection *)

Lemma energy_key_le_of_not_lt (t u : Task) :
  tuple3_lt (key_energy u) (key_energy t) = false -> energy_key_le t u.
Proof.
  unfold tuple3_lt, key_energy, energy_key_le.
  case_cmp; intros; reflect_cmp;
    first [ left; lra
          | right; left; split; [lra | lia]
          | right; right; split; [lra | split; [lia | lra]] ].
Qed.

Lemma energy_key_lt_not_le (t u : Task) :
  tuple3_lt (key_energy t) (key_energy u) = true -> ~ energy_key_le u t.
Proof.
  unfold tuple3_lt, key_energy, energy_key_le.
  case_cmp; intros; reflect_cmp;
    intros [Hx|[[Hx Hy]|(Hx & Hy & Hz)]]; first [lra | lia].
Qed.

(** X8: on a non-empty ready set the EnergyOptimized policy returns a task
    whose key [(cpu_requirement, priority_rank, arrival_time)] is minimal in
    lexicographic order, with ranks HIGH = 1 < MEDIUM = 2 < LOW = 3; it is the
    first task of the list with that key. *)
Theorem energy_optimized_selects_minimum_key (h : heap) (tasks : list addr) :
  tasks <> [] ->
  exists t l1 l2,
    algorithm.EnergyOptimizedScheduler_schedule h tasks = Returned (Some t)
    /\ algorithm.schedule h algorithm.new_EnergyOptimizedScheduler tasks
       = Returned (Some t)
    /\ tasks = l1 ++ t :: l2
    /\ (forall u, In u tasks -> energy_key_le (h t) (h u))
    /\ (forall u, In u l1 -> ~ energy_key_le (h u) (h t))
    /\ value HIGH = 1%Z /\ value MEDIUM = 2%Z /\ value LOW = 3%Z.
Proof.
  intros Hne.
  destruct (py_sorted_first_min tuple3_lt key_energy h
              tuple3_lt_trans tuple3_lt_neg_trans tasks Hne)
    as (t & Hhead & Hfirst).
  pose proof (fun u => first_min_le tuple3_lt key_energy h tuple3_lt_irrefl
                         tuple3_lt_trans tasks t u Hfirst) as Hle.
  destruct Hfirst as (l1 & l2 & El & H1 & H2).
  exists t, l1, l2.
  assert (Hs : algorithm.EnergyOptimizedScheduler_schedule h tasks
               = Returned (Some t)).
  { unfold algorithm.EnergyOptimizedScheduler_schedule.
    destruct tasks as [|x l]; [congruence|].
    destruct (py_sorted tuple3_lt key_energy h (x :: l)) as [|y s];
      [discriminate|].
    simpl in Hhead. injection Hhead as ->. reflexivity. }
  split; [exact Hs|]. split; [exact Hs|].
  split; [exact El|]. split.
  { intros u Hu. apply energy_key_le_of_not_lt. apply Hle, Hu. }
  split; [|repeat split; reflexivity].
  intros u Hu. apply energy_key_lt_not_le. apply H1, Hu.
Qed.

Lemma energy_optimized_selects_minimum_key_witness :
  exists t,
    algorithm.EnergyOptimizedScheduler_schedule samples.cpu_ties [0; 1]%nat
    = Returned (Some t)
    /\ (forall u, In u [0; 1]%nat ->
          energy_key_le (samples.cpu_ties t) (samples.cpu_ties u)).
Proof.
  destruct (energy_optimized_selects_minimum_key samples.cpu_ties [0; 1]%nat)
    as (t & l1 & l2 & Hs & _ & _ & Hle & _).
  - discriminate.
  - exists t. auto.
Defined.

(** C4: the two EnergyOptimized selections part on a tie of CPU
    requirement.  On the ready set [A (cpu 50, LOW, arrival 0);
    B (cpu 50, HIGH, arrival 0)] the policy
    [EnergyOptimizedScheduler.schedule] returns B, whose key
    [(cpu_requirement, priority_rank, arrival_time)] is minimal, and
    [TaskQueue.get_next_task] with ['EnergyOptimized'], which orders by
    [cpu_requirement] alone, returns A: its key [(50, 3, 0)] is not minimal,
    [(50, 1, 0)] is below it. *)
Theorem energy_optimized_lookup_misses_tie_break :
  algorithm.EnergyOptimizedScheduler_schedule samples.cpu_ties [0; 1]%nat
  = Returned (Some 1%nat)
  /\ TaskQueue.get_next_task samples.cpu_ties (TaskQueue.mk [0; 1]%nat)
       "EnergyOptimized" = Returned (Some 0%nat)
  /\ key_energy (samples.cpu_ties 0%nat) = (50, 3%Z, 0)
  /\ key_energy (samples.cpu_ties 1%nat) = (50, 1%Z, 0)
  /\ energy_key_le (samples.cpu_ties 1%nat) (samples.cpu_ties 0%nat)
  /\ ~ energy_key_le (samples.cpu_ties 0%nat) (samples.cpu_ties 1%nat).
Proof.
  split; [reflexivity|]. split; [reflexivity|].
  split; [reflexivity|]. split; [reflexivity|].
  unfold energy_key_le. cbn.
  split.
  - right. left. split; [reflexivity|lia].
  - intros [H|[[_ H]|(_ & H & _)]].
    + vm_compute in H. discriminate H.
    + lia.
    + discriminate H.
Qed.

(** ** Selection and removal in the engine *)

Lemma same_key_refl (t : Task) : same_key t t.
Proof. repeat split; reflexivity. Qed.

Lemma TaskPriority_eqb_eq (p q : TaskPriority) :
  TaskPriority_eqb p q = true -> p = q.
Proof. destruct p, q; simpl; congruence. Qed.

Lemma Task_eq_same_key (t u : Task) : Task_eq t u = true -> same_key t u.
Proof.
  unfold Task_eq. rewrite !andb_true_iff.
  intros [[[[[[[_ Hd] Hp] Ha] _] _] Hc] _].
  repeat split.
  - apply Qeq_bool_iff, Hd.
  - apply TaskPriority_eqb_eq, Hp.
  - apply Qeq_bool_iff, Ha.
  - apply Qeq_bool_iff, Hc.
Qed.

Lemma same_key_static (h h' : heap) (a b : addr) :
  same_static h h' -> same_key (h' a) (h' b) -> same_key (h a) (h b).
Proof.
  intros Hs (Hd & Hp & Ha & Hc).
  destruct (Hs a) as (_ & Ed & Ep & Ea & Ec & _).
  destruct (Hs b) as (_ & Ed' & Ep' & Ea' & Ec' & _).
  rewrite Ed, Ed' in Hd. rewrite Ep, Ep' in Hp.
  rewrite Ea, Ea' in Ha. rewrite Ec, Ec' in Hc.
  repeat split; assumption.
Qed.

Lemma duration_lt_key (t u : Task) :
  Qltb (key_duration t) (key_duration u) = true -> ~ same_key t u.
Proof.
  unfold key_duration. intros H (Hd & _). apply Qltb_lt in H. lra.
Qed.

Lemma priority_lt_key (t u : Task) :
  tuple2_lt (key_priority t) (key_priority u) = true -> ~ same_key t u.
Proof.
  unfold tuple2_lt, key_priority. simpl fst. simpl snd.
  intros H (_ & Hp & Ha & _). revert H. rewrite Hp, Z.eqb_refl. simpl.
  intros H. apply Qltb_lt in H. lra.
Qed.

Lemma energy_lt_key (t u : Task) :
  tuple3_lt (key_energy t) (key_energy u) = true -> ~ same_key t u.
Proof.
  unfold tuple3_lt, key_energy.
  intros H (_ & Hp & Ha & Hc). revert H. rewrite Hp, Z.eqb_refl.
  apply Qeq_bool_iff in Hc. rewrite Hc. simpl.
  intros H. apply Qltb_lt in H. lra.
Qed.

(** Whatever the policy, the task selected from a non-empty list is in the
    list, and no task in front of it agrees with it on the fields the
    policies read. *)
Lemma schedule_first (h : heap) (self : algorithm.SchedulingAlgorithm)
    (tasks : list addr) :
  tasks <> [] ->
  exists b l1 l2,
    algorithm.schedule h self tasks = Returned (Some b)
    /\ tasks = l1 ++ b :: l2
    /\ (forall u, In u l1 -> ~ same_key (h b) (h u)).
Proof.
  intros Hne. unfold algorithm.schedule.
  destruct (algorithm.policy self) as [| | |q|].
  - destruct tasks as [|x l]; [congruence|].
    exists x, [], l. repeat split. intros u [].
  - destruct (py_min_first_min Qltb key_duration h
                Qltb_trans Qltb_neg_trans tasks Hne)
      as (b & Hb & l1 & l2 & El & H1 & _).
    exists b, l1, l2. unfold algorithm.SJFScheduler_schedule. rewrite Hb.
    split; [destruct tasks; [congruence|reflexivity]|]. split; [exact El|].
    intros u Hu. apply duration_lt_key, H1, Hu.
  - destruct (py_min_first_min tuple2_lt key_priority h
                tuple2_lt_trans tuple2_lt_neg_trans tasks Hne)
      as (b & Hb & l1 & l2 & El & H1 & _).
    exists b, l1, l2. unfold algorithm.PriorityScheduler_schedule. rewrite Hb.
    split; [destruct tasks; [congruence|reflexivity]|]. split; [exact El|].
    intros u Hu. apply priority_lt_key, H1, Hu.
  - destruct tasks as [|x l]; [congruence|].
    exists x, [], l. repeat split. intros u [].
  - destruct (py_sorted_first_min tuple3_lt key_energy h
                tuple3_lt_trans tuple3_lt_neg_trans tasks Hne)
      as (b & Hb & l1 & l2 & El & H1 & _).
    exists b, l1, l2. unfold algorithm.EnergyOptimizedScheduler_schedule.
    split.
    { destruct tasks as [|x l]; [congruence|].
      destruct (py_sorted tuple3_lt key_energy h (x :: l)) as [|y s];
        [discriminate|].
      simpl in Hb. injection Hb as ->. reflexivity. }
    split; [exact El|].
    intros u Hu. apply energy_lt_key, H1, Hu.
Qed.

(** [remove] drops the selected task itself when no task in front of it is
    the same object or an equal one. *)
Lemma list_remove_at (h : heap) (b : addr) (l1 l2 : list addr) :
  (forall u, In u l1 -> u <> b /\ Task_eq (h u) (h b) = false) ->
  list_remove h b (l1 ++ b :: l2) = Returned (l1 ++ l2).
Proof.
  induction l1 as [|x l1 IH]; intros Hsep.
  - simpl. rewrite Nat.eqb_refl. reflexivity.
  - simpl. destruct (Hsep x (or_introl eq_refl)) as [Hx Hq].
    apply Nat.eqb_neq in Hx. rewrite Hx, Hq. simpl orb. cbv iota.
    rewrite IH; [reflexivity|].
    intros u Hu. apply Hsep. right. exact Hu.
Qed.

(** ** One execution *)

Lemma execute_task_heap (self : algorithm.SchedulingAlgorithm) (h : heap)
    (task : addr) (t p : Q) :
  start_time (snd (algorithm.execute_task self h task t p) task) = Some t
  /\ end_time (snd (algorithm.execute_task self h task t p) task)
     = Some (t + duration (h task))
  /\ (forall a, a <> task ->
        snd (algorithm.execute_task self h task t p) a = h a)
  /\ same_static h (snd (algorithm.execute_task self h task t p)).
Proof.
  unfold algorithm.execute_task, store. simpl snd.
  rewrite !Nat.eqb_refl.
  cbn [start_time end_time set_start_time set_end_time duration].
  split; [reflexivity|]. split; [reflexivity|]. split.
  - intros a Ha. apply Nat.eqb_neq in Ha. rewrite Ha. reflexivity.
  - intros a. destruct (Nat.eqb a task) eqn:E.
    + apply Nat.eqb_eq in E. subst a. simpl. repeat split; reflexivity.
    + repeat split; reflexivity.
Qed.

Lemma execute_task_scheduler (self : algorithm.SchedulingAlgorithm) (h : heap)
    (task : addr) (t p : Q) :
  algorithm.policy (fst (algorithm.execute_task self h task t p))
  = algorithm.policy self
  /\ algorithm.name (fst (algorithm.execute_task self h task t p))
     = algorithm.name self
  /\ algorithm.executed_tasks (fst (algorithm.execute_task self h task t p))
     = algorithm.executed_tasks self ++ [task].
Proof.
  repeat split; reflexivity.
Qed.

(** ** One pass of the loop *)

Lemma same_key_sym (t u : Task) : same_key t u -> same_key u t.
Proof.
  intros (Hd & Hp & Ha & Hc). repeat split; symmetry; assumption.
Qed.

Lemma same_static_refl (h : heap) : same_static h h.
Proof. intros a. repeat split; reflexivity. Qed.

Lemma same_static_trans (h1 h2 h3 : heap) :
  same_static h1 h2 -> same_static h2 h3 -> same_static h1 h3.
Proof.
  intros H12 H23 a.
  destruct (H12 a) as (E1 & E2 & E3 & E4 & E5 & E6).
  destruct (H23 a) as (F1 & F2 & F3 & F4 & F5 & F6).
  repeat split; congruence.
Qed.

Lemma loop_body_step (now : nat -> Q) (st : simulation.LoopState) :
  simulation.remaining_tasks st <> [] ->
  exists b l1 l2 st',
    simulation.remaining_tasks st = l1 ++ b :: l2
    /\ simulation.loop_body now st = Returned st'
    /\ simulation.remaining_tasks st' = l1 ++ l2
    /\ simulation.current_time st'
       = simulation.current_time st + duration (simulation.ls_heap st b)
    /\ algorithm.executed_tasks (simulation.scheduler st')
       = algorithm.executed_tasks (simulation.scheduler st) ++ [b]
    /\ algorithm.policy (simulation.scheduler st')
       = algorithm.policy (simulation.scheduler st)
    /\ algorithm.name (simulation.scheduler st')
       = algorithm.name (simulation.scheduler st)
    /\ start_time (simulation.ls_heap st' b) = Some (simulation.current_time st)
    /\ end_time (simulation.ls_heap st' b)
       = Some (simulation.current_time st + duration (simulation.ls_heap st b))
    /\ (forall a, a <> b -> simulation.ls_heap st' a = simulation.ls_heap st a)
    /\ same_static (simulation.ls_heap st) (simulation.ls_heap st').
Proof.
  intros Hne.
  destruct (schedule_first (simulation.ls_heap st) (simulation.scheduler st)
              (simulation.remaining_tasks st) Hne)
    as (b & l1 & l2 & Hs & El & Hsep).
  set (p := energy_monitor.calculate_power_watts
              (cpu_requirement (simulation.ls_heap st b))).
  pose proof (execute_task_heap (simulation.scheduler st)
                (simulation.ls_heap st) b (simulation.current_time st) p)
    as (Hst & Het & Hframe & Hstatic).
  pose proof (execute_task_scheduler (simulation.scheduler st)
                (simulation.ls_heap st) b (simulation.current_time st) p)
    as (Hpol & Hname & Hexe).
  unfold simulation.loop_body. rewrite Hs. cbn [bind]. fold p.
  destruct (algorithm.execute_task (simulation.scheduler st)
              (simulation.ls_heap st) b (simulation.current_time st) p)
    as [sch' h'].
  cbn [fst snd] in *.
  assert (Hrm : list_remove h' b (simulation.remaining_tasks st)
                = Returned (l1 ++ l2)).
  { rewrite El. apply list_remove_at. intros u Hu. split.
    - intros ->. apply (Hsep b Hu). apply same_key_refl.
    - destruct (Task_eq (h' u) (h' b)) eqn:E; [|reflexivity].
      exfalso. apply (Hsep u Hu). apply same_key_sym.
      apply (same_key_static _ h' u b Hstatic).
      apply Task_eq_same_key, E. }
  rewrite Hrm. cbn [bind].
  eexists b, l1, l2, _. split; [exact El|]. split; [reflexivity|].
  cbn [simulation.remaining_tasks simulation.current_time
       simulation.scheduler simulation.ls_heap].
  destruct (Hstatic b) as (_ & Ed & _).
  rewrite Ed.
  repeat match goal with |- _ /\ _ => split end;
    first [reflexivity | assumption].
Qed.

(** ** The loop *)

Lemma cursor_after_static (h h' : heap) (t0 : Q) (l : list addr) :
  same_static h h' -> cursor_after h' t0 l = cursor_after h t0 l.
Proof.
  intros Hs. revert t0. unfold cursor_after.
  induction l as [|a l IH]; intros t0; [reflexivity|].
  simpl. destruct (Hs a) as (_ & Ed & _). rewrite Ed. apply IH.
Qed.

Lemma cursor_after_cons (h : heap) (t0 : Q) (b : addr) (l : list addr) :
  cursor_after h t0 (b :: l) = cursor_after h (t0 + duration (h b)) l.
Proof. reflexivity. Qed.

Lemma loop_condition_true (st : simulation.LoopState) :
  simulation.loop_condition st = true -> simulation.remaining_tasks st <> [].
Proof.
  unfold simulation.loop_condition.
  destruct (simulation.remaining_tasks st); [discriminate|]. discriminate.
Qed.

Lemma loop_result_refl (st : simulation.LoopState) : loop_result st st [].
Proof.
  unfold loop_result. rewrite app_nil_r.
  split; [reflexivity|]. split; [reflexivity|]. split; [reflexivity|].
  split; [intros a []|]. split; [reflexivity|].
  split; [apply same_static_refl|].
  intros _. split; [constructor|]. intros i a Hi. destruct i; discriminate.
Qed.

(** The loop returns when its fuel is at least the number of tasks that
    remain, and raises nothing. *)
Lemma while_loop_spec (now : nat -> Q) (fuel : nat) :
  forall st : simulation.LoopState,
    (length (simulation.remaining_tasks st) <= fuel)%nat ->
    exists st' e,
      simulation.while_loop now fuel st = Some (Returned st')
      /\ loop_result st st' e.
Proof.
  induction fuel as [|fuel IH]; intros st Hlen.
  - exists st, []. split; [|apply loop_result_refl].
    simpl. destruct (simulation.loop_condition st) eqn:Ec; [|reflexivity].
    apply loop_condition_true in Ec.
    destruct (simulation.remaining_tasks st); [congruence|simpl in Hlen; lia].
  - simpl. destruct (simulation.loop_condition st) eqn:Ec;
      [|exists st, []; split; [reflexivity|apply loop_result_refl]].
    apply loop_condition_true in Ec.
    destruct (loop_body_step now st Ec)
      as (b & l1 & l2 & st1 & El & Hbody & Hrem & Htime & Hexe & Hpol & Hname
          & Hstart & Hend & Hframe & Hstatic).
    rewrite Hbody.
    destruct (IH st1) as (st' & e & Hloop & Hres).
    { rewrite Hrem. rewrite El in Hlen. rewrite length_app in *.
      simpl in Hlen. lia. }
    exists st', (b :: e). split; [exact Hloop|].
    destruct Hres as (Rexe & Rpol & Rname & Rin & Rframe & Rstatic & Rnd).
    assert (Hsub : forall a, In a e -> In a (l1 ++ l2))
      by (intros a Ha; rewrite <- Hrem; apply Rin, Ha).
    unfold loop_result.
    split; [rewrite Rexe, Hexe, <- app_assoc; reflexivity|].
    split; [congruence|]. split; [congruence|].
    split.
    { intros a [<-|Ha]; rewrite El; apply in_or_app.
      - right. left. reflexivity.
      - apply Hsub, in_app_or in Ha. destruct Ha; [left|right; right]; auto. }
    split.
    { intros a Ha. rewrite Rframe by (intros H; apply Ha; right; exact H).
      apply Hframe. intros ->. apply Ha. left. reflexivity. }
    split; [apply (same_static_trans _ _ _ Hstatic Rstatic)|].
    intros Hnd. rewrite El in Hnd.
    pose proof (List.NoDup_remove_1 _ _ _ Hnd) as Hnd1.
    pose proof (List.NoDup_remove_2 _ _ _ Hnd) as Hnb.
    rewrite <- Hrem in Hnd1. destruct (Rnd Hnd1) as [Hnde Htimes].
    assert (Hbe : ~ In b e) by (intros H; apply Hnb, Hsub, H).
    split; [constructor; assumption|].
    intros i a Hi. destruct i as [|i].
    + simpl in Hi. injection Hi as <-. simpl take. unfold cursor_after.
      simpl fold_left. rewrite (Rframe b Hbe). split; assumption.
    + simpl in Hi. destruct (Htimes i a Hi) as [Hs He].
      simpl take. rewrite cursor_after_cons.
      rewrite Hs, He. rewrite Htime.
      rewrite (cursor_after_static _ _ _ _ Hstatic).
      destruct (Hstatic a) as (_ & Ed & _). rewrite Ed. split; reflexivity.
Qed.

Lemma while_loop_more_fuel (now : nat -> Q) (fuel : nat) :
  forall (st : simulation.LoopState) r,
    simulation.while_loop now fuel st = Some r ->
    simulation.while_loop now (S fuel) st = Some r.
Proof.
  induction fuel as [|fuel IH]; intros st r.
  - simpl. destruct (simulation.loop_condition st); [discriminate|auto].
  - intros H. simpl in H. change (simulation.while_loop now (S (S fuel)) st)
      with (if simulation.loop_condition st
            then match simulation.loop_body now st with
                 | Returned st' => simulation.while_loop now (S fuel) st'
                 | Raised e => Some (Raised e)
                 end
            else Some (Returned st)).
    destruct (simulation.loop_condition st); [|exact H].
    destruct (simulation.loop_body now st) as [st1|x]; [|exact H].
    apply IH, H.
Qed.

Lemma while_loop_enough_fuel (now : nat -> Q) (fuel fuel' : nat)
    (st : simulation.LoopState) r :
  (fuel <= fuel')%nat ->
  simulation.while_loop now fuel st = Some r ->
  simulation.while_loop now fuel' st = Some r.
Proof.
  induction 1 as [|fuel' Hle IH]; [auto|].
  intros H. apply while_loop_more_fuel, IH, H.
Qed.

(** ** One run *)

Lemma count_not_zero (n : nat) :
  Qeq_bool (inject_Z (Z.of_nat (S n))) 0 = false.
Proof.
  apply Qeq_bool_false. intros H. unfold Qeq, inject_Z in H. simpl in H. lia.
Qed.

(** [get_metrics] raises nothing: each average divides by the number of
    executed tasks only when there is one. *)
Lemma get_metrics_value (s : algorithm.SchedulingAlgorithm) :
  algorithm.get_metrics s = Returned (metrics_of s).
Proof.
  unfold algorithm.get_metrics, algorithm.get_average_wait_time,
    algorithm.get_average_turnaround_time, metrics_of, py_div.
  destruct (algorithm.executed_tasks s) as [|x l]; [reflexivity|].
  simpl length. rewrite count_not_zero. reflexivity.
Qed.

(** A run for a registered name returns: the loop exits within the fuel the
    engine gives it, and nothing is raised. *)
Lemma run_simulation_spec (now : nat -> Q) (self : simulation.Simulator)
    (h : heap) (name : string) (tasks : list addr)
    (sched0 : algorithm.SchedulingAlgorithm) :
  simulation.schedulers self !! name = Some sched0 ->
  exists st' e,
    simulation.run_simulation_for_algorithm now self h name tasks
    = Some (Returned
              ({| simulation.tasks := simulation.tasks self;
                  simulation.schedulers :=
                    <[name := simulation.scheduler st']>
                      (simulation.schedulers self);
                  simulation.monitors :=
                    <[name := simulation.monitor st']>
                      (simulation.monitors self);
                  simulation.results := simulation.results self |},
               simulation.ls_heap st',
               metrics_of (simulation.scheduler st')))
    /\ loop_result
         {| simulation.ls_heap := h; simulation.scheduler := sched0;
            simulation.monitor := energy_monitor.init;
            simulation.remaining_tasks := tasks;
            simulation.current_time := 0 |} st' e.
Proof.
  intros Hreg.
  unfold simulation.run_simulation_for_algorithm,
    simulation.run_simulation_with_fuel.
  rewrite Hreg.
  destruct (while_loop_spec now (length tasks)
              {| simulation.ls_heap := h; simulation.scheduler := sched0;
                 simulation.monitor := energy_monitor.init;
                 simulation.remaining_tasks := tasks;
                 simulation.current_time := 0 |})
    as (st' & e & Hloop & Hres); [simpl; lia|].
  exists st', e. rewrite Hloop, get_metrics_value.
  split; [reflexivity|exact Hres].
Qed.

(** Fuel beyond the length of the batch does not change the result. *)
Lemma run_simulation_fuel_enough (now : nat -> Q) (self : simulation.Simulator)
    (h : heap) (name : string) (tasks : list addr) (fuel : nat) :
  (length tasks <= fuel)%nat ->
  simulation.run_simulation_with_fuel now fuel self h name tasks
  = simulation.run_simulation_for_algorithm now self h name tasks.
Proof.
  intros Hle.
  unfold simulation.run_simulation_for_algorithm,
    simulation.run_simulation_with_fuel.
  destruct (simulation.schedulers self !! name) as [sched0|]; [|reflexivity].
  destruct (while_loop_spec now (length tasks)
              {| simulation.ls_heap := h; simulation.scheduler := sched0;
                 simulation.monitor := energy_monitor.init;
                 simulation.remaining_tasks := tasks;
                 simulation.current_time := 0 |})
    as (st' & e & Hloop & _); [simpl; lia|].
  rewrite (while_loop_enough_fuel now _ fuel _ _ Hle Hloop), Hloop.
  reflexivity.
Qed.

(** Without the guard an average over no task divides by zero. *)
Lemma py_div_by_no_task (total : Q) :
  py_div total (inject_Z (Z.of_nat (length (@nil addr))))
  = Raised ZeroDivisionError.
Proof. reflexivity. Qed.

(** C9: for every scheduler registered under the name, the run over an empty
    batch returns (no pass of the loop is taken, nothing is raised, no
    division by zero) and leaves the store and the scheduler as they were:
    its metrics are those the scheduler has accumulated so far.  For a
    scheduler that has executed no task, as after [initialize_schedulers],
    they are [tasks_executed = 0] and both averages [0.0], by the guards of
    the averages, and [total_energy_kwh = 0.0] when the accumulated energy
    is zero. *)
Theorem empty_batch_metrics
    (now : nat -> Q) (self : simulation.Simulator) (h : heap) (name : string)
    (sched0 : algorithm.SchedulingAlgorithm) :
  simulation.schedulers self !! name = Some sched0 ->
  exists self' m,
    simulation.run_simulation_for_algorithm now self h name []
    = Some (Returned (self', h, m))
    /\ simulation.schedulers self' !! name = Some sched0
    /\ algorithm.get_metrics sched0 = Returned m
    /\ algorithm.m_algorithm m = algorithm.name sched0
    /\ algorithm.tasks_executed m = length (algorithm.executed_tasks sched0)
    /\ algorithm.total_energy_kwh m = algorithm.total_energy sched0
    /\ (algorithm.executed_tasks sched0 = [] ->
        algorithm.tasks_executed m = 0%nat
        /\ algorithm.avg_wait_time m = 0
        /\ algorithm.avg_turnaround_time m = 0)
    /\ (algorithm.total_energy sched0 = 0 ->
        algorithm.total_energy_kwh m = 0
        /\ algorithm.co2_emissions_kg m == 0).
Proof.
  intros Hreg.
  unfold simulation.run_simulation_for_algorithm,
    simulation.run_simulation_with_fuel.
  rewrite Hreg. cbn [length simulation.while_loop simulation.loop_condition
                     simulation.remaining_tasks simulation.scheduler
                     simulation.ls_heap].
  rewrite get_metrics_value.
  eexists _, _. split; [reflexivity|].
  cbn [simulation.schedulers].
  split; [apply lookup_insert_eq|]. split; [reflexivity|].
  unfold metrics_of.
  cbn [algorithm.m_algorithm algorithm.tasks_executed
       algorithm.total_energy_kwh algorithm.avg_wait_time
       algorithm.avg_turnaround_time algorithm.co2_emissions_kg].
  split; [reflexivity|]. split; [reflexivity|]. split; [reflexivity|].
  split.
  - intros ->. repeat split; reflexivity.
  - intros ->. split; reflexivity.
Qed.

Lemma empty_batch_metrics_witness :
  exists self' m,
    simulation.run_simulation_for_algorithm (fun _ => 0)
      (simulation.initialize_schedulers simulation.init) samples.abc "SJF" []
    = Some (Returned (self', samples.abc, m))
    /\ algorithm.tasks_executed m = 0%nat
    /\ algorithm.total_energy_kwh m = 0
    /\ algorithm.avg_wait_time m = 0
    /\ algorithm.avg_turnaround_time m = 0.
Proof.
  destruct (empty_batch_metrics (fun _ => 0)
              (simulation.initialize_schedulers simulation.init) samples.abc
              "SJF" algorithm.new_SJFScheduler)
    as (self' & m & Hrun & _ & _ & _ & _ & _ & Hfresh & Henergy).
  - reflexivity.
  - destruct (Hfresh eq_refl) as (Hn & Hw & Ht).
    destruct (Henergy eq_refl) as (He & _).
    exists self', m. repeat split; assumption.
Defined.

Lemma fcfs_then_empty_on_samples :
  match simulation.run_simulation_for_algorithm (fun _ => 0)
          (samples.fresh [0; 1; 2]%nat) samples.abc "FCFS" [0; 1; 2]%nat with
  | Some (Returned (self1, h1, _)) =>
      match simulation.run_simulation_for_algorithm (fun _ => 0)
              self1 h1 "FCFS" [] with
      | Some (Returned (_, _, m2)) =>
          algorithm.tasks_executed m2 = 3%nat
          /\ Qeq_bool (algorithm.total_energy_kwh m2) 0 = false
          /\ Qeq_bool (algorithm.avg_wait_time m2) 0 = false
          /\ Qeq_bool (algorithm.avg_turnaround_time m2) 0 = false
      | _ => False
      end
  | _ => False
  end.
Proof.
  vm_compute. repeat split; reflexivity.
Qed.

(** C9, as stated, fails for a scheduler that has run before: after the FCFS
    run over a batch of three tasks, the FCFS run over the empty batch on
    the same simulator returns [tasks_executed = 3] and a total energy and
    averages that are not zero. *)
Lemma empty_batch_after_run_counterexample :
  exists self1 h1 m1 self2 h2 m2,
    simulation.run_simulation_for_algorithm (fun _ => 0)
      (samples.fresh [0; 1; 2]%nat) samples.abc "FCFS" [0; 1; 2]%nat
    = Some (Returned (self1, h1, m1))
    /\ simulation.run_simulation_for_algorithm (fun _ => 0)
         self1 h1 "FCFS" []
       = Some (Returned (self2, h2, m2))
    /\ algorithm.tasks_executed m2 = 3%nat
    /\ ~ algorithm.total_energy_kwh m2 == 0
    /\ ~ algorithm.avg_wait_time m2 == 0
    /\ ~ algorithm.avg_turnaround_time m2 == 0.
Proof.
  generalize fcfs_then_empty_on_samples.
  destruct (simulation.run_simulation_for_algorithm (fun _ => 0)
              (samples.fresh [0; 1; 2]%nat) samples.abc "FCFS" [0; 1; 2]%nat)
    as [[[[self1 h1] m1]|]|]; try contradiction.
  intros Hsecond. exists self1, h1, m1. revert Hsecond.
  destruct (simulation.run_simulation_for_algorithm (fun _ => 0)
              self1 h1 "FCFS" [])
    as [[[[self2 h2] m2]|]|]; try contradiction.
  intros (Hn & He & Hw & Ht).
  exists self2, h2, m2.
  split; [reflexivity|]. split; [reflexivity|]. split; [exact Hn|].
  repeat split; apply Qeq_bool_false; assumption.
Qed.

(** C3, as the code has it: in a run over a batch of distinct task objects,
    the [start_time] set for the task executed in position [i] is the time
    cursor at that moment, the total of the durations of the tasks executed
    before it, and its [end_time] is that plus its own duration; the start is
    at or after the arrival exactly when the task has arrived by then, which
    the engine does not check. *)
Theorem start_time_is_time_cursor (now : nat -> Q)
    (self : simulation.Simulator) (h : heap) (name : string)
    (tasks : list addr) (sched0 : algorithm.SchedulingAlgorithm) :
  simulation.schedulers self !! name = Some sched0 ->
  List.NoDup tasks ->
  exists self' h' m sched' e,
    simulation.run_simulation_for_algorithm now self h name tasks
    = Some (Returned (self', h', m))
    /\ simulation.schedulers self' !! name = Some sched'
    /\ algorithm.executed_tasks sched' = algorithm.executed_tasks sched0 ++ e
    /\ forall i a, e !! i = Some a ->
         start_time (h' a) = Some (cursor_after h 0 (take i e))
         /\ end_time (h' a)
            = Some (cursor_after h 0 (take i e) + duration (h a))
         /\ arrival_time (h' a) = arrival_time (h a)
         /\ (arrival_time (h a) <= cursor_after h 0 (take i e)
             <-> exists s, start_time (h' a) = Some s
                           /\ arrival_time (h' a) <= s).
Proof.
  intros Hreg Hnd.
  destruct (run_simulation_spec now self h name tasks sched0 Hreg)
    as (st' & e & Hrun & Hres).
  destruct Hres as (Rexe & _ & _ & _ & _ & Rstatic & Rnd).
  destruct (Rnd Hnd) as [_ Htimes].
  eexists _, _, _, (simulation.scheduler st'), e.
  split; [exact Hrun|].
  split; [apply lookup_insert_eq|]. split; [exact Rexe|].
  intros i a Hi. destruct (Htimes i a Hi) as [Hs He].
  destruct (Rstatic a) as (_ & _ & _ & Ea & _).
  cbn [simulation.ls_heap simulation.current_time] in *.
  split; [exact Hs|]. split; [exact He|]. split; [exact Ea|].
  rewrite Ea, Hs. split.
  - intros Hle. eexists. split; [reflexivity|exact Hle].
  - intros (s & Es & Hle). injection Es as <-. exact Hle.
Qed.

Lemma start_time_is_time_cursor_witness :
  exists self' h' m sched' e,
    simulation.run_simulation_for_algorithm (fun _ => 0)
      (samples.fresh [0; 1; 2]%nat) samples.abc "SJF" [0; 1; 2]%nat
    = Some (Returned (self', h', m))
    /\ simulation.schedulers self' !! "SJF"%string = Some sched'
    /\ algorithm.executed_tasks sched' = [] ++ e
    /\ forall i a, e !! i = Some a ->
         start_time (h' a) = Some (cursor_after samples.abc 0 (take i e)).
Proof.
  destruct (start_time_is_time_cursor (fun _ => 0)
              (samples.fresh [0; 1; 2]%nat) samples.abc "SJF" [0; 1; 2]%nat
              algorithm.new_SJFScheduler)
    as (self' & h' & m & sched' & e & Hrun & Hreg & Hexe & Htimes).
  - reflexivity.
  - repeat constructor; simpl; intuition lia.
  - exists self', h', m, sched', e. split; [exact Hrun|].
    split; [exact Hreg|]. split; [exact Hexe|].
    intros i a Hi. apply (Htimes i a Hi).
Defined.

(** C3, as stated, fails: a single task that arrives at 5 is started by
    the FCFS run at 0, before its arrival. *)
Lemma start_before_arrival_counterexample :
  exists self' h' m,
    simulation.run_simulation_for_algorithm (fun _ => 0)
      (samples.fresh [0]%nat) samples.ties "FCFS" [0]%nat
    = Some (Returned (self', h', m))
    /\ arrival_time (h' 0%nat) = 5
    /\ exists s, start_time (h' 0%nat) = Some s
                 /\ s == 0
                 /\ s < arrival_time (h' 0%nat).
Proof.
  eexists _, _, _. split; [reflexivity|]. split; [reflexivity|].
  eexists. split; [reflexivity|]. split; reflexivity.
Qed.

(** ** Two runs over one batch *)

(** C1, as the code has it: a run copies the list of the batch only.  The
    two runs write [start_time] and [end_time] in the task objects of the
    batch themselves and in no other object, so the second run replaces what
    the first one wrote in every task it executes; the batch list of the
    simulator is unchanged, and within one run over a batch of distinct
    objects no task is written twice. *)
Theorem runs_share_task_objects (now : nat -> Q)
    (self : simulation.Simulator) (h : heap) (name1 name2 : string)
    (tasks : list addr) (sched1 sched2 : algorithm.SchedulingAlgorithm) :
  name1 <> name2 ->
  simulation.schedulers self !! name1 = Some sched1 ->
  simulation.schedulers self !! name2 = Some sched2 ->
  List.NoDup tasks ->
  exists self1 h1 m1 e1 self2 h2 m2 e2,
    simulation.run_simulation_for_algorithm now self h name1 tasks
    = Some (Returned (self1, h1, m1))
    /\ simulation.run_simulation_for_algorithm now self1 h1 name2 tasks
       = Some (Returned (self2, h2, m2))
    /\ simulation.tasks self1 = simulation.tasks self
    /\ simulation.tasks self2 = simulation.tasks self
    /\ (exists s, simulation.schedulers self1 !! name1 = Some s
                  /\ algorithm.executed_tasks s
                     = algorithm.executed_tasks sched1 ++ e1)
    /\ (exists s, simulation.schedulers self2 !! name2 = Some s
                  /\ algorithm.executed_tasks s
                     = algorithm.executed_tasks sched2 ++ e2)
    /\ List.NoDup e1 /\ List.NoDup e2
    /\ (forall a, In a e1 -> In a tasks)
    /\ (forall a, In a e2 -> In a tasks)
    /\ (forall a, ~ In a e1 -> h1 a = h a)
    /\ (forall a, ~ In a e2 -> h2 a = h1 a)
    /\ (forall i a, e1 !! i = Some a ->
          start_time (h1 a) = Some (cursor_after h 0 (take i e1))
          /\ end_time (h1 a)
             = Some (cursor_after h 0 (take i e1) + duration (h a)))
    /\ (forall i a, e2 !! i = Some a ->
          start_time (h2 a) = Some (cursor_after h 0 (take i e2))
          /\ end_time (h2 a)
             = Some (cursor_after h 0 (take i e2) + duration (h a)))
    /\ same_static h h2.
Proof.
  intros Hne Hreg1 Hreg2 Hnd.
  destruct (run_simulation_spec now self h name1 tasks sched1 Hreg1)
    as (st1 & e1 & Hrun1 & Hres1).
  destruct Hres1 as (Rexe1 & _ & _ & Rin1 & Rframe1 & Rstatic1 & Rnd1).
  destruct (Rnd1 Hnd) as [Hnd1 Htimes1].
  set (self1 :=
         {| simulation.tasks := simulation.tasks self;
            simulation.schedulers :=
              <[name1 := simulation.scheduler st1]> (simulation.schedulers self);
            simulation.monitors :=
              <[name1 := simulation.monitor st1]> (simulation.monitors self);
            simulation.results := simulation.results self |}) in *.
  assert (Hreg2' : simulation.schedulers self1 !! name2 = Some sched2).
  { unfold self1. cbn [simulation.schedulers].
    rewrite lookup_insert_ne by exact Hne. exact Hreg2. }
  destruct (run_simulation_spec now self1 (simulation.ls_heap st1) name2 tasks
              sched2 Hreg2')
    as (st2 & e2 & Hrun2 & Hres2).
  destruct Hres2 as (Rexe2 & _ & _ & Rin2 & Rframe2 & Rstatic2 & Rnd2).
  destruct (Rnd2 Hnd) as [Hnd2 Htimes2].
  cbn [simulation.ls_heap simulation.current_time simulation.scheduler
       simulation.remaining_tasks] in *.
  eexists self1, (simulation.ls_heap st1), _, e1, _,
    (simulation.ls_heap st2), _, e2.
  split; [exact Hrun1|]. split; [exact Hrun2|].
  split; [reflexivity|]. split; [reflexivity|].
  split.
  { exists (simulation.scheduler st1). split; [apply lookup_insert_eq|].
    exact Rexe1. }
  split.
  { exists (simulation.scheduler st2). split; [apply lookup_insert_eq|].
    exact Rexe2. }
  split; [exact Hnd1|]. split; [exact Hnd2|].
  split; [exact Rin1|]. split; [exact Rin2|].
  split; [exact Rframe1|]. split; [exact Rframe2|].
  split; [exact Htimes1|]. split.
  - intros i a Hi. destruct (Htimes2 i a Hi) as [Hs He].
    rewrite (cursor_after_static _ _ _ _ Rstatic1) in Hs, He.
    destruct (Rstatic1 a) as (_ & Ed & _). rewrite Ed in He.
    split; assumption.
  - apply (same_static_trans _ _ _ Rstatic1 Rstatic2).
Qed.

Lemma runs_share_task_objects_witness :
  exists self1 h1 m1 self2 h2 m2,
    simulation.run_simulation_for_algorithm (fun _ => 0)
      (samples.fresh [0; 1; 2]%nat) samples.abc "FCFS" [0; 1; 2]%nat
    = Some (Returned (self1, h1, m1))
    /\ simulation.run_simulation_for_algorithm (fun _ => 0)
         self1 h1 "SJF" [0; 1; 2]%nat
       = Some (Returned (self2, h2, m2))
    /\ same_static samples.abc h2.
Proof.
  destruct (runs_share_task_objects (fun _ => 0)
              (samples.fresh [0; 1; 2]%nat) samples.abc "FCFS" "SJF"
              [0; 1; 2]%nat algorithm.new_FCFSScheduler
              algorithm.new_SJFScheduler)
    as (self1 & h1 & m1 & e1 & self2 & h2 & m2 & e2 & Hrun1 & Hrun2 & Hrest).
  - discriminate.
  - reflexivity.
  - reflexivity.
  - repeat constructor; simpl; intuition lia.
  - exists self1, h1, m1, self2, h2, m2.
    split; [exact Hrun1|]. split; [exact Hrun2|].
    apply Hrest.
Defined.

(** The FCFS run and then the SJF run over the three sample tasks, by
    evaluation. *)
Lemma fcfs_then_sjf_on_samples :
  match simulation.run_simulation_for_algorithm (fun _ => 0)
          (samples.fresh [0; 1; 2]%nat) samples.abc "FCFS" [0; 1; 2]%nat with
  | Some (Returned (self1, h1, _)) =>
      match simulation.run_simulation_for_algorithm (fun _ => 0)
              self1 h1 "SJF" [0; 1; 2]%nat with
      | Some (Returned (_, h2, _)) =>
          start_time (h1 0%nat) = Some 0
          /\ end_time (h1 0%nat) = Some (0 + 2)
          /\ start_time (h2 0%nat) = Some (0 + 1)
          /\ end_time (h2 0%nat) = Some (0 + 1 + 2)
      | _ => False
      end
  | _ => False
  end.
Proof.
  vm_compute. repeat split; reflexivity.
Qed.

(** C1, as stated, fails: over a batch of three tasks the FCFS run sets the
    times of the first task to 0 and 2, and the SJF run that follows works
    on the same object and sets them to 1 and 3. *)
Lemma second_run_overwrites_first_counterexample :
  exists self1 h1 m1 self2 h2 m2,
    simulation.run_simulation_for_algorithm (fun _ => 0)
      (samples.fresh [0; 1; 2]%nat) samples.abc "FCFS" [0; 1; 2]%nat
    = Some (Returned (self1, h1, m1))
    /\ simulation.run_simulation_for_algorithm (fun _ => 0)
         self1 h1 "SJF" [0; 1; 2]%nat
       = Some (Returned (self2, h2, m2))
    /\ start_time (h1 0%nat) = Some 0
    /\ end_time (h1 0%nat) = Some (0 + 2)
    /\ start_time (h2 0%nat) = Some (0 + 1)
    /\ end_time (h2 0%nat) = Some (0 + 1 + 2)
    /\ h2 0%nat <> h1 0%nat.
Proof.
  generalize fcfs_then_sjf_on_samples.
  destruct (simulation.run_simulation_for_algorithm (fun _ => 0)
              (samples.fresh [0; 1; 2]%nat) samples.abc "FCFS" [0; 1; 2]%nat)
    as [[[[self1 h1] m1]|]|]; try contradiction.
  intros Hsecond. exists self1, h1, m1. revert Hsecond.
  destruct (simulation.run_simulation_for_algorithm (fun _ => 0)
              self1 h1 "SJF" [0; 1; 2]%nat)
    as [[[[self2 h2] m2]|]|]; try contradiction.
  intros (Hs1 & He1 & Hs2 & He2).
  exists self2, h2, m2.
  repeat (split; [first [reflexivity | assumption]|]).
  intros H. rewrite H, Hs1 in Hs2. discriminate Hs2.
Qed.

(** ** All runs *)

Lemma run_each_returns (now : nat -> Q) (names : list string) :
  forall (self : simulation.Simulator) (h : heap),
    (forall n, In n names -> is_Some (simulation.schedulers self !! n)) ->
    exists self' h',
      simulation.run_each now names self h = Some (Returned (self', h'))
      /\ simulation.tasks self' = simulation.tasks self
      /\ same_static h h'.
Proof.
  induction names as [|name names IH]; intros self h Hreg.
  - exists self, h. split; [reflexivity|]. split; [reflexivity|].
    apply same_static_refl.
  - destruct (Hreg name (or_introl eq_refl)) as [sched0 Hs].
    destruct (run_simulation_spec now self h name (simulation.tasks self)
                sched0 Hs) as (st' & e & Hrun & Hres).
    destruct Hres as (_ & _ & _ & _ & _ & Rstatic & _).
    cbn [simulation.ls_heap] in Rstatic.
    simpl simulation.run_each. rewrite Hrun.
    cbn [simulation.tasks simulation.schedulers simulation.monitors
         simulation.results].
    match goal with
    | |- exists _ _, simulation.run_each _ _ ?s ?h1 = _ /\ _ =>
        destruct (IH s h1) as (self' & h' & Hall & Htasks & Hstatic)
    end.
    { intros n Hn. cbn [simulation.schedulers].
      destruct (decide (name = n)) as [->|Hne].
      - rewrite lookup_insert_eq. eexists. reflexivity.
      - rewrite lookup_insert_ne by exact Hne. apply Hreg. right. exact Hn. }
    exists self', h'. split; [exact Hall|]. split; [exact Htasks|].
    apply (same_static_trans _ _ _ Rstatic Hstatic).
Qed.

(** [run_all_simulations] returns: every name of [config.ALGORITHMS] is
    registered by [initialize_schedulers], no run raises, and the tasks keep
    every field but [start_time] and [end_time]. *)
Lemma run_all_simulations_returns (now : nat -> Q)
    (self : simulation.Simulator) (h : heap) :
  exists self' h',
    simulation.run_all_simulations now self h = Some (Returned (self', h'))
    /\ simulation.tasks self' = simulation.tasks self
    /\ same_static h h'.
Proof.
  unfold simulation.run_all_simulations.
  destruct (run_each_returns now config.ALGORITHMS
              (simulation.initialize_schedulers self) h)
    as (self' & h' & Hall & Htasks & Hstatic).
  - intros n Hn. destruct (registered_scheduler self n Hn) as [p Hp].
    rewrite Hp. eexists. reflexivity.
  - exists self', h'. auto.
Qed.

(** * Further properties *)

(** ** What an execution adds to the accumulators *)

Lemma execute_task_accumulators (self : algorithm.SchedulingAlgorithm) (h : heap)
    (task : addr) (t p : Q) :
  algorithm.total_energy (fst (algorithm.execute_task self h task t p))
  = algorithm.total_energy self + get_energy_consumption (h task) p
  /\ algorithm.total_wait_time (fst (algorithm.execute_task self h task t p))
     = algorithm.total_wait_time self + (t - arrival_time (h task))
  /\ algorithm.total_turnaround_time
       (fst (algorithm.execute_task self h task t p))
     = algorithm.total_turnaround_time self
       + (t + duration (h task) - arrival_time (h task))
  /\ algorithm.executed_tasks (fst (algorithm.execute_task self h task t p))
     = algorithm.executed_tasks self ++ [task].
Proof.
  unfold algorithm.execute_task, store. cbn [fst snd].
  rewrite !Nat.eqb_refl.
  unfold get_energy_consumption, get_wait_time, get_turnaround_time.
  cbn [start_time end_time set_start_time set_end_time duration arrival_time
       algorithm.total_energy algorithm.total_wait_time
       algorithm.total_turnaround_time algorithm.executed_tasks].
  repeat match goal with |- _ /\ _ => split end; reflexivity.
Qed.

(** X1: [execute_task] appends the task to [executed_tasks] and adds to the
    totals, each by one addition, the energy of the task at the given power
    [power * duration / (3600 * 1000)], its wait
    [current_time - arrival_time] and its turnaround
    [(current_time + duration) - arrival_time], read back from the times it
    has just written in the task; the wait it adds is negative exactly when
    the task is started before its arrival. *)
Theorem execute_task_totals (self : algorithm.SchedulingAlgorithm) (h : heap)
    (task : addr) (t p : Q) :
  algorithm.executed_tasks (fst (algorithm.execute_task self h task t p))
  = algorithm.executed_tasks self ++ [task]
  /\ algorithm.total_energy (fst (algorithm.execute_task self h task t p))
     = algorithm.total_energy self + p * duration (h task) / (3600 * 1000)
  /\ algorithm.total_wait_time (fst (algorithm.execute_task self h task t p))
     = algorithm.total_wait_time self + (t - arrival_time (h task))
  /\ algorithm.total_turnaround_time
       (fst (algorithm.execute_task self h task t p))
     = algorithm.total_turnaround_time self
       + (t + duration (h task) - arrival_time (h task))
  /\ get_wait_time (snd (algorithm.execute_task self h task t p) task)
     = t - arrival_time (h task)
  /\ get_turnaround_time (snd (algorithm.execute_task self h task t p) task)
     = t + duration (h task) - arrival_time (h task)
  /\ (get_wait_time (snd (algorithm.execute_task self h task t p) task) < 0
      <-> t < arrival_time (h task)).
Proof.
  destruct (execute_task_accumulators self h task t p)
    as (He & Hw & Ht & Hx).
  destruct (execute_task_heap self h task t p) as (Hs & Hend & _ & Hstatic).
  destruct (Hstatic task) as (_ & _ & _ & Ea & _).
  assert (Hwait : get_wait_time
                    (snd (algorithm.execute_task self h task t p) task)
                  = t - arrival_time (h task)).
  { unfold get_wait_time. rewrite Hs, Ea. reflexivity. }
  split; [exact Hx|]. split; [exact He|]. split; [exact Hw|].
  split; [exact Ht|]. split; [exact Hwait|]. split.
  { unfold get_turnaround_time. rewrite Hend, Ea. reflexivity. }
  rewrite Hwait. split; intros H; lra.
Qed.

(** ** One pass of the loop, with the accumulators *)

Lemma loop_body_inv (now : nat -> Q) (st st' : simulation.LoopState) (b : addr) :
  algorithm.schedule (simulation.ls_heap st) (simulation.scheduler st)
    (simulation.remaining_tasks st) = Returned (Some b) ->
  simulation.loop_body now st = Returned st' ->
  algorithm.executed_tasks (simulation.scheduler st')
  = algorithm.executed_tasks (simulation.scheduler st) ++ [b]
  /\ algorithm.total_energy (simulation.scheduler st')
     = algorithm.total_energy (simulation.scheduler st)
       + energy_of (simulation.ls_heap st) b
  /\ algorithm.total_wait_time (simulation.scheduler st')
     = algorithm.total_wait_time (simulation.scheduler st)
       + (simulation.current_time st - arrival_time (simulation.ls_heap st b))
  /\ algorithm.total_turnaround_time (simulation.scheduler st')
     = algorithm.total_turnaround_time (simulation.scheduler st)
       + (simulation.current_time st + duration (simulation.ls_heap st b)
          - arrival_time (simulation.ls_heap st b))
  /\ energy_monitor.readings (simulation.monitor st')
     = energy_monitor.readings (simulation.monitor st)
       ++ readings_of now (simulation.ls_heap st)
            (length (energy_monitor.readings (simulation.monitor st))) [b].
Proof.
  intros Hs Hbody. unfold simulation.loop_body in Hbody.
  rewrite Hs in Hbody. cbn [bind] in Hbody.
  set (p := energy_monitor.calculate_power_watts
              (cpu_requirement (simulation.ls_heap st b))) in *.
  pose proof (execute_task_accumulators (simulation.scheduler st)
                (simulation.ls_heap st) b (simulation.current_time st) p)
    as (He & Hw & Ht & Hx).
  pose proof (execute_task_heap (simulation.scheduler st)
                (simulation.ls_heap st) b (simulation.current_time st) p)
    as (_ & _ & _ & Hstatic).
  destruct (algorithm.execute_task (simulation.scheduler st)
              (simulation.ls_heap st) b (simulation.current_time st) p)
    as [sch' h'].
  cbn [fst snd] in *.
  destruct (list_remove h' b (simulation.remaining_tasks st)) as [r|x];
    cbn [bind] in Hbody; [|discriminate].
  injection Hbody as <-.
  cbn [simulation.scheduler simulation.monitor].
  destruct (Hstatic b) as (_ & _ & _ & _ & Ec & _).
  split; [exact Hx|]. split; [exact He|]. split; [exact Hw|].
  split; [exact Ht|].
  unfold energy_monitor.record_reading. cbn [energy_monitor.readings].
  cbn [readings_of]. rewrite Ec. reflexivity.
Qed.

Lemma energy_after_static (h h' : heap) (acc : Q) (l : list addr) :
  same_static h h' -> energy_after h' acc l = energy_after h acc l.
Proof.
  intros Hs. revert acc. unfold energy_after.
  induction l as [|a l IH]; intros acc; [reflexivity|].
  simpl. rewrite IH. unfold energy_of, get_energy_consumption.
  destruct (Hs a) as (_ & Ed & _ & _ & Ec & _). rewrite Ed, Ec. reflexivity.
Qed.

Lemma wait_after_static (h h' : heap) (t0 acc : Q) (l : list addr) :
  same_static h h' -> wait_after h' t0 acc l = wait_after h t0 acc l.
Proof.
  intros Hs. revert t0 acc.
  induction l as [|a l IH]; intros t0 acc; [reflexivity|].
  simpl. destruct (Hs a) as (_ & Ed & _ & Ea & _). rewrite Ed, Ea. apply IH.
Qed.

Lemma turnaround_after_static (h h' : heap) (t0 acc : Q) (l : list addr) :
  same_static h h' ->
  turnaround_after h' t0 acc l = turnaround_after h t0 acc l.
Proof.
  intros Hs. revert t0 acc.
  induction l as [|a l IH]; intros t0 acc; [reflexivity|].
  simpl. destruct (Hs a) as (_ & Ed & _ & Ea & _). rewrite Ed, Ea. apply IH.
Qed.

Lemma readings_of_static (now : nat -> Q) (h h' : heap) (k : nat)
    (l : list addr) :
  same_static h h' -> readings_of now h' k l = readings_of now h k l.
Proof.
  intros Hs. revert k.
  induction l as [|a l IH]; intros k; [reflexivity|].
  simpl. destruct (Hs a) as (_ & _ & _ & _ & Ec & _). rewrite Ec, IH.
  reflexivity.
Qed.

Lemma loop_condition_false (st : simulation.LoopState) :
  simulation.loop_condition st = false ->
  simulation.remaining_tasks st = []
  \/ config.SIMULATION_TIME <= simulation.current_time st.
Proof.
  unfold simulation.loop_condition.
  destruct (simulation.remaining_tasks st); [left; reflexivity|].
  intros H. right. apply Qltb_ge, H.
Qed.

Lemma loop_condition_time (st : simulation.LoopState) :
  simulation.loop_condition st = true ->
  simulation.current_time st < config.SIMULATION_TIME.
Proof.
  unfold simulation.loop_condition.
  destruct (simulation.remaining_tasks st); [discriminate|].
  apply Qltb_lt.
Qed.

Lemma loop_metrics_refl (now : nat -> Q) (st : simulation.LoopState) :
  simulation.loop_condition st = false -> loop_metrics now st st [].
Proof.
  intros Hc. unfold loop_metrics. rewrite app_nil_r.
  repeat match goal with |- _ /\ _ => split end; try reflexivity.
  - apply loop_condition_false, Hc.
  - intros i a Hi. destruct i; discriminate.
Qed.

(** ** The loop, with the accumulators *)

Lemma while_loop_metrics (now : nat -> Q) (fuel : nat) :
  forall st : simulation.LoopState,
    (length (simulation.remaining_tasks st) <= fuel)%nat ->
    exists st' e,
      simulation.while_loop now fuel st = Some (Returned st')
      /\ algorithm.executed_tasks (simulation.scheduler st')
         = algorithm.executed_tasks (simulation.scheduler st) ++ e
      /\ loop_metrics now st st' e.
Proof.
  induction fuel as [|fuel IH]; intros st Hlen.
  - assert (Hc : simulation.loop_condition st = false).
    { destruct (simulation.loop_condition st) eqn:Ec; [|reflexivity].
      apply loop_condition_true in Ec.
      destruct (simulation.remaining_tasks st);
        [congruence|simpl in Hlen; lia]. }
    exists st, []. simpl. rewrite Hc, app_nil_r.
    split; [reflexivity|]. split; [reflexivity|].
    apply loop_metrics_refl, Hc.
  - simpl. destruct (simulation.loop_condition st) eqn:Ec.
    2:{ exists st, []. rewrite app_nil_r. split; [reflexivity|].
        split; [reflexivity|]. apply loop_metrics_refl, Ec. }
    pose proof (loop_condition_time st Ec) as Htime0.
    apply loop_condition_true in Ec.
    destruct (loop_body_step now st Ec)
      as (b & l1 & l2 & st1 & El & Hbody & Hrem & Htime & Hexe & _ & _
          & _ & _ & _ & Hstatic).
    destruct (schedule_first (simulation.ls_heap st) (simulation.scheduler st)
                (simulation.remaining_tasks st) Ec)
      as (b' & _ & _ & Hs & _).
    destruct (loop_body_inv now st st1 b' Hs Hbody)
      as (Hexe' & Hen & Hw & Ht & Hr).
    assert (Hb : b' = b).
    { rewrite Hexe in Hexe'. apply app_inv_head in Hexe'. congruence. }
    subst b'. rewrite Hbody.
    destruct (IH st1) as (st' & e & Hloop & Rexe & Rm).
    { rewrite Hrem. rewrite El in Hlen. rewrite length_app in *.
      simpl in Hlen. lia. }
    exists st', (b :: e). split; [exact Hloop|].
    split; [rewrite Rexe, Hexe, <- app_assoc; reflexivity|].
    destruct Rm as (Mt & Me & Mw & Mtt & Mr & Mp & Mx & Mc).
    unfold loop_metrics.
    rewrite (cursor_after_static _ _ _ _ Hstatic) in Mt.
    rewrite (energy_after_static _ _ _ _ Hstatic) in Me.
    rewrite (wait_after_static _ _ _ _ _ Hstatic) in Mw.
    rewrite (turnaround_after_static _ _ _ _ _ Hstatic) in Mtt.
    rewrite (readings_of_static _ _ _ _ _ Hstatic) in Mr.
    rewrite Htime in Mt, Mw, Mtt. rewrite Hen in Me. rewrite Hw in Mw.
    rewrite Ht in Mtt. rewrite Hr in Mr.
    split; [exact Mt|]. split; [exact Me|]. split; [exact Mw|].
    split; [exact Mtt|].
    split.
    { rewrite Mr, <- app_assoc. rewrite length_app. simpl length.
      replace (length (energy_monitor.readings (simulation.monitor st)) + 1)%nat
        with (S (length (energy_monitor.readings (simulation.monitor st))))
        by lia.
      reflexivity. }
    split.
    { rewrite El. rewrite Hrem in Mp. simpl.
      rewrite <- Permutation_middle. constructor. exact Mp. }
    split; [exact Mx|].
    intros i a Hi. destruct i as [|i].
    + exact Htime0.
    + simpl in Hi. simpl take. rewrite cursor_after_cons.
      specialize (Mc i a Hi).
      rewrite (cursor_after_static _ _ _ _ Hstatic), Htime in Mc. exact Mc.
Qed.

(** A run for a registered name, with what it does to the store, the
    accumulators and the monitor. *)
Lemma run_simulation_full (now : nat -> Q) (self : simulation.Simulator)
    (h : heap) (name : string) (tasks : list addr)
    (sched0 : algorithm.SchedulingAlgorithm) :
  simulation.schedulers self !! name = Some sched0 ->
  exists st' e,
    simulation.run_simulation_for_algorithm now self h name tasks
    = Some (Returned
              ({| simulation.tasks := simulation.tasks self;
                  simulation.schedulers :=
                    <[name := simulation.scheduler st']>
                      (simulation.schedulers self);
                  simulation.monitors :=
                    <[name := simulation.monitor st']>
                      (simulation.monitors self);
                  simulation.results := simulation.results self |},
               simulation.ls_heap st',
               metrics_of (simulation.scheduler st')))
    /\ loop_result
         {| simulation.ls_heap := h; simulation.scheduler := sched0;
            simulation.monitor := energy_monitor.init;
            simulation.remaining_tasks := tasks;
            simulation.current_time := 0 |} st' e
    /\ loop_metrics now
         {| simulation.ls_heap := h; simulation.scheduler := sched0;
            simulation.monitor := energy_monitor.init;
            simulation.remaining_tasks := tasks;
            simulation.current_time := 0 |} st' e.
Proof.
  intros Hreg.
  set (st0 := {| simulation.ls_heap := h; simulation.scheduler := sched0;
                 simulation.monitor := energy_monitor.init;
                 simulation.remaining_tasks := tasks;
                 simulation.current_time := 0 |}).
  destruct (while_loop_spec now (length tasks) st0)
    as (st' & e & Hloop & Hres); [simpl; lia|].
  destruct (while_loop_metrics now (length tasks) st0)
    as (st'' & e' & Hloop' & Hexe' & Hm); [simpl; lia|].
  assert (Hst : st'' = st') by congruence. subst st''.
  assert (He : e' = e).
  { destruct Hres as (Rexe & _). rewrite Rexe in Hexe'.
    apply app_inv_head in Hexe'. congruence. }
  subst e'. exists st', e.
  unfold simulation.run_simulation_for_algorithm,
    simulation.run_simulation_with_fuel.
  rewrite Hreg. fold st0. rewrite Hloop, get_metrics_value. auto.
Qed.

(** ** Sums over a batch *)

Lemma cursor_after_sum (h : heap) (t0 : Q) (l : list addr) :
  cursor_after h t0 l == t0 + sum_durations h l.
Proof.
  revert t0. induction l as [|a l IH]; intros t0.
  - unfold cursor_after, sum_durations. simpl. ring.
  - rewrite cursor_after_cons, IH. unfold sum_durations. simpl. ring.
Qed.

Lemma sum_durations_perm (h : heap) (l l' : list addr) :
  Permutation l l' -> sum_durations h l == sum_durations h l'.
Proof.
  unfold sum_durations.
  induction 1 as [|x l l' _ IH|x y l|l l' l'' _ IH1 _ IH2]; simpl.
  - reflexivity.
  - rewrite IH. reflexivity.
  - ring.
  - rewrite IH1. exact IH2.
Qed.

Lemma sum_durations_app (h : heap) (l l' : list addr) :
  sum_durations h (l ++ l') == sum_durations h l + sum_durations h l'.
Proof.
  unfold sum_durations. induction l as [|a l IH]; simpl; [ring|].
  rewrite IH. ring.
Qed.

Lemma sum_durations_nonneg (h : heap) (l : list addr) :
  (forall a, In a l -> 0 <= duration (h a)) -> 0 <= sum_durations h l.
Proof.
  unfold sum_durations. induction l as [|a l IH]; intros Hpos; simpl.
  - apply Qle_refl.
  - assert (H1 : 0 <= duration (h a)) by (apply Hpos; left; reflexivity).
    assert (H2 : 0 <= fold_right (fun a s => duration (h a) + s) 0 l)
      by (apply IH; intros x Hx; apply Hpos; right; exact Hx).
    lra.
Qed.

(** ** Runs: errors, result and frame *)

Lemma unregistered_scheduler (self : simulation.Simulator) (name : string) :
  ~ In name config.ALGORITHMS ->
  simulation.schedulers (simulation.initialize_schedulers self) !! name = None.
Proof.
  intros Hn. unfold simulation.initialize_schedulers.
  cbn [simulation.schedulers].
  apply not_elem_of_list_to_map_1. cbn [fmap list_fmap fst].
  intros Hin. apply Hn. apply list_elem_of_In in Hin.
  unfold config.ALGORITHMS. simpl in Hin |- *. tauto.
Qed.

(** X2: [initialize_schedulers] registers a new scheduler, with empty
    accumulators and its key as name, under each name of
    [config.ALGORITHMS] and under no other name, whatever the simulator held
    before. *)
Theorem initialize_schedulers_registers (self : simulation.Simulator)
    (name : string) :
  (In name config.ALGORITHMS ->
   exists p,
     simulation.schedulers (simulation.initialize_schedulers self) !! name
     = Some (algorithm.init p name))
  /\ (~ In name config.ALGORITHMS ->
      simulation.schedulers (simulation.initialize_schedulers self) !! name
      = None).
Proof.
  split; [apply registered_scheduler|apply unregistered_scheduler].
Qed.

Lemma initialize_schedulers_registers_witness :
  simulation.schedulers (simulation.initialize_schedulers simulation.init)
    !! "LIFO"%string = None.
Proof.
  apply (initialize_schedulers_registers simulation.init "LIFO").
  unfold config.ALGORITHMS. simpl. intros H.
  repeat (destruct H as [H|H]; [discriminate H|]). exact H.
Defined.

(** X3: a run for a name that has no scheduler raises [KeyError] with that
    name: every run on a simulator whose schedulers were never initialised,
    and, once they are, every run for a name outside [config.ALGORITHMS]. *)
Theorem run_unregistered_raises_key_error (now : nat -> Q)
    (self : simulation.Simulator) (h : heap) (name name' : string)
    (tasks : list addr) :
  ~ In name config.ALGORITHMS ->
  simulation.run_simulation_for_algorithm now
    (simulation.initialize_schedulers self) h name tasks
  = Some (Raised (KeyError name))
  /\ simulation.run_simulation_for_algorithm now simulation.init h name' tasks
     = Some (Raised (KeyError name')).
Proof.
  intros Hn.
  unfold simulation.run_simulation_for_algorithm,
    simulation.run_simulation_with_fuel.
  rewrite (unregistered_scheduler self name Hn). split; [reflexivity|].
  cbn [simulation.schedulers simulation.init]. rewrite lookup_empty.
  reflexivity.
Qed.

Lemma run_unregistered_raises_key_error_witness :
  simulation.run_simulation_for_algorithm (fun _ => 0)
    (samples.fresh [0; 1; 2]%nat) samples.abc "LIFO" [0; 1; 2]%nat
  = Some (Raised (KeyError "LIFO")).
Proof.
  apply (run_unregistered_raises_key_error (fun _ => 0)
           (simulation.mkSimulator [0; 1; 2]%nat empty empty empty)
           samples.abc "LIFO" "FCFS" [0; 1; 2]%nat).
  unfold config.ALGORITHMS. simpl. intros H.
  repeat (destruct H as [H|H]; [discriminate H|]). exact H.
Defined.

(** X4: a run for a registered name returns, for every batch (also one that
    repeats an object) and with any fuel from the length of the batch on; it
    leaves the batch list, the results and the schedulers and monitors of
    the other names as they were, and replaces the monitor of its name. *)
Theorem run_registered_returns (now : nat -> Q) (self : simulation.Simulator)
    (h : heap) (name : string) (tasks : list addr)
    (sched0 : algorithm.SchedulingAlgorithm) :
  simulation.schedulers self !! name = Some sched0 ->
  exists self' h' m,
    simulation.run_simulation_for_algorithm now self h name tasks
    = Some (Returned (self', h', m))
    /\ (forall fuel, (length tasks <= fuel)%nat ->
          simulation.run_simulation_with_fuel now fuel self h name tasks
          = Some (Returned (self', h', m)))
    /\ simulation.tasks self' = simulation.tasks self
    /\ simulation.results self' = simulation.results self
    /\ (forall n, n <> name ->
          simulation.schedulers self' !! n = simulation.schedulers self !! n
          /\ simulation.monitors self' !! n = simulation.monitors self !! n)
    /\ (exists s, simulation.schedulers self' !! name = Some s
                  /\ algorithm.get_metrics s = Returned m
                  /\ algorithm.m_algorithm m = algorithm.name sched0)
    /\ is_Some (simulation.monitors self' !! name).
Proof.
  intros Hreg.
  destruct (run_simulation_spec now self h name tasks sched0 Hreg)
    as (st' & e & Hrun & Hres).
  destruct Hres as (_ & _ & Rname & _).
  eexists _, _, _. split; [exact Hrun|].
  split.
  { intros fuel Hle. rewrite run_simulation_fuel_enough by exact Hle.
    exact Hrun. }
  cbn [simulation.tasks simulation.results simulation.schedulers
       simulation.monitors].
  split; [reflexivity|]. split; [reflexivity|].
  split.
  { intros n Hn. rewrite !lookup_insert_ne by congruence. split; reflexivity. }
  split.
  { exists (simulation.scheduler st'). split; [apply lookup_insert_eq|].
    split; [apply get_metrics_value|]. exact Rname. }
  rewrite lookup_insert_eq. eexists. reflexivity.
Qed.

Lemma run_registered_returns_witness :
  exists self' h' m,
    simulation.run_simulation_for_algorithm (fun _ => 0)
      (samples.fresh [0; 0]%nat) samples.abc "PriorityBased" [0; 0]%nat
    = Some (Returned (self', h', m)).
Proof.
  destruct (run_registered_returns (fun _ => 0) (samples.fresh [0; 0]%nat)
              samples.abc "PriorityBased" [0; 0]%nat
              algorithm.new_PriorityScheduler)
    as (self' & h' & m & Hrun & _).
  - reflexivity.
  - exists self', h', m. exact Hrun.
Defined.

(** ** Runs: metrics *)

(** X5: the metrics a run returns count the tasks executed so far by the
    scheduler of that name; the run executes tasks of the batch, no more
    than the batch holds, and adds the energy of each one, in the order of
    execution, to the total; the CO2 figure is the total energy times the
    emission factor; each average is the total accumulated in the order of
    execution divided by the count, and zero when the count is zero. *)
Theorem run_metrics_totals (now : nat -> Q) (self : simulation.Simulator)
    (h : heap) (name : string) (tasks : list addr)
    (sched0 : algorithm.SchedulingAlgorithm) :
  simulation.schedulers self !! name = Some sched0 ->
  exists self' h' m e,
    simulation.run_simulation_for_algorithm now self h name tasks
    = Some (Returned (self', h', m))
    /\ algorithm.tasks_executed m
       = (length (algorithm.executed_tasks sched0) + length e)%nat
    /\ (length e <= length tasks)%nat
    /\ (forall a, In a e -> In a tasks)
    /\ algorithm.total_energy_kwh m
       = energy_after h (algorithm.total_energy sched0) e
    /\ algorithm.co2_emissions_kg m
       = algorithm.total_energy_kwh m * config.EMISSION_FACTOR_KG_CO2_PER_KWH
    /\ (algorithm.tasks_executed m <> 0%nat ->
        algorithm.avg_wait_time m
        = wait_after h 0 (algorithm.total_wait_time sched0) e
          / inject_Z (Z.of_nat (algorithm.tasks_executed m))
        /\ algorithm.avg_turnaround_time m
           = turnaround_after h 0 (algorithm.total_turnaround_time sched0) e
             / inject_Z (Z.of_nat (algorithm.tasks_executed m)))
    /\ (algorithm.tasks_executed m = 0%nat ->
        algorithm.avg_wait_time m = 0 /\ algorithm.avg_turnaround_time m = 0).
Proof.
  intros Hreg.
  destruct (run_simulation_full now self h name tasks sched0 Hreg)
    as (st' & e & Hrun & Hres & Hm).
  destruct Hres as (Rexe & _ & _ & Rin & _).
  destruct Hm as (_ & Me & Mw & Mtt & _ & Mp & _).
  cbn [simulation.ls_heap simulation.scheduler simulation.current_time
       simulation.remaining_tasks] in *.
  eexists _, _, _, e. split; [exact Hrun|].
  unfold metrics_of.
  cbn [algorithm.tasks_executed algorithm.total_energy_kwh
       algorithm.co2_emissions_kg algorithm.avg_wait_time
       algorithm.avg_turnaround_time].
  split; [rewrite Rexe, length_app; reflexivity|].
  split.
  { apply Permutation_length in Mp. rewrite length_app in Mp. lia. }
  split; [exact Rin|]. split; [exact Me|]. split; [reflexivity|].
  rewrite <- Mw, <- Mtt.
  destruct (algorithm.executed_tasks (simulation.scheduler st'))
    as [|x l] eqn:Ex.
  - split; [intros Hn; simpl in Hn; congruence|]. intros _. split; reflexivity.
  - split; [|intros Hn; simpl in Hn; lia]. intros _. split; reflexivity.
Qed.

Lemma run_metrics_totals_witness :
  exists self' h' m e,
    simulation.run_simulation_for_algorithm (fun _ => 0)
      (samples.fresh [0; 1; 2]%nat) samples.abc "SJF" [0; 1; 2]%nat
    = Some (Returned (self', h', m))
    /\ algorithm.tasks_executed m = (0 + length e)%nat
    /\ algorithm.total_energy_kwh m = energy_after samples.abc 0 e.
Proof.
  destruct (run_metrics_totals (fun _ => 0) (samples.fresh [0; 1; 2]%nat)
              samples.abc "SJF" [0; 1; 2]%nat algorithm.new_SJFScheduler)
    as (self' & h' & m & e & Hrun & Hn & _ & _ & He & _).
  - reflexivity.
  - exists self', h', m, e. auto.
Defined.

(** X6: the time budget.  A task is executed only while the time cursor is
    below [config.SIMULATION_TIME], so over a batch of distinct objects
    every executed task has a [start_time] below it; and the run stops with
    tasks left only when the cursor has reached the budget. *)
Theorem run_respects_time_budget (now : nat -> Q)
    (self : simulation.Simulator) (h : heap) (name : string)
    (tasks : list addr) (sched0 : algorithm.SchedulingAlgorithm) :
  simulation.schedulers self !! name = Some sched0 ->
  List.NoDup tasks ->
  exists self' h' m sched' e,
    simulation.run_simulation_for_algorithm now self h name tasks
    = Some (Returned (self', h', m))
    /\ simulation.schedulers self' !! name = Some sched'
    /\ algorithm.executed_tasks sched' = algorithm.executed_tasks sched0 ++ e
    /\ (forall a, In a e ->
          exists s, start_time (h' a) = Some s /\ s < config.SIMULATION_TIME)
    /\ (Permutation tasks e
        \/ config.SIMULATION_TIME <= cursor_after h 0 e).
Proof.
  intros Hreg Hnd.
  destruct (run_simulation_full now self h name tasks sched0 Hreg)
    as (st' & e & Hrun & Hres & Hm).
  destruct Hres as (Rexe & _ & _ & _ & _ & _ & Rnd).
  destruct Hm as (Mt & _ & _ & _ & _ & Mp & Mx & Mc).
  cbn [simulation.ls_heap simulation.scheduler simulation.current_time
       simulation.remaining_tasks] in *.
  destruct (Rnd Hnd) as [_ Htimes].
  eexists _, _, _, (simulation.scheduler st'), e. split; [exact Hrun|].
  split; [apply lookup_insert_eq|]. split; [exact Rexe|].
  split.
  - intros a Ha. apply list_elem_of_In, list_elem_of_lookup in Ha.
    destruct Ha as [i Hi]. destruct (Htimes i a Hi) as [Hs _].
    eexists. split; [exact Hs|]. apply (Mc i a Hi).
  - destruct Mx as [Mx|Mx].
    + left. rewrite Mx, app_nil_r in Mp. exact Mp.
    + right. rewrite <- Mt. exact Mx.
Qed.

Lemma run_respects_time_budget_witness :
  exists self' h' m sched' e,
    simulation.run_simulation_for_algorithm (fun _ => 0)
      (samples.fresh [0; 1; 2]%nat) samples.abc "FCFS" [0; 1; 2]%nat
    = Some (Returned (self', h', m))
    /\ simulation.schedulers self' !! "FCFS"%string = Some sched'
    /\ (forall a, In a e ->
          exists s, start_time (h' a) = Some s /\ s < config.SIMULATION_TIME).
Proof.
  destruct (run_respects_time_budget (fun _ => 0)
              (samples.fresh [0; 1; 2]%nat) samples.abc "FCFS" [0; 1; 2]%nat
              algorithm.new_FCFSScheduler)
    as (self' & h' & m & sched' & e & Hrun & Hs & _ & Hb & _).
  - reflexivity.
  - repeat constructor; simpl; intuition lia.
  - exists self', h', m, sched', e. auto.
Defined.

Lemma cursor_below_budget (h : heap) (tasks : list addr) :
  (forall a, In a tasks -> 0 <= duration (h a)) ->
  sum_durations h tasks < config.SIMULATION_TIME ->
  forall l l', Permutation tasks (l ++ l') ->
    cursor_after h 0 l < config.SIMULATION_TIME.
Proof.
  intros Hpos Hfit l l' Hp.
  rewrite cursor_after_sum.
  pose proof (sum_durations_perm h _ _ Hp) as Hsum.
  rewrite sum_durations_app in Hsum.
  assert (Hrest : 0 <= sum_durations h l').
  { apply sum_durations_nonneg. intros a Ha. apply Hpos.
    apply (Permutation_in _ (Permutation_sym Hp)).
    apply in_or_app. right. exact Ha. }
  lra.
Qed.

(** X7: when the time cursor, accumulated as the loop does it, stays below
    [config.SIMULATION_TIME] after every selection of tasks of the batch that
    leaves some task out, in whatever order, the run executes every task of
    the batch exactly once, whatever the policy. *)
Theorem run_within_budget_executes_all (now : nat -> Q)
    (self : simulation.Simulator) (h : heap) (name : string)
    (tasks : list addr) (sched0 : algorithm.SchedulingAlgorithm) :
  simulation.schedulers self !! name = Some sched0 ->
  (forall l l', Permutation tasks (l ++ l') -> l' <> [] ->
     cursor_after h 0 l < config.SIMULATION_TIME) ->
  exists self' h' m sched' e,
    simulation.run_simulation_for_algorithm now self h name tasks
    = Some (Returned (self', h', m))
    /\ simulation.schedulers self' !! name = Some sched'
    /\ algorithm.executed_tasks sched' = algorithm.executed_tasks sched0 ++ e
    /\ Permutation tasks e
    /\ algorithm.tasks_executed m
       = (length (algorithm.executed_tasks sched0) + length tasks)%nat.
Proof.
  intros Hreg Hfit.
  destruct (run_simulation_full now self h name tasks sched0 Hreg)
    as (st' & e & Hrun & Hres & Hm).
  destruct Hres as (Rexe & _).
  destruct Hm as (Mt & _ & _ & _ & _ & Mp & Mx & _).
  cbn [simulation.ls_heap simulation.scheduler simulation.current_time
       simulation.remaining_tasks] in *.
  assert (Hperm : Permutation tasks e).
  { destruct (simulation.remaining_tasks st') as [|r rest] eqn:Hrem.
    - rewrite app_nil_r in Mp. exact Mp.
    - exfalso. destruct Mx as [Mx|Mx]; [discriminate Mx|].
      assert (Hlt : cursor_after h 0 e < config.SIMULATION_TIME).
      { apply (Hfit e (r :: rest) Mp). discriminate. }
      rewrite Mt in Mx. apply (Qlt_not_le _ _ Hlt Mx). }
  eexists _, _, _, (simulation.scheduler st'), e. split; [exact Hrun|].
  split; [apply lookup_insert_eq|]. split; [exact Rexe|].
  split; [exact Hperm|].
  unfold metrics_of. cbn [algorithm.tasks_executed].
  rewrite Rexe, length_app, (Permutation_length Hperm). reflexivity.
Qed.

Lemma run_within_budget_executes_all_witness :
  exists self' h' m sched' e,
    simulation.run_simulation_for_algorithm (fun _ => 0)
      (samples.fresh [0; 1; 2]%nat) samples.abc "EnergyOptimized" [0; 1; 2]%nat
    = Some (Returned (self', h', m))
    /\ simulation.schedulers self' !! "EnergyOptimized"%string = Some sched'
    /\ algorithm.executed_tasks sched' = [] ++ e
    /\ Permutation [0; 1; 2]%nat e.
Proof.
  destruct (run_within_budget_executes_all (fun _ => 0)
              (samples.fresh [0; 1; 2]%nat) samples.abc "EnergyOptimized"
              [0; 1; 2]%nat algorithm.new_EnergyOptimizedScheduler)
    as (self' & h' & m & sched' & e & Hrun & Hs & He & Hp & _).
  - reflexivity.
  - intros l l' Hp _.
    apply (cursor_below_budget samples.abc [0; 1; 2]%nat) with (l' := l').
    + intros a [<-|[<-|[<-|[]]]]; vm_compute; discriminate.
    + vm_compute. reflexivity.
    + exact Hp.
  - exists self', h', m, sched', e. auto.
Defined.

Lemma readings_of_length (now : nat -> Q) (h : heap) (k : nat) (l : list addr) :
  length (readings_of now h k l) = length l.
Proof.
  revert k. induction l as [|a l IH]; intros k; simpl; [reflexivity|].
  rewrite IH. reflexivity.
Qed.

Lemma loop_body_monitor_totals (now : nat -> Q) (st st' : simulation.LoopState) :
  simulation.loop_body now st = Returned st' ->
  energy_monitor.total_energy_kwh (simulation.monitor st')
  = energy_monitor.total_energy_kwh (simulation.monitor st)
  /\ energy_monitor.total_co2_kg (simulation.monitor st')
     = energy_monitor.total_co2_kg (simulation.monitor st)
  /\ energy_monitor.total_cost_inr (simulation.monitor st')
     = energy_monitor.total_cost_inr (simulation.monitor st).
Proof.
  unfold simulation.loop_body.
  destruct (algorithm.schedule (simulation.ls_heap st) (simulation.scheduler st)
              (simulation.remaining_tasks st)) as [[b|]|x];
    cbn [bind]; [| |discriminate].
  - destruct (algorithm.execute_task _ _ _ _ _) as [sch' h'].
    destruct (list_remove h' b (simulation.remaining_tasks st)) as [r|x];
      cbn [bind]; [|discriminate].
    intros H. injection H as <-. repeat split; reflexivity.
  - intros H. injection H as <-. repeat split; reflexivity.
Qed.

Lemma while_loop_monitor_totals (now : nat -> Q) (fuel : nat) :
  forall st st' : simulation.LoopState,
    simulation.while_loop now fuel st = Some (Returned st') ->
    energy_monitor.total_energy_kwh (simulation.monitor st')
    = energy_monitor.total_energy_kwh (simulation.monitor st)
    /\ energy_monitor.total_co2_kg (simulation.monitor st')
       = energy_monitor.total_co2_kg (simulation.monitor st)
    /\ energy_monitor.total_cost_inr (simulation.monitor st')
       = energy_monitor.total_cost_inr (simulation.monitor st).
Proof.
  induction fuel as [|fuel IH]; intros st st'; simpl.
  - destruct (simulation.loop_condition st); [discriminate|].
    intros H. injection H as <-. repeat split; reflexivity.
  - destruct (simulation.loop_condition st).
    2:{ intros H. injection H as <-. repeat split; reflexivity. }
    destruct (simulation.loop_body now st) as [st1|x] eqn:Hbody;
      [|discriminate].
    intros H. destruct (IH st1 st' H) as (E1 & E2 & E3).
    destruct (loop_body_monitor_totals now st st1 Hbody) as (F1 & F2 & F3).
    repeat split; congruence.
Qed.

Lemma run_monitor_totals (now : nat -> Q) (self self' : simulation.Simulator)
    (h h' : heap) (name : string) (tasks : list addr) (m : algorithm.Metrics) :
  simulation.run_simulation_for_algorithm now self h name tasks
  = Some (Returned (self', h', m)) ->
  exists mon,
    simulation.monitors self' !! name = Some mon
    /\ energy_monitor.total_energy_kwh mon = 0
    /\ energy_monitor.total_co2_kg mon = 0
    /\ energy_monitor.total_cost_inr mon = 0.
Proof.
  unfold simulation.run_simulation_for_algorithm,
    simulation.run_simulation_with_fuel.
  destruct (simulation.schedulers self !! name) as [sched0|]; [|discriminate].
  destruct (simulation.while_loop now (length tasks) _) as [[st'|x]|] eqn:Hloop;
    try discriminate.
  rewrite get_metrics_value.
  intros H. injection H as <- _ _.
  exists (simulation.monitor st'). cbn [simulation.monitors].
  split; [apply lookup_insert_eq|].
  apply (while_loop_monitor_totals now _ _ _ Hloop).
Qed.

(** X9: a run stores under its name a new monitor that holds one reading per
    executed task, in the order of execution: the CPU requirement of the
    task, the constant 30.0 as memory usage and the power of the model at
    that CPU requirement; the totals of the monitor stay at zero. *)
Theorem run_records_one_reading_per_task (now : nat -> Q)
    (self : simulation.Simulator) (h : heap) (name : string)
    (tasks : list addr) (sched0 : algorithm.SchedulingAlgorithm) :
  simulation.schedulers self !! name = Some sched0 ->
  exists self' h' m sched' mon e,
    simulation.run_simulation_for_algorithm now self h name tasks
    = Some (Returned (self', h', m))
    /\ simulation.schedulers self' !! name = Some sched'
    /\ algorithm.executed_tasks sched' = algorithm.executed_tasks sched0 ++ e
    /\ simulation.monitors self' !! name = Some mon
    /\ energy_monitor.readings mon = readings_of now h 0 e
    /\ length (energy_monitor.readings mon) = length e
    /\ energy_monitor.total_energy_kwh mon = 0
    /\ energy_monitor.total_co2_kg mon = 0
    /\ energy_monitor.total_cost_inr mon = 0.
Proof.
  intros Hreg.
  destruct (run_simulation_full now self h name tasks sched0 Hreg)
    as (st' & e & Hrun & Hres & Hm).
  destruct Hres as (Rexe & _).
  destruct Hm as (_ & _ & _ & _ & Mr & _).
  cbn [simulation.ls_heap simulation.scheduler simulation.monitor
       energy_monitor.readings energy_monitor.init length app] in *.
  destruct (run_monitor_totals now _ _ _ _ _ _ _ Hrun) as (mon & Hmon & Ht).
  cbn [simulation.monitors] in Hmon. rewrite lookup_insert_eq in Hmon.
  injection Hmon as <-.
  eexists _, _, _, (simulation.scheduler st'), (simulation.monitor st'), e.
  split; [exact Hrun|]. split; [apply lookup_insert_eq|].
  split; [exact Rexe|]. split; [apply lookup_insert_eq|].
  split; [exact Mr|]. split; [rewrite Mr; apply readings_of_length|].
  exact Ht.
Qed.

Lemma run_records_one_reading_per_task_witness :
  exists self' h' m sched' mon e,
    simulation.run_simulation_for_algorithm (fun k => inject_Z (Z.of_nat k))
      (samples.fresh [0; 1; 2]%nat) samples.abc "SJF" [0; 1; 2]%nat
    = Some (Returned (self', h', m))
    /\ simulation.schedulers self' !! "SJF"%string = Some sched'
    /\ algorithm.executed_tasks sched' = [] ++ e
    /\ simulation.monitors self' !! "SJF"%string = Some mon
    /\ length (energy_monitor.readings mon) = length e.
Proof.
  destruct (run_records_one_reading_per_task (fun k => inject_Z (Z.of_nat k))
              (samples.fresh [0; 1; 2]%nat) samples.abc "SJF" [0; 1; 2]%nat
              algorithm.new_SJFScheduler)
    as (self' & h' & m & sched' & mon & e & Hrun & Hs & He & Hmon & _ & Hl & _).
  - reflexivity.
  - exists self', h', m, sched', mon, e. auto.
Defined.

(** ** All runs: the table of results *)

Lemma items_get_set_eq {V : Type} (k : string) (v : V) (l : list (string * V)) :
  items_get k (items_set k v l) = Some v.
Proof.
  induction l as [|[k' v'] l IH]; simpl.
  - rewrite String.eqb_refl. reflexivity.
  - destruct (String.eqb k k') eqn:E; simpl; rewrite E; [reflexivity|exact IH].
Qed.

Lemma items_get_set_ne {V : Type} (k k' : string) (v : V)
    (l : list (string * V)) :
  k <> k' -> items_get k' (items_set k v l) = items_get k' l.
Proof.
  intros Hne. induction l as [|[k0 v0] l IH]; simpl.
  - apply not_eq_sym, String.eqb_neq in Hne. rewrite Hne. reflexivity.
  - destruct (String.eqb k k0) eqn:E; simpl; [|rewrite IH; reflexivity].
    apply String.eqb_eq in E. subst k0.
    apply not_eq_sym, String.eqb_neq in Hne. rewrite Hne. reflexivity.
Qed.

Lemma dict_lookup_insert_eq {V : Type} (k : string) (v : V) (d : py_dict V) :
  (<[k := v]> d) !! k = Some v.
Proof. apply items_get_set_eq. Qed.

Lemma dict_lookup_insert_ne {V : Type} (k k' : string) (v : V) (d : py_dict V) :
  k <> k' -> (<[k := v]> d) !! k' = d !! k'.
Proof. apply items_get_set_ne. Qed.

Lemma items_set_new_key {V : Type} (k : string) (v : V) (l : list (string * V)) :
  ~ In k (map fst l) -> map fst (items_set k v l) = map fst l ++ [k].
Proof.
  induction l as [|[k' v'] l IH]; simpl; intros Hn; [reflexivity|].
  destruct (String.eqb k k') eqn:E.
  - apply String.eqb_eq in E. exfalso. apply Hn. left. symmetry. exact E.
  - simpl. rewrite IH; [reflexivity|]. intros H. apply Hn. right. exact H.
Qed.

Lemma items_get_in {V : Type} (k : string) (v : V) (l : list (string * V)) :
  items_get k l = Some v -> In (k, v) l.
Proof.
  induction l as [|[k' v'] l IH]; simpl; [discriminate|].
  destruct (String.eqb k k') eqn:E.
  - apply String.eqb_eq in E. intros H. injection H as ->. left. congruence.
  - intros H. right. apply IH, H.
Qed.

Lemma items_get_first {V : Type} (k : string) (v : V) (l : list (string * V)) :
  List.NoDup (map fst l) -> In (k, v) l -> items_get k l = Some v.
Proof.
  induction l as [|[k' v'] l IH]; simpl; intros Hnd Hin; [contradiction|].
  apply List.NoDup_cons_iff in Hnd. destruct Hnd as [Hk Hnd].
  destruct Hin as [Hin|Hin].
  - injection Hin as -> ->. rewrite String.eqb_refl. reflexivity.
  - destruct (String.eqb k k') eqn:E; [|apply IH; assumption].
    apply String.eqb_eq in E. subst k'. exfalso. apply Hk.
    apply (in_map fst) in Hin. exact Hin.
Qed.

Lemma run_results_unchanged (now : nat -> Q) (self self' : simulation.Simulator)
    (h h' : heap) (name : string) (tasks : list addr) (m : algorithm.Metrics) :
  simulation.run_simulation_for_algorithm now self h name tasks
  = Some (Returned (self', h', m)) ->
  simulation.results self' = simulation.results self.
Proof.
  unfold simulation.run_simulation_for_algorithm,
    simulation.run_simulation_with_fuel.
  destruct (simulation.schedulers self !! name) as [sched0|]; [|discriminate].
  destruct (simulation.while_loop now (length tasks) _) as [[st'|x]|];
    try discriminate.
  rewrite get_metrics_value.
  intros H. injection H as <- _ _. reflexivity.
Qed.

(** The loop of [run_all_simulations] appends the names it has not yet
    written to the keys of the table, in the order it runs them. *)
Lemma run_each_keys (now : nat -> Q) (names : list string) :
  List.NoDup names ->
  forall (self self' : simulation.Simulator) (h h' : heap),
    (forall n, In n names ->
       ~ In n (map fst (dict_items (simulation.results self)))) ->
    simulation.run_each now names self h = Some (Returned (self', h')) ->
    map fst (dict_items (simulation.results self'))
    = map fst (dict_items (simulation.results self)) ++ names.
Proof.
  induction 1 as [|name names Hnotin Hnd IH]; intros self self' h h' Hnew.
  - simpl. intros H. injection H as <- _. rewrite app_nil_r. reflexivity.
  - simpl simulation.run_each.
    destruct (simulation.run_simulation_for_algorithm now self h name
                (simulation.tasks self)) as [[[[s1 h1] m]|x]|] eqn:Hrun;
      try discriminate.
    pose proof (run_results_unchanged now _ _ _ _ _ _ _ Hrun) as Hres.
    intros Hrest. apply IH in Hrest.
    + rewrite Hrest. cbn [simulation.results]. rewrite Hres.
      unfold insert, py_dict_insert. cbn [dict_items].
      rewrite items_set_new_key by (apply Hnew; left; reflexivity).
      rewrite <- app_assoc. reflexivity.
    + intros n Hn. cbn [simulation.results]. rewrite Hres.
      unfold insert, py_dict_insert. cbn [dict_items].
      rewrite items_set_new_key by (apply Hnew; left; reflexivity).
      intros Hin. apply in_app_or in Hin. destruct Hin as [Hin|[<-|[]]].
      * apply (Hnew n); [right; exact Hn|exact Hin].
      * contradiction.
Qed.

Lemma run_each_results (now : nat -> Q) (names : list string) :
  List.NoDup names ->
  forall (self : simulation.Simulator) (h : heap),
    (forall n, In n names ->
       exists s, simulation.schedulers self !! n = Some s
                 /\ algorithm.name s = n) ->
    exists self' h',
      simulation.run_each now names self h = Some (Returned (self', h'))
      /\ (forall n, In n names ->
            exists s, simulation.schedulers self' !! n = Some s
                      /\ simulation.results self' !! n
                         = Some (metrics_of s)
                      /\ algorithm.name s = n)
      /\ (forall n, ~ In n names ->
            simulation.results self' !! n = simulation.results self !! n
            /\ simulation.schedulers self' !! n
               = simulation.schedulers self !! n).
Proof.
  induction 1 as [|name names Hnotin Hnd IH]; intros self h Hreg.
  - exists self, h. split; [reflexivity|]. split; [intros n []|].
    intros n _. split; reflexivity.
  - destruct (Hreg name (or_introl eq_refl)) as (sched0 & Hs & Hname).
    destruct (run_simulation_spec now self h name (simulation.tasks self)
                sched0 Hs) as (st' & e & Hrun & Hres).
    destruct Hres as (_ & _ & Rname & _).
    cbn [simulation.scheduler] in Rname.
    simpl simulation.run_each. rewrite Hrun.
    cbn [simulation.tasks simulation.schedulers simulation.monitors
         simulation.results].
    match goal with
    | |- exists _ _, simulation.run_each _ _ ?s ?h1 = _ /\ _ =>
        destruct (IH s h1) as (self' & h' & Hall & Hin & Hout)
    end.
    { intros n Hn. cbn [simulation.schedulers].
      assert (Hne : name <> n) by (intros ->; contradiction).
      rewrite lookup_insert_ne by exact Hne. apply Hreg. right. exact Hn. }
    cbn [simulation.schedulers simulation.results] in Hout.
    exists self', h'. split; [exact Hall|]. split.
    + intros n [<-|Hn]; [|apply Hin, Hn].
      destruct (Hout name Hnotin) as [Er Es].
      rewrite dict_lookup_insert_eq in Er. rewrite lookup_insert_eq in Es.
      exists (simulation.scheduler st'). split; [exact Es|].
      split; [exact Er|]. congruence.
    + intros n Hn.
      assert (Hne : name <> n) by (intros ->; apply Hn; left; reflexivity).
      destruct (Hout n) as [Er Es]; [intros H'; apply Hn; right; exact H'|].
      rewrite dict_lookup_insert_ne in Er by exact Hne.
      rewrite lookup_insert_ne in Es by exact Hne. split; assumption.
Qed.

Lemma ALGORITHMS_NoDup : List.NoDup config.ALGORITHMS.
Proof.
  unfold config.ALGORITHMS.
  repeat (constructor; [simpl; intros H;
                        repeat (destruct H as [H|H]; [discriminate H|]);
                        exact H|]).
  constructor.
Qed.

(** X10: [run_all_simulations] returns, whatever schedulers and results the
    simulator held: for each name of [config.ALGORITHMS] the table of
    results then holds the metrics of the scheduler registered under that
    name, labelled with that name, and the results under other names are left
    as they were. *)
Theorem run_all_simulations_fills_results (now : nat -> Q)
    (self : simulation.Simulator) (h : heap) :
  exists self' h',
    simulation.run_all_simulations now self h = Some (Returned (self', h'))
    /\ (forall n, In n config.ALGORITHMS ->
          exists s m,
            simulation.schedulers self' !! n = Some s
            /\ simulation.results self' !! n = Some m
            /\ algorithm.get_metrics s = Returned m
            /\ algorithm.m_algorithm m = n)
    /\ (forall n, ~ In n config.ALGORITHMS ->
          simulation.results self' !! n = simulation.results self !! n).
Proof.
  unfold simulation.run_all_simulations.
  destruct (run_each_results now config.ALGORITHMS ALGORITHMS_NoDup
              (simulation.initialize_schedulers self) h)
    as (self' & h' & Hall & Hin & Hout).
  - intros n Hn. destruct (registered_scheduler self n Hn) as [p Hp].
    exists (algorithm.init p n). split; [exact Hp|reflexivity].
  - exists self', h'. split; [exact Hall|]. split.
    + intros n Hn. destruct (Hin n Hn) as (s & Hs & Hr & Hname).
      exists s, (metrics_of s).
      split; [exact Hs|]. split; [exact Hr|].
      split; [apply get_metrics_value|exact Hname].
    + intros n Hn. apply (Hout n Hn).
Qed.

(** ** Priority-based selection *)

Lemma priority_key_le_of_not_lt (t u : Task) :
  tuple2_lt (key_priority u) (key_priority t) = false -> priority_key_le t u.
Proof.
  unfold tuple2_lt, key_priority, priority_key_le. simpl fst. simpl snd.
  case_cmp; intros; reflect_cmp;
    first [ left; lia | right; split; [lia | lra] ].
Qed.

Lemma priority_key_lt_not_le (t u : Task) :
  tuple2_lt (key_priority t) (key_priority u) = true -> ~ priority_key_le u t.
Proof.
  unfold tuple2_lt, key_priority, priority_key_le. simpl fst. simpl snd.
  case_cmp; intros; reflect_cmp; intros [Hx|[Hx Hy]]; first [lra | lia].
Qed.

Lemma queue_priority_is_policy_priority (h : heap) (tasks : list addr) :
  TaskQueue.get_next_task h (TaskQueue.mk tasks) "PriorityBased"
  = algorithm.PriorityScheduler_schedule h tasks.
Proof.
  destruct tasks; reflexivity.
Qed.

(** X11: on a non-empty ready set the PriorityBased policy, and the lookup
    helper of the queue under that name, return the first task of the list
    whose key [(priority_rank, arrival_time)] is minimal in lexicographic
    order; so a HIGH task is returned whenever the list holds one. *)
Theorem priority_selects_minimum_key (h : heap) (tasks : list addr) :
  tasks <> [] ->
  exists t l1 l2,
    algorithm.PriorityScheduler_schedule h tasks = Returned (Some t)
    /\ algorithm.schedule h algorithm.new_PriorityScheduler tasks
       = Returned (Some t)
    /\ TaskQueue.get_next_task h (TaskQueue.mk tasks) "PriorityBased"
       = Returned (Some t)
    /\ tasks = l1 ++ t :: l2
    /\ (forall u, In u tasks -> priority_key_le (h t) (h u))
    /\ (forall u, In u l1 -> ~ priority_key_le (h u) (h t))
    /\ ((exists u, In u tasks /\ priority (h u) = HIGH) ->
        priority (h t) = HIGH).
Proof.
  intros Hne.
  destruct (py_min_first_min tuple2_lt key_priority h
              tuple2_lt_trans tuple2_lt_neg_trans tasks Hne)
    as (t & Hmin & Hfirst).
  pose proof (fun u => first_min_le tuple2_lt key_priority h tuple2_lt_irrefl
                         tuple2_lt_trans tasks t u Hfirst) as Hle.
  destruct Hfirst as (l1 & l2 & El & H1 & H2).
  exists t, l1, l2.
  assert (Hs : algorithm.PriorityScheduler_schedule h tasks
               = Returned (Some t)).
  { unfold algorithm.PriorityScheduler_schedule. rewrite Hmin.
    destruct tasks; [congruence|reflexivity]. }
  assert (Hkey : forall u, In u tasks -> priority_key_le (h t) (h u)).
  { intros u Hu. apply priority_key_le_of_not_lt, Hle, Hu. }
  split; [exact Hs|]. split; [exact Hs|].
  split; [rewrite queue_priority_is_policy_priority; exact Hs|].
  split; [exact El|]. split; [exact Hkey|]. split.
  - intros u Hu. apply priority_key_lt_not_le, H1, Hu.
  - intros (u & Hu & Hhigh). specialize (Hkey u Hu).
    unfold priority_key_le in Hkey. rewrite Hhigh in Hkey.
    destruct (priority (h t)); simpl in Hkey; [reflexivity|lia|lia].
Qed.

Lemma priority_selects_minimum_key_witness :
  exists t,
    algorithm.PriorityScheduler_schedule samples.abc [0; 1; 2]%nat
    = Returned (Some t)
    /\ priority (samples.abc t) = HIGH.
Proof.
  destruct (priority_selects_minimum_key samples.abc [0; 1; 2]%nat)
    as (t & l1 & l2 & Hs & _ & _ & _ & _ & _ & Hhigh).
  - discriminate.
  - exists t. split; [exact Hs|]. apply Hhigh.
    exists 1%nat. split; [simpl; tauto|reflexivity].
Defined.

(** ** The queue *)

(** X12: for FCFS, SJF, PriorityBased and RoundRobin the lookup helper of
    the queue, asked by the name of the policy, returns what the policy
    class selects from the same list. *)
Theorem queue_lookup_agrees_with_policies
    (h : heap) (tasks : list addr) (time_quantum : Z) :
  TaskQueue.get_next_task h (TaskQueue.mk tasks) "FCFS"
  = algorithm.schedule h algorithm.new_FCFSScheduler tasks
  /\ TaskQueue.get_next_task h (TaskQueue.mk tasks) "SJF"
     = algorithm.schedule h algorithm.new_SJFScheduler tasks
  /\ TaskQueue.get_next_task h (TaskQueue.mk tasks) "PriorityBased"
     = algorithm.schedule h algorithm.new_PriorityScheduler tasks
  /\ TaskQueue.get_next_task h (TaskQueue.mk tasks) "RoundRobin"
     = algorithm.schedule h (algorithm.new_RoundRobinScheduler time_quantum)
         tasks.
Proof.
  destruct tasks; repeat split; reflexivity.
Qed.

Lemma min_scan_in {K : Type} (lt : K -> K -> bool) (key : Task -> K)
    (h : heap) (l : list addr) :
  forall best, In (min_scan lt key h best l) (best :: l).
Proof.
  induction l as [|x l IH]; intros best; simpl; [left; reflexivity|].
  destruct (IH (if lt (key (h x)) (key (h best)) then x else best))
    as [E|Hin]; [|right; right; exact Hin].
  destruct (lt (key (h x)) (key (h best))); rewrite <- E; tauto.
Qed.

(** X13: whatever the name asked, [get_next_task] raises nothing; it
    returns [None] exactly when the queue is empty, and otherwise a task of
    the queue. *)
Theorem get_next_task_returns_member
    (h : heap) (self : TaskQueue.t) (algorithm : string) :
  exists r,
    TaskQueue.get_next_task h self algorithm = Returned r
    /\ (r = None <-> TaskQueue.tasks self = [])
    /\ (forall t, r = Some t -> In t (TaskQueue.tasks self)).
Proof.
  unfold TaskQueue.get_next_task.
  destruct (TaskQueue.tasks self) as [|x l] eqn:El.
  - exists None. split; [reflexivity|]. split; [tauto|discriminate].
  - assert (Hmem : forall t, In t (x :: l) ->
              exists r, Returned (Some t) = Returned r
                        /\ (r = None <-> x :: l = [])
                        /\ (forall t', r = Some t' -> In t' (x :: l))).
    { intros t Ht. exists (Some t). split; [reflexivity|].
      split; [split; discriminate|]. intros t' E. injection E as <-. exact Ht. }
    repeat match goal with
           | |- context [if ?c then _ else _] => destruct c
           end;
      cbn [py_first py_min bind]; apply Hmem;
      first [left; reflexivity | apply min_scan_in].
Qed.

(** X14: under the name EnergyOptimized the lookup helper of the queue
    returns the first task of minimum [cpu_requirement]; the task the policy
    class selects from the same list has that CPU requirement too, the two
    can differ only in priority and arrival. *)
Theorem queue_energy_lookup_first_min_cpu (h : heap) (tasks : list addr) :
  tasks <> [] ->
  exists t t' l1 l2,
    TaskQueue.get_next_task h (TaskQueue.mk tasks) "EnergyOptimized"
    = Returned (Some t)
    /\ algorithm.EnergyOptimizedScheduler_schedule h tasks = Returned (Some t')
    /\ tasks = l1 ++ t :: l2
    /\ (forall u, In u tasks -> cpu_requirement (h t) <= cpu_requirement (h u))
    /\ (forall u, In u l1 -> cpu_requirement (h t) < cpu_requirement (h u))
    /\ In t' tasks
    /\ cpu_requirement (h t') == cpu_requirement (h t).
Proof.
  intros Hne.
  destruct (py_min_first_min Qltb key_cpu h Qltb_trans Qltb_neg_trans tasks Hne)
    as (t & Hmin & Hfirst).
  pose proof (fun u => first_min_le Qltb key_cpu h Qltb_irrefl Qltb_trans
                         tasks t u Hfirst) as Hle.
  destruct (py_sorted_first_min tuple3_lt key_energy h
              tuple3_lt_trans tuple3_lt_neg_trans tasks Hne)
    as (t' & Hhead & Hfirst').
  pose proof (fun u => first_min_le tuple3_lt key_energy h tuple3_lt_irrefl
                         tuple3_lt_trans tasks t' u Hfirst') as Hle'.
  pose proof (first_min_in _ _ _ _ _ Hfirst) as Hin.
  pose proof (first_min_in _ _ _ _ _ Hfirst') as Hin'.
  destruct Hfirst as (l1 & l2 & El & H1 & H2).
  exists t, t', l1, l2.
  split.
  { unfold TaskQueue.get_next_task. cbn [TaskQueue.tasks]. rewrite Hmin.
    destruct tasks; [congruence|reflexivity]. }
  split.
  { unfold algorithm.EnergyOptimizedScheduler_schedule.
    destruct tasks as [|x l]; [congruence|].
    destruct (py_sorted tuple3_lt key_energy h (x :: l)) as [|y s];
      [discriminate|].
    simpl in Hhead. injection Hhead as ->. reflexivity. }
  split; [exact El|].
  assert (Hcpu : forall u, In u tasks ->
            cpu_requirement (h t) <= cpu_requirement (h u)).
  { intros u Hu. apply Qltb_ge. apply (Hle u Hu). }
  split; [exact Hcpu|].
  split; [intros u Hu; apply Qltb_lt; apply (H1 u Hu)|].
  split; [exact Hin'|].
  specialize (Hcpu t' Hin'). specialize (Hle' t Hin).
  apply energy_key_le_of_not_lt in Hle'. unfold energy_key_le in Hle'.
  destruct Hle' as [Hx|[[Hx _]|[Hx _]]]; lra.
Qed.

Lemma queue_energy_lookup_first_min_cpu_witness :
  exists t t',
    TaskQueue.get_next_task samples.cpu_ties (TaskQueue.mk [0; 1]%nat)
      "EnergyOptimized" = Returned (Some t)
    /\ algorithm.EnergyOptimizedScheduler_schedule samples.cpu_ties [0; 1]%nat
       = Returned (Some t')
    /\ cpu_requirement (samples.cpu_ties t')
       == cpu_requirement (samples.cpu_ties t).
Proof.
  destruct (queue_energy_lookup_first_min_cpu samples.cpu_ties [0; 1]%nat)
    as (t & t' & l1 & l2 & Hq & Hp & _ & _ & _ & _ & Hc).
  - discriminate.
  - exists t, t'. auto.
Defined.

(** X15: [get_task_by_id] returns the first task of the queue that carries
    the identifier, and [None] exactly when no task carries it; adding a
    task does not change the answer for an identifier already present, and a
    task added under a new identifier is found by it. *)
Theorem get_task_by_id_first_match
    (h : heap) (self : TaskQueue.t) (task : addr) (id : string) :
  (forall t, TaskQueue.get_task_by_id h self id = Some t ->
     task_id (h t) = id
     /\ exists l1 l2, TaskQueue.tasks self = l1 ++ t :: l2
                      /\ forall u, In u l1 -> task_id (h u) <> id)
  /\ (TaskQueue.get_task_by_id h self id = None
      <-> forall u, In u (TaskQueue.tasks self) -> task_id (h u) <> id)
  /\ (forall t, TaskQueue.get_task_by_id h self id = Some t ->
        TaskQueue.get_task_by_id h (TaskQueue.add_task self task) id = Some t)
  /\ (TaskQueue.get_task_by_id h self (task_id (h task)) = None ->
      TaskQueue.get_task_by_id h (TaskQueue.add_task self task)
        (task_id (h task)) = Some task).
Proof.
  unfold TaskQueue.get_task_by_id, TaskQueue.add_task.
  cbn [TaskQueue.tasks].
  generalize (TaskQueue.tasks self) as l. intros l.
  split; [|split; [|split]].
  - induction l as [|x l IH]; intros t; simpl; [discriminate|].
    destruct (String.eqb (task_id (h x)) id) eqn:E.
    + intros Ht. injection Ht as <-. apply String.eqb_eq in E.
      split; [exact E|]. exists [], l. split; [reflexivity|]. intros u [].
    + intros Ht. destruct (IH t Ht) as (Hid & l1 & l2 & El & Hl1).
      split; [exact Hid|]. exists (x :: l1), l2. rewrite El.
      split; [reflexivity|]. intros u [<-|Hu]; [|apply Hl1, Hu].
      apply String.eqb_neq, E.
  - induction l as [|x l IH]; simpl.
    + split; [intros _ u []|reflexivity].
    + destruct (String.eqb (task_id (h x)) id) eqn:E.
      * split; [discriminate|]. intros Hall. exfalso.
        apply (Hall x (or_introl eq_refl)). apply String.eqb_eq, E.
      * rewrite IH. split.
        -- intros Hall u [<-|Hu]; [apply String.eqb_neq, E|apply Hall, Hu].
        -- intros Hall u Hu. apply Hall. right. exact Hu.
  - induction l as [|x l IH]; intros t; simpl; [discriminate|].
    destruct (String.eqb (task_id (h x)) id); [auto|apply IH].
  - induction l as [|x l IH]; simpl.
    + intros _. rewrite String.eqb_refl. reflexivity.
    + destruct (String.eqb (task_id (h x)) (task_id (h task)));
        [discriminate|exact IH].
Qed.

Lemma get_task_by_id_first_match_witness :
  TaskQueue.get_task_by_id samples.abc
    (TaskQueue.add_task (TaskQueue.mk [0; 1]%nat) 2%nat) "C" = Some 2%nat.
Proof.
  apply (get_task_by_id_first_match samples.abc (TaskQueue.mk [0; 1]%nat)
           2%nat "C").
  reflexivity.
Defined.

Lemma list_remove_first (h : heap) (x : addr) (l : list addr) :
  py_contains h x l = true ->
  exists l1 y l2,
    l = l1 ++ y :: l2
    /\ list_remove h x l = Returned (l1 ++ l2)
    /\ (y = x \/ Task_eq (h y) (h x) = true)
    /\ (forall u, In u l1 -> u <> x /\ Task_eq (h u) (h x) = false).
Proof.
  unfold py_contains. induction l as [|z l IH]; simpl; [discriminate|].
  destruct (Nat.eqb z x || Task_eq (h z) (h x)) eqn:E.
  - intros _. exists [], z, l. split; [reflexivity|]. split; [reflexivity|].
    split; [|intros u []].
    apply orb_true_iff in E. destruct E as [E|E]; [left|right; exact E].
    apply Nat.eqb_eq, E.
  - simpl. intros Hc. destruct (IH Hc) as (l1 & y & l2 & El & Hr & Hy & Hl1).
    exists (z :: l1), y, l2. rewrite El at 1. split; [reflexivity|].
    rewrite Hr. split; [reflexivity|]. split; [exact Hy|].
    apply orb_false_iff in E. destruct E as [E1 E2].
    intros u [<-|Hu]; [|apply Hl1, Hu].
    split; [apply Nat.eqb_neq, E1|exact E2].
Qed.

Lemma py_contains_app (h : heap) (x : addr) (l l' : list addr) :
  py_contains h x (l ++ l') = py_contains h x l || py_contains h x l'.
Proof.
  unfold py_contains. apply existsb_app.
Qed.

(** X16: [remove_task] raises nothing.  When no task of the queue is the
    given object or equal to it field by field, the queue is unchanged;
    otherwise exactly one task leaves the queue, the first one that is the
    object or equals it, which need not be the object itself.  Removing a
    task right after adding it gives the queue back when it held no such
    task before. *)
Theorem remove_task_drops_first_equal
    (h : heap) (self : TaskQueue.t) (task : addr) :
  exists self',
    TaskQueue.remove_task h self task = Returned self'
    /\ (py_contains h task (TaskQueue.tasks self) = false -> self' = self)
    /\ (py_contains h task (TaskQueue.tasks self) = true ->
        exists l1 y l2,
          TaskQueue.tasks self = l1 ++ y :: l2
          /\ TaskQueue.tasks self' = l1 ++ l2
          /\ TaskQueue.len self = S (TaskQueue.len self')
          /\ (y = task \/ Task_eq (h y) (h task) = true)
          /\ (forall u, In u l1 -> u <> task /\ Task_eq (h u) (h task) = false))
    /\ (In task (TaskQueue.tasks self) ->
        py_contains h task (TaskQueue.tasks self) = true)
    /\ (py_contains h task (TaskQueue.tasks self) = false ->
        TaskQueue.remove_task h (TaskQueue.add_task self task) task
        = Returned self).
Proof.
  unfold TaskQueue.remove_task, TaskQueue.add_task, TaskQueue.len.
  destruct self as [l]. cbn [TaskQueue.tasks].
  assert (Hin : In task l -> py_contains h task l = true).
  { intros Hi. unfold py_contains. apply existsb_exists. exists task.
    split; [exact Hi|]. rewrite Nat.eqb_refl. reflexivity. }
  assert (Hround : py_contains h task l = false ->
            (if py_contains h task (l ++ [task])
             then bind (list_remove h task (l ++ [task]))
                    (fun l0 => Returned {| TaskQueue.tasks := l0 |})
             else Returned {| TaskQueue.tasks := l ++ [task] |})
            = Returned {| TaskQueue.tasks := l |}).
  { intros Hc. rewrite py_contains_app, Hc. unfold py_contains at 1.
    simpl existsb. rewrite Nat.eqb_refl. simpl orb. cbv iota.
    rewrite (list_remove_at h task l []), app_nil_r; [reflexivity|].
    intros u Hu. unfold py_contains in Hc.
    destruct (Nat.eqb u task || Task_eq (h u) (h task)) eqn:E.
    - exfalso. assert (Ht : existsb
                 (fun y => Nat.eqb y task || Task_eq (h y) (h task)) l = true)
        by (apply existsb_exists; exists u; auto).
      congruence.
    - apply orb_false_iff in E. destruct E as [E1 E2].
      split; [apply Nat.eqb_neq, E1|exact E2]. }
  destruct (py_contains h task l) eqn:Hc.
  - destruct (list_remove_first h task l Hc)
      as (l1 & y & l2 & El & Hr & Hy & Hl1).
    rewrite Hr. cbn [bind]. eexists. split; [reflexivity|].
    split; [discriminate|]. split.
    + intros _. exists l1, y, l2. cbn [TaskQueue.tasks].
      split; [exact El|]. split; [reflexivity|].
      split; [rewrite El, !length_app; simpl; lia|]. auto.
    + split; [auto|discriminate].
  - eexists. split; [reflexivity|]. split; [reflexivity|].
    split; [discriminate|]. split; [exact Hin|]. intros _. apply Hround.
    reflexivity.
Qed.

Lemma remove_task_drops_first_equal_witness :
  TaskQueue.remove_task samples.abc
    (TaskQueue.add_task (TaskQueue.mk [0; 1]%nat) 2%nat) 2%nat
  = Returned (TaskQueue.mk [0; 1]%nat).
Proof.
  destruct (remove_task_drops_first_equal samples.abc
              (TaskQueue.mk [0; 1]%nat) 2%nat)
    as (self' & _ & _ & _ & _ & Hround).
  apply Hround. reflexivity.
Defined.

(** Of two equal tasks the first leaves the queue, also when the other one
    is asked for: objects 1 and 2 below carry the same fields. *)
Lemma remove_task_equal_sample :
  TaskQueue.remove_task (fun _ => samples.task "T" 1 LOW 0 50)
    (TaskQueue.mk [1; 2]%nat) 2%nat
  = Returned (TaskQueue.mk [2]%nat).
Proof. reflexivity. Qed.

(** ** The energy monitor *)

Lemma get_total_energy_kwh_value (self : energy_monitor.EnergyMonitor) :
  exists v,
    energy_monitor.get_total_energy_kwh self
    = Returned
        ({| energy_monitor.readings := energy_monitor.readings self;
            energy_monitor.total_energy_kwh := v;
            energy_monitor.total_co2_kg := energy_monitor.total_co2_kg self;
            energy_monitor.total_cost_inr := energy_monitor.total_cost_inr self |},
         v)
    /\ v == left_endpoint_joules (energy_monitor.readings self) / 3600000.
Proof.
  unfold energy_monitor.get_total_energy_kwh, energy_monitor.py_range.
  destruct (energy_monitor.readings self) as [|r l] eqn:El.
  - simpl. eexists. split; reflexivity.
  - destruct (integrate_prefix self (length l) 0 0) as (v & Hv & Ev).
    { rewrite El. simpl. lia. }
    replace (Z.to_nat (Z.of_nat (length (r :: l)) - 1)) with (length l)
      by (simpl length; lia).
    rewrite Hv. cbn [bind]. eexists. split; [reflexivity|].
    rewrite El, drop_0 in Ev. rewrite Ev. field.
Qed.

Lemma fold_left_ext_in {A B : Type} (f g : A -> B -> A) (l : list B) :
  (forall a x, In x l -> f a x = g a x) ->
  forall a, fold_left f l a = fold_left g l a.
Proof.
  induction l as [|x l IH]; intros Hext a; [reflexivity|].
  simpl. rewrite (Hext a x) by (left; reflexivity).
  apply IH. intros a' y Hy. apply Hext. right. exact Hy.
Qed.

(** The passes of the loop over the pairs of the old log read the same
    readings in the log with one more reading. *)
Lemma integrate_step_record_reading (self : energy_monitor.EnergyMonitor)
    (now cpu mem power : Q) (acc : outcome Q) (i : nat) :
  (S i < length (energy_monitor.readings self))%nat ->
  energy_monitor.integrate_step
    (energy_monitor.record_reading self now cpu mem power) acc i
  = energy_monitor.integrate_step self acc i.
Proof.
  intros Hi. unfold energy_monitor.integrate_step, energy_monitor.reading_at.
  cbn [energy_monitor.readings energy_monitor.record_reading].
  rewrite !lookup_app_l by lia. reflexivity.
Qed.

(** X17: recording one more reading adds to the joules of the log, by one
    more pass of the loop, the power of the previous last reading times the
    time elapsed since it, before the division by 3,600,000; the power, CPU
    and memory figures of the new reading itself do not count.  The total
    does not decrease when that power is non-negative and time has not gone
    back. *)
Theorem record_reading_extends_integral
    (self : energy_monitor.EnergyMonitor) (l0 : list energy_monitor.Reading)
    (r : energy_monitor.Reading) (now cpu mem power : Q) :
  energy_monitor.readings self = l0 ++ [r] ->
  exists m1 j1 m2,
    energy_monitor.get_total_energy_kwh self = Returned (m1, j1 / 3600000)
    /\ energy_monitor.get_total_energy_kwh
         (energy_monitor.record_reading self now cpu mem power)
       = Returned
           (m2,
            (j1 + energy_monitor.power_watts r
                  * (now - energy_monitor.timestamp r)) / 3600000)
    /\ length (energy_monitor.readings m2)
       = S (length (energy_monitor.readings self))
    /\ (0 <= energy_monitor.power_watts r ->
        energy_monitor.timestamp r <= now ->
        j1 / 3600000
        <= (j1 + energy_monitor.power_watts r
                 * (now - energy_monitor.timestamp r)) / 3600000).
Proof.
  intros El.
  assert (Hlen : length (energy_monitor.readings self) = S (length l0)).
  { rewrite El, length_app. simpl. lia. }
  destruct (integrate_prefix self (length l0) 0 0) as (j1 & Hj1 & _);
    [lia|].
  unfold energy_monitor.get_total_energy_kwh at 1 2, energy_monitor.py_range.
  cbn [energy_monitor.readings energy_monitor.record_reading].
  rewrite length_app, Hlen. cbn [length].
  replace (Z.to_nat (Z.of_nat (S (length l0)) - 1)) with (length l0) by lia.
  replace (Z.to_nat (Z.of_nat (S (length l0) + 1) - 1)) with (S (length l0))
    by lia.
  rewrite Hj1. cbn [bind].
  rewrite seq_S, fold_left_app.
  rewrite (fold_left_ext_in
             (energy_monitor.integrate_step
                (energy_monitor.record_reading self now cpu mem power))
             (energy_monitor.integrate_step self) (seq 0 (length l0))).
  2:{ intros a i Hi. apply in_seq in Hi.
      apply integrate_step_record_reading. lia. }
  rewrite Hj1. cbn [fold_left Nat.add].
  rewrite (integrate_step_in_range _ j1 (length l0) r
             (energy_monitor.mkReading now cpu mem power)).
  2:{ cbn [energy_monitor.readings energy_monitor.record_reading].
      rewrite El. rewrite lookup_app_l by (rewrite length_app; simpl; lia).
      rewrite lookup_app_r by lia. rewrite Nat.sub_diag. reflexivity. }
  2:{ cbn [energy_monitor.readings energy_monitor.record_reading].
      rewrite lookup_app_r by lia. rewrite Hlen, Nat.sub_diag. reflexivity. }
  cbn [bind energy_monitor.timestamp].
  eexists _, j1, _. split; [reflexivity|]. split; [reflexivity|].
  cbn [energy_monitor.readings]. split; [rewrite length_app; simpl; lia|].
  intros Hp Ht.
  assert (Hprod : 0 <= energy_monitor.power_watts r
                       * (now - energy_monitor.timestamp r)).
  { apply Qmult_le_0_compat; [exact Hp|]. lra. }
  assert (Hdiv : forall x : Q, x / 3600000 == x * (1 # 3600000))
    by (intros x; field).
  rewrite !Hdiv. lra.
Qed.

Lemma record_reading_extends_integral_witness :
  exists m1 j1 m2,
    energy_monitor.get_total_energy_kwh
      (energy_monitor.mkMonitor samples.readings3 0 0 0)
    = Returned (m1, j1 / 3600000)
    /\ energy_monitor.get_total_energy_kwh
         (energy_monitor.record_reading
            (energy_monitor.mkMonitor samples.readings3 0 0 0) 9 40 30 11)
       = Returned (m2, (j1 + 7 * (9 - 5)) / 3600000).
Proof.
  destruct (record_reading_extends_integral
              (energy_monitor.mkMonitor samples.readings3 0 0 0)
              [energy_monitor.mkReading 0 50 30 10;
               energy_monitor.mkReading 2 80 30 13]
              (energy_monitor.mkReading 5 20 30 7) 9 40 30 11)
    as (m1 & j1 & m2 & H1 & H2 & _).
  - reflexivity.
  - exists m1, j1, m2. auto.
Defined.

Lemma left_endpoint_joules_nonneg (l : list energy_monitor.Reading) :
  ascending_timestamps l ->
  (forall r, In r l -> 0 <= energy_monitor.power_watts r) ->
  0 <= left_endpoint_joules l.
Proof.
  induction l as [|r l IH]; intros Hasc Hpos; [apply Qle_refl|].
  destruct l as [|r' l]; [apply Qle_refl|].
  destruct Hasc as [Ht Hasc].
  change (left_endpoint_joules (r :: r' :: l))
    with (energy_monitor.power_watts r
          * (energy_monitor.timestamp r' - energy_monitor.timestamp r)
          + left_endpoint_joules (r' :: l)).
  assert (H1 : 0 <= energy_monitor.power_watts r
                    * (energy_monitor.timestamp r'
                       - energy_monitor.timestamp r)).
  { apply Qmult_le_0_compat; [apply Hpos; left; reflexivity|]. lra. }
  assert (H2 : 0 <= left_endpoint_joules (r' :: l)).
  { apply IH; [exact Hasc|]. intros x Hx. apply Hpos. right. exact Hx. }
  lra.
Qed.

(** X18: on every log the three totals of the monitor raise nothing; the
    CO2 figure is the energy times the emission factor and the cost the
    energy times the price, and each call stores its value in the monitor
    and keeps the readings.  On a log whose timestamps never go back and
    whose powers are non-negative the three values are non-negative. *)
Theorem monitor_totals_nonnegative (self : energy_monitor.EnergyMonitor) :
  exists me e mc c mk k,
    energy_monitor.get_total_energy_kwh self = Returned (me, e)
    /\ energy_monitor.get_total_co2_kg self = Returned (mc, c)
    /\ energy_monitor.get_total_cost_inr self = Returned (mk, k)
    /\ c = e * config.EMISSION_FACTOR_KG_CO2_PER_KWH
    /\ k = e * config.POWER_COST_PER_KWH
    /\ energy_monitor.total_energy_kwh me = e
    /\ energy_monitor.total_co2_kg mc = c
    /\ energy_monitor.total_energy_kwh mc = e
    /\ energy_monitor.total_cost_inr mk = k
    /\ energy_monitor.readings me = energy_monitor.readings self
    /\ energy_monitor.readings mc = energy_monitor.readings self
    /\ energy_monitor.readings mk = energy_monitor.readings self
    /\ (ascending_timestamps (energy_monitor.readings self) ->
        (forall r, In r (energy_monitor.readings self) ->
           0 <= energy_monitor.power_watts r) ->
        0 <= e /\ 0 <= c /\ 0 <= k).
Proof.
  destruct (get_total_energy_kwh_value self) as (e & He & Ee).
  unfold energy_monitor.get_total_co2_kg, energy_monitor.get_total_cost_inr.
  rewrite He. cbn [bind fst snd].
  eexists _, e, _, _, _, _. split; [reflexivity|].
  split; [reflexivity|]. split; [reflexivity|].
  unfold energy_monitor.calculate_co2_emissions,
    energy_monitor.calculate_energy_cost.
  cbn [energy_monitor.total_energy_kwh energy_monitor.total_co2_kg
       energy_monitor.total_cost_inr energy_monitor.readings].
  repeat match goal with
         | |- (_ = _) /\ _ => split; [reflexivity|]
         end.
  intros Hasc Hpos.
  pose proof (left_endpoint_joules_nonneg _ Hasc Hpos) as Hj.
  assert (Hdiv : left_endpoint_joules (energy_monitor.readings self) / 3600000
                 == left_endpoint_joules (energy_monitor.readings self)
                    * (1 # 3600000)) by field.
  assert (H0 : 0 <= e) by (rewrite Ee, Hdiv; lra).
  unfold config.EMISSION_FACTOR_KG_CO2_PER_KWH, config.POWER_COST_PER_KWH.
  split; [exact H0|]. split.
  - apply Qmult_le_0_compat; [exact H0|]. vm_compute. discriminate.
  - apply Qmult_le_0_compat; [exact H0|]. vm_compute. discriminate.
Qed.

Lemma monitor_totals_nonnegative_witness :
  exists me e,
    energy_monitor.get_total_energy_kwh
      (energy_monitor.mkMonitor samples.readings3 0 0 0) = Returned (me, e)
    /\ 0 <= e.
Proof.
  destruct (monitor_totals_nonnegative
              (energy_monitor.mkMonitor samples.readings3 0 0 0))
    as (me & e & mc & c & mk & k & He & _ & _ & _ & _ & _ & _ & _ & _ & _ & _
        & _ & Hpos).
  exists me, e. split; [exact He|]. apply Hpos.
  - simpl. repeat split; vm_compute; discriminate.
  - simpl. intros r [<-|[<-|[<-|[]]]]; vm_compute; discriminate.
Defined.

(** The totals on a log whose timestamps go back: nothing is raised and the
    energy is negative. *)
Lemma monitor_totals_time_going_back :
  exists me e,
    energy_monitor.get_total_energy_kwh
      (energy_monitor.mkMonitor
         [energy_monitor.mkReading 5 50 30 10;
          energy_monitor.mkReading 2 50 30 10] 0 0 0)
    = Returned (me, e)
    /\ e < 0.
Proof.
  eexists _, _. split; [reflexivity|]. vm_compute. reflexivity.
Qed.

(** ** Power and energy of a task *)

Lemma power_linear_form (u : Q) :
  energy_monitor.calculate_power_watts u == 5 + u * (1 # 10).
Proof.
  unfold energy_monitor.calculate_power_watts,
    config.BASE_POWER_WATTS, config.MAX_POWER_WATTS. field.
Qed.

(** X19: the power model is not clamped to the range of the two constants:
    it is monotone over every usage, at or above the maximum power for a
    usage of 100 or more and at or below the base power for a usage of 0 or
    less; a usage of 200 gives 25 W and a usage of -100 gives -5 W, a
    negative power, in exact arithmetic and on binary64. *)
Theorem power_model_not_clamped (u u' : Q) :
  (u <= u' ->
   energy_monitor.calculate_power_watts u
   <= energy_monitor.calculate_power_watts u')
  /\ (100 <= u ->
      config.MAX_POWER_WATTS <= energy_monitor.calculate_power_watts u)
  /\ (u <= 0 ->
      energy_monitor.calculate_power_watts u <= config.BASE_POWER_WATTS)
  /\ energy_monitor.calculate_power_watts 200 == 25
  /\ energy_monitor.calculate_power_watts (-100) == -5
  /\ power_f64.calculate_power_watts 200%float = 25%float
  /\ power_f64.calculate_power_watts (-100)%float = (-5)%float.
Proof.
  rewrite !power_linear_form.
  unfold config.BASE_POWER_WATTS, config.MAX_POWER_WATTS.
  split; [intros H; lra|]. split; [intros H; lra|].
  split; [intros H; lra|].
  split; [reflexivity|]. split; [reflexivity|].
  split; vm_compute; reflexivity.
Qed.

(** X20: for a task with a CPU requirement in [0, 100] and a non-negative
    duration, the energy the engine charges lies between the energy at base
    power and the energy at maximum power over that duration. *)
Theorem task_energy_bounds (h : heap) (a : addr) :
  0 <= cpu_requirement (h a) -> cpu_requirement (h a) <= 100 ->
  0 <= duration (h a) ->
  get_energy_consumption (h a) config.BASE_POWER_WATTS <= energy_of h a
  /\ energy_of h a <= get_energy_consumption (h a) config.MAX_POWER_WATTS
  /\ 0 <= energy_of h a.
Proof.
  intros Hc0 Hc1 Hd. unfold energy_of, get_energy_consumption.
  set (d := duration (h a)) in *.
  set (c := cpu_requirement (h a)) in *.
  assert (E : forall p, p * d / (3600 * 1000) == p * d * (1 # 3600000))
    by (intros p; field).
  rewrite !E, power_linear_form.
  unfold config.BASE_POWER_WATTS, config.MAX_POWER_WATTS.
  assert (Hcd : 0 <= c * d) by (apply Qmult_le_0_compat; assumption).
  assert (Hcd' : 0 <= (100 - c) * d)
    by (apply Qmult_le_0_compat; [lra|assumption]).
  repeat split; lra.
Qed.

Lemma task_energy_bounds_witness :
  get_energy_consumption (samples.abc 0%nat) config.BASE_POWER_WATTS
  <= energy_of samples.abc 0%nat.
Proof.
  apply (task_energy_bounds samples.abc 0%nat); vm_compute; discriminate.
Defined.

(** ** Voltage and frequency scaling *)

(** X21: for a non-negative power, [apply_dvfs] returns a power between 60%
    of it and the whole of it, never a higher one, and the scaled power does
    not decrease when the CPU usage grows; the factor is 0.6 below 30, 0.8
    from 30 up to 60 and 1 from 60 on. *)
Theorem apply_dvfs_scales_down (p u u' : Q) :
  0 <= p -> u <= u' ->
  p * 0.6 <= algorithm.apply_dvfs p u
  /\ algorithm.apply_dvfs p u <= p
  /\ algorithm.apply_dvfs p u <= algorithm.apply_dvfs p u'
  /\ (u < 30 -> algorithm.apply_dvfs p u = p * 0.6)
  /\ (30 <= u -> u < 60 -> algorithm.apply_dvfs p u = p * 0.8)
  /\ (60 <= u -> algorithm.apply_dvfs p u = p).
Proof.
  intros Hp Hu. unfold algorithm.apply_dvfs.
  destruct (Qltb u 30) eqn:E1; destruct (Qltb u 60) eqn:E2;
    destruct (Qltb u' 30) eqn:E3; destruct (Qltb u' 60) eqn:E4;
    reflect_cmp;
    repeat match goal with |- _ /\ _ => split end;
    try (intros; first [reflexivity | lra]).
Qed.

Lemma apply_dvfs_scales_down_witness :
  algorithm.apply_dvfs 10 20 <= algorithm.apply_dvfs 10 45.
Proof.
  apply (apply_dvfs_scales_down 10 20 45); vm_compute; discriminate.
Defined.

(** ** The stable sort *)

Section SortedByFacts.
Context {A K : Type} (lt : K -> K -> bool) (key : A -> K).

Lemma insert_by_perm (x : A) (s : list A) :
  Permutation (insert_by lt key x s) (x :: s).
Proof.
  induction s as [|y s IH]; simpl; [reflexivity|].
  destruct (lt (key y) (key x)); [|reflexivity].
  rewrite IH. apply perm_swap.
Qed.

Lemma sorted_by_perm (l : list A) : Permutation (sorted_by lt key l) l.
Proof.
  induction l as [|x l IH]; simpl; [reflexivity|].
  rewrite insert_by_perm, IH. reflexivity.
Qed.

Lemma insert_by_head (x : A) (s : list A) :
  head (insert_by lt key x s)
  = match s with
    | [] => Some x
    | y :: _ => if lt (key y) (key x) then Some y else Some x
    end.
Proof.
  destruct s as [|y s]; [reflexivity|]. simpl.
  destruct (lt (key y) (key x)); reflexivity.
Qed.

Hypothesis lt_irrefl : forall a, lt a a = false.
Hypothesis lt_trans :
  forall a b c, lt a b = true -> lt b c = true -> lt a c = true.
Hypothesis lt_neg_trans :
  forall a b c, lt a b = false -> lt b c = false -> lt a c = false.

Lemma lt_asym (a b : K) : lt a b = true -> lt b a = false.
Proof.
  intros H. destruct (lt b a) eqn:E; [|reflexivity].
  pose proof (lt_trans _ _ _ H E) as Haa.
  rewrite lt_irrefl in Haa. discriminate.
Qed.

Lemma insert_by_sorted (x : A) (s : list A) :
  StronglySorted (fun a b => lt (key b) (key a) = false) s ->
  StronglySorted (fun a b => lt (key b) (key a) = false) (insert_by lt key x s).
Proof.
  induction 1 as [|y s Hs IH Hall]; simpl.
  - constructor; constructor.
  - destruct (lt (key y) (key x)) eqn:E.
    + constructor; [exact IH|].
      rewrite Forall_forall in Hall |- *. intros z Hz.
      apply list_elem_of_In in Hz.
      apply (Permutation_in _ (insert_by_perm x s)) in Hz.
      destruct Hz as [<-|Hz]; [apply lt_asym, E|].
      apply Hall, list_elem_of_In, Hz.
    + constructor; [constructor; assumption|].
      constructor; [exact E|].
      rewrite Forall_forall in Hall |- *. intros z Hz.
      apply (lt_neg_trans _ _ _ (Hall z Hz) E).
Qed.

Lemma sorted_by_sorted (l : list A) :
  StronglySorted (fun a b => lt (key b) (key a) = false) (sorted_by lt key l).
Proof.
  induction l as [|x l IH]; simpl; [constructor|].
  apply insert_by_sorted, IH.
Qed.

(** The head of the sorted list is the first item of minimal key. *)
Lemma sorted_by_head (l : list A) :
  l <> [] ->
  exists b l1 l2,
    head (sorted_by lt key l) = Some b
    /\ l = l1 ++ b :: l2
    /\ (forall u, In u l1 -> lt (key b) (key u) = true)
    /\ (forall u, In u l2 -> lt (key u) (key b) = false).
Proof.
  induction l as [|x l IH]; [congruence|]. intros _.
  simpl sorted_by. rewrite insert_by_head.
  destruct l as [|y l].
  - exists x, [], []. repeat split; intros u [].
  - destruct IH as (b & l1 & l2 & Hb & El & H1 & H2); [discriminate|].
    destruct (sorted_by lt key (y :: l)) as [|z s] eqn:Es; [discriminate|].
    simpl in Hb. injection Hb as ->.
    destruct (lt (key b) (key x)) eqn:E.
    + exists b, (x :: l1), l2. split; [reflexivity|]. rewrite El.
      split; [reflexivity|]. split; [|exact H2].
      intros u [<-|Hu]; [exact E | apply H1, Hu].
    + exists x, [], (y :: l). split; [reflexivity|].
      split; [reflexivity|]. split; [intros u []|].
      intros u Hu. rewrite El in Hu. apply in_app_or in Hu.
      destruct Hu as [Hu|[<-|Hu]].
      * destruct (lt (key u) (key x)) eqn:Eu; [|reflexivity].
        pose proof (lt_trans _ _ _ (H1 u Hu) Eu) as Hbx. congruence.
      * exact E.
      * apply (lt_neg_trans _ _ _ (H2 u Hu) E).
Qed.

End SortedByFacts.

Lemma py_sorted_sorted_by {K : Type} (lt : K -> K -> bool) (key : Task -> K)
    (h : heap) (l : list addr) :
  py_sorted lt key h l = sorted_by lt (fun a => key (h a)) l.
Proof.
  induction l as [|x l IH]; simpl; [reflexivity|]. rewrite IH.
  generalize (sorted_by lt (fun a => key (h a)) l) as s.
  induction s as [|y s IHs]; simpl; [reflexivity|].
  rewrite IHs. reflexivity.
Qed.

(** ** Generation of the batch *)

Lemma generate_fold (draws : nat -> simulation.Draw) (alloc : addr) (h : heap)
    (n : nat) :
  snd (fold_left (simulation.generate_step draws alloc) (seq 0 n) (h, []))
  = seq alloc n
  /\ (forall k, (k < n)%nat ->
        fst (fold_left (simulation.generate_step draws alloc) (seq 0 n) (h, []))
          (alloc + k)%nat
        = simulation.new_task (draws k))
  /\ (forall a, (a < alloc \/ alloc + n <= a)%nat ->
        fst (fold_left (simulation.generate_step draws alloc) (seq 0 n) (h, []))
          a = h a).
Proof.
  induction n as [|n (IHl & IHin & IHout)].
  - simpl. split; [reflexivity|]. split; [intros k Hk; lia|reflexivity].
  - rewrite seq_S, fold_left_app. simpl fold_left.
    unfold simulation.generate_step at 1 3 5. cbn [fst snd]. simpl "+"%nat.
    split; [rewrite IHl, seq_S; reflexivity|].
    unfold store. split.
    + intros k Hk. destruct (Nat.eqb (alloc + k) (alloc + n)) eqn:E.
      * apply Nat.eqb_eq in E. replace k with n by lia. reflexivity.
      * apply Nat.eqb_neq in E. apply IHin. lia.
    + intros a Ha. destruct (Nat.eqb a (alloc + n)) eqn:E.
      * apply Nat.eqb_eq in E. lia.
      * apply IHout. lia.
Qed.

Lemma sorted_by_arrival_of_sorted (h : heap) (l : list addr) :
  StronglySorted
    (fun a b => Qltb (key_arrival (h b)) (key_arrival (h a)) = false) l ->
  sorted_by_arrival h l.
Proof.
  induction 1 as [|a l Hs IH Hall]; simpl; [exact I|].
  split; [|exact IH].
  rewrite Forall_forall in Hall |- *. intros b Hb.
  apply Qltb_ge. apply (Hall b Hb).
Qed.

(** X22: [generate_random_tasks] builds [num_tasks] new task objects (none
    for a count of zero or less), one from each set of draws, and returns
    them all, each once, in ascending order of arrival time; the objects
    that existed before, the schedulers and the results are left as they
    were. *)
Theorem generate_random_tasks_sorted (draws : nat -> simulation.Draw)
    (alloc : addr) (self : simulation.Simulator) (h : heap) (num_tasks : Z) :
  Permutation
    (simulation.tasks
       (fst (simulation.generate_random_tasks draws alloc self h num_tasks)))
    (seq alloc (Z.to_nat num_tasks))
  /\ length
       (simulation.tasks
          (fst (simulation.generate_random_tasks draws alloc self h num_tasks)))
     = Z.to_nat num_tasks
  /\ List.NoDup
       (simulation.tasks
          (fst (simulation.generate_random_tasks draws alloc self h num_tasks)))
  /\ sorted_by_arrival
       (snd (simulation.generate_random_tasks draws alloc self h num_tasks))
       (simulation.tasks
          (fst (simulation.generate_random_tasks draws alloc self h num_tasks)))
  /\ (forall k, (k < Z.to_nat num_tasks)%nat ->
        snd (simulation.generate_random_tasks draws alloc self h num_tasks)
          (alloc + k)%nat
        = simulation.new_task (draws k))
  /\ (forall a, (a < alloc \/ alloc + Z.to_nat num_tasks <= a)%nat ->
        snd (simulation.generate_random_tasks draws alloc self h num_tasks) a
        = h a)
  /\ simulation.schedulers
       (fst (simulation.generate_random_tasks draws alloc self h num_tasks))
     = simulation.schedulers self
  /\ simulation.results
       (fst (simulation.generate_random_tasks draws alloc self h num_tasks))
     = simulation.results self.
Proof.
  unfold simulation.generate_random_tasks, energy_monitor.py_range.
  cbn [fst snd simulation.tasks simulation.schedulers simulation.results].
  destruct (generate_fold draws alloc h (Z.to_nat num_tasks))
    as (Hl & Hin & Hout).
  rewrite Hl, py_sorted_sorted_by.
  set (h' := fst (fold_left (simulation.generate_step draws alloc)
                    (seq 0 (Z.to_nat num_tasks)) (h, []))) in *.
  pose proof (sorted_by_perm Qltb (fun a => key_arrival (h' a))
                (seq alloc (Z.to_nat num_tasks))) as Hperm.
  split; [exact Hperm|].
  split; [rewrite (Permutation_length Hperm); apply length_seq|].
  split.
  { apply (Permutation_NoDup (Permutation_sym Hperm)). apply List.seq_NoDup. }
  split.
  { apply sorted_by_arrival_of_sorted.
    apply (sorted_by_sorted Qltb (fun a => key_arrival (h' a))
             Qltb_irrefl Qltb_trans Qltb_neg_trans). }
  split; [exact Hin|]. split; [exact Hout|]. split; reflexivity.
Qed.

Lemma generate_random_tasks_sorted_aux (draws : nat -> simulation.Draw)
    (alloc : addr) (self : simulation.Simulator) (h : heap) (num_tasks : Z) :
  Permutation
    (simulation.tasks
       (fst (simulation.generate_random_tasks draws alloc self h num_tasks)))
    (seq alloc (Z.to_nat num_tasks))
  /\ (forall k, (k < Z.to_nat num_tasks)%nat ->
        snd (simulation.generate_random_tasks draws alloc self h num_tasks)
          (alloc + k)%nat
        = simulation.new_task (draws k)).
Proof.
  unfold simulation.generate_random_tasks, energy_monitor.py_range.
  cbn [fst snd simulation.tasks].
  destruct (generate_fold draws alloc h (Z.to_nat num_tasks))
    as (Hl & Hin & _).
  rewrite Hl, py_sorted_sorted_by. split; [apply sorted_by_perm|exact Hin].
Qed.

Lemma uniform_range (a b u : Q) :
  a <= b -> unit_interval u ->
  a <= simulation.uniform a b u /\ simulation.uniform a b u <= b.
Proof.
  intros Hab [H0 H1]. unfold simulation.uniform.
  assert (Hp : 0 <= (b - a) * u) by (apply Qmult_le_0_compat; lra).
  assert (Hq : 0 <= (b - a) * (1 - u)) by (apply Qmult_le_0_compat; lra).
  split; lra.
Qed.

(** X23: when every value of [random.random()] lies in [0, 1), each
    generated task has its duration between [TASK_DURATION_MIN] and
    [TASK_DURATION_MAX], its arrival time between 0 and half the simulation
    time, its CPU requirement between 10 and 100, a memory requirement of
    256 and no start or end time. *)
Theorem generated_tasks_in_range (draws : nat -> simulation.Draw)
    (alloc : addr) (self : simulation.Simulator) (h : heap) (num_tasks : Z)
    (a : addr) :
  (forall k, unit_interval (simulation.d_duration (draws k))
             /\ unit_interval (simulation.d_arrival_time (draws k))
             /\ unit_interval (simulation.d_cpu_requirement (draws k))) ->
  In a (simulation.tasks
          (fst (simulation.generate_random_tasks draws alloc self h num_tasks))) ->
  config.TASK_DURATION_MIN
  <= duration (snd (simulation.generate_random_tasks draws alloc self h
                      num_tasks) a)
  /\ duration (snd (simulation.generate_random_tasks draws alloc self h
                      num_tasks) a)
     <= config.TASK_DURATION_MAX
  /\ 0 <= arrival_time (snd (simulation.generate_random_tasks draws alloc self h
                               num_tasks) a)
  /\ arrival_time (snd (simulation.generate_random_tasks draws alloc self h
                          num_tasks) a)
     <= config.SIMULATION_TIME / 2
  /\ 10 <= cpu_requirement (snd (simulation.generate_random_tasks draws alloc
                                   self h num_tasks) a)
  /\ cpu_requirement (snd (simulation.generate_random_tasks draws alloc self h
                             num_tasks) a)
     <= 100
  /\ memory_requirement (snd (simulation.generate_random_tasks draws alloc self
                                h num_tasks) a)
     = 256
  /\ start_time (snd (simulation.generate_random_tasks draws alloc self h
                        num_tasks) a)
     = None
  /\ end_time (snd (simulation.generate_random_tasks draws alloc self h
                      num_tasks) a)
     = None.
Proof.
  intros Hdraws Ha.
  destruct (generate_random_tasks_sorted_aux draws alloc self h num_tasks)
    as (Hperm & Hin).
  apply (Permutation_in _ Hperm) in Ha. apply in_seq in Ha.
  specialize (Hin (a - alloc)%nat).
  replace (alloc + (a - alloc))%nat with a in Hin by lia.
  rewrite Hin by lia.
  destruct (Hdraws (a - alloc)%nat) as (Hd & Har & Hc).
  cbn [simulation.new_task duration arrival_time cpu_requirement
       memory_requirement start_time end_time].
  destruct (uniform_range config.TASK_DURATION_MIN config.TASK_DURATION_MAX
              _ ltac:(vm_compute; discriminate) Hd) as [D1 D2].
  destruct (uniform_range 0 (config.SIMULATION_TIME / 2)
              _ ltac:(vm_compute; discriminate) Har) as [A1 A2].
  destruct (uniform_range 10 100 _ ltac:(vm_compute; discriminate) Hc)
    as [C1 C2].
  repeat match goal with |- _ /\ _ => split end;
    first [assumption | reflexivity].
Qed.

Lemma generated_tasks_in_range_witness :
  config.TASK_DURATION_MIN
  <= duration
       (snd (simulation.generate_random_tasks
               (fun _ => simulation.mkDraw "t" (1 # 2) 0%nat (1 # 2) (1 # 2))
               0%nat simulation.init samples.abc 2%Z) 0%nat).
Proof.
  apply (generated_tasks_in_range
           (fun _ => simulation.mkDraw "t" (1 # 2) 0%nat (1 # 2) (1 # 2))
           0%nat simulation.init samples.abc 2%Z 0%nat).
  - intros k. cbn [simulation.d_duration simulation.d_arrival_time
                   simulation.d_cpu_requirement].
    unfold unit_interval. repeat split; vm_compute; first [discriminate|reflexivity].
  - vm_compute. left. reflexivity.
Defined.

(** ** Ranking of the results *)

Lemma first_item_minimum {K : Type} (lt : K -> K -> bool)
    (key : string * algorithm.Metrics -> K)
    (l : list (string * algorithm.Metrics)) :
  (forall a, lt a a = false) ->
  (forall a b c, lt a b = true -> lt b c = true -> lt a c = true) ->
  (forall a b c, lt a b = false -> lt b c = false -> lt a c = false) ->
  l <> [] ->
  exists b l1 l2,
    simulation.first_item (sorted_by lt key l) = Returned b
    /\ l = l1 ++ b :: l2
    /\ (forall u, In u l1 -> lt (key b) (key u) = true)
    /\ (forall u, In u l -> lt (key u) (key b) = false).
Proof.
  intros Hirr Htr Hneg Hne.
  destruct (sorted_by_head lt key Htr Hneg l Hne)
    as (b & l1 & l2 & Hh & El & H1 & H2).
  exists b, l1, l2.
  split.
  { destruct (sorted_by lt key l); [discriminate|].
    simpl in Hh. injection Hh as ->. reflexivity. }
  split; [exact El|]. split; [exact H1|].
  intros u Hu. rewrite El in Hu. apply in_app_or in Hu.
  destruct Hu as [Hu|[<-|Hu]].
  - destruct (lt (key u) (key b)) eqn:E; [|reflexivity].
    pose proof (Htr _ _ _ (H1 u Hu) E) as Hbb. rewrite Hirr in Hbb.
    discriminate.
  - apply Hirr.
  - apply H2, Hu.
Qed.

(** X24: [compare_algorithms] raises [IndexError] when the table of results
    is empty, as before any run; otherwise it returns, as best by energy, the
    key of the first item of the table, in insertion order, whose total
    energy is minimal among all the items, whatever their keys, and as best
    by CO2 the key of the first one whose CO2 figure is minimal. *)
Theorem compare_algorithms_picks_first_minimum (self : simulation.Simulator) :
  (dict_items (simulation.results self) = [] ->
   simulation.compare_algorithms self = Raised IndexError)
  /\ (dict_items (simulation.results self) <> [] ->
      exists be me bc mc l1 l2 k1 k2,
        simulation.compare_algorithms self = Returned (be, bc)
        /\ dict_items (simulation.results self) = l1 ++ (be, me) :: l2
        /\ dict_items (simulation.results self) = k1 ++ (bc, mc) :: k2
        /\ (forall n m, In (n, m) (dict_items (simulation.results self)) ->
              algorithm.total_energy_kwh me <= algorithm.total_energy_kwh m
              /\ algorithm.co2_emissions_kg mc
                 <= algorithm.co2_emissions_kg m)
        /\ (forall n m, In (n, m) l1 ->
              algorithm.total_energy_kwh me < algorithm.total_energy_kwh m)
        /\ (forall n m, In (n, m) k1 ->
              algorithm.co2_emissions_kg mc < algorithm.co2_emissions_kg m)).
Proof.
  unfold simulation.compare_algorithms. split.
  - intros ->. reflexivity.
  - intros Hne.
    destruct (first_item_minimum Qltb
                (fun x : string * algorithm.Metrics =>
                   algorithm.total_energy_kwh (snd x))
                _ Qltb_irrefl Qltb_trans Qltb_neg_trans Hne)
      as ([be me] & l1 & l2 & He & El & He1 & Hemin).
    destruct (first_item_minimum Qltb
                (fun x : string * algorithm.Metrics =>
                   algorithm.co2_emissions_kg (snd x))
                _ Qltb_irrefl Qltb_trans Qltb_neg_trans Hne)
      as ([bc mc] & k1 & k2 & Hc & Ek & Hc1 & Hcmin).
    rewrite He, Hc. cbn [bind fst].
    exists be, me, bc, mc, l1, l2, k1, k2.
    split; [reflexivity|]. split; [exact El|]. split; [exact Ek|].
    split.
    { intros n m Hin. split; apply Qltb_ge.
      - apply (Hemin (n, m) Hin).
      - apply (Hcmin (n, m) Hin). }
    split.
    + intros n m Hin. apply Qltb_lt. apply (He1 (n, m) Hin).
    + intros n m Hin. apply Qltb_lt. apply (Hc1 (n, m) Hin).
Qed.

Lemma compare_algorithms_picks_first_minimum_witness :
  simulation.compare_algorithms (samples.fresh [0; 1; 2]%nat)
  = Raised IndexError.
Proof.
  apply (compare_algorithms_picks_first_minimum (samples.fresh [0; 1; 2]%nat)).
  reflexivity.
Defined.

(** A table with one item under a name that is no registered algorithm. *)
Lemma compare_algorithms_unregistered_key (m : algorithm.Metrics) :
  simulation.compare_algorithms
    {| simulation.tasks := []; simulation.schedulers := empty;
       simulation.monitors := empty;
       simulation.results := <["LIFO"%string := m]> empty |}
  = Returned ("LIFO"%string, "LIFO"%string).
Proof. reflexivity. Qed.

(** X25: after [run_all_simulations] on a simulator whose table of results
    was empty, the keys of the table are the names of [config.ALGORITHMS]
    in that order, and the ranking raises nothing: it names, as best by
    energy, a registered algorithm whose stored total energy is minimal
    among the stored results, and as best by CO2 one whose stored CO2 figure
    is minimal. *)
Theorem ranking_after_all_runs (now : nat -> Q)
    (self : simulation.Simulator) (h : heap) :
  dict_items (simulation.results self) = [] ->
  exists self' h' be me bc mc,
    simulation.run_all_simulations now self h = Some (Returned (self', h'))
    /\ map fst (dict_items (simulation.results self')) = config.ALGORITHMS
    /\ simulation.compare_algorithms self' = Returned (be, bc)
    /\ In be config.ALGORITHMS
    /\ In bc config.ALGORITHMS
    /\ simulation.results self' !! be = Some me
    /\ simulation.results self' !! bc = Some mc
    /\ (forall n m, simulation.results self' !! n = Some m ->
          algorithm.total_energy_kwh me <= algorithm.total_energy_kwh m
          /\ algorithm.co2_emissions_kg mc <= algorithm.co2_emissions_kg m).
Proof.
  intros Hempty. unfold simulation.run_all_simulations.
  destruct (run_each_results now config.ALGORITHMS ALGORITHMS_NoDup
              (simulation.initialize_schedulers self) h)
    as (self' & h' & Hall & _ & _).
  { intros n Hn. destruct (registered_scheduler self n Hn) as [p Hp].
    exists (algorithm.init p n). split; [exact Hp|reflexivity]. }
  pose proof (run_each_keys now config.ALGORITHMS ALGORITHMS_NoDup
                (simulation.initialize_schedulers self) self' h h') as Hkeys.
  cbn [simulation.initialize_schedulers simulation.results] in Hkeys.
  rewrite Hempty in Hkeys. specialize (Hkeys (fun n _ H => H) Hall).
  cbn [map app] in Hkeys.
  assert (Hnd : List.NoDup (map fst (dict_items (simulation.results self')))).
  { rewrite Hkeys. apply ALGORITHMS_NoDup. }
  assert (Hne : dict_items (simulation.results self') <> []).
  { intros Hnil. rewrite Hnil in Hkeys. discriminate Hkeys. }
  destruct (first_item_minimum Qltb
              (fun x : string * algorithm.Metrics =>
                 algorithm.total_energy_kwh (snd x))
              _ Qltb_irrefl Qltb_trans Qltb_neg_trans Hne)
    as ([be me] & l1 & l2 & He & El & _ & Hemin).
  destruct (first_item_minimum Qltb
              (fun x : string * algorithm.Metrics =>
                 algorithm.co2_emissions_kg (snd x))
              _ Qltb_irrefl Qltb_trans Qltb_neg_trans Hne)
    as ([bc mc] & k1 & k2 & Hc & Ek & _ & Hcmin).
  assert (Hbe : In (be, me) (dict_items (simulation.results self'))).
  { rewrite El. apply in_or_app. right. left. reflexivity. }
  assert (Hbc : In (bc, mc) (dict_items (simulation.results self'))).
  { rewrite Ek. apply in_or_app. right. left. reflexivity. }
  exists self', h', be, me, bc, mc. split; [exact Hall|].
  split; [exact Hkeys|].
  split.
  { unfold simulation.compare_algorithms. rewrite He, Hc. reflexivity. }
  split; [rewrite <- Hkeys; apply (in_map fst _ _ Hbe)|].
  split; [rewrite <- Hkeys; apply (in_map fst _ _ Hbc)|].
  split; [apply (items_get_first _ _ _ Hnd Hbe)|].
  split; [apply (items_get_first _ _ _ Hnd Hbc)|].
  intros n m Hm. apply items_get_in in Hm. split; apply Qltb_ge.
  - apply (Hemin (n, m) Hm).
  - apply (Hcmin (n, m) Hm).
Qed.

Lemma ranking_after_all_runs_witness :
  exists self' h' be me bc mc,
    simulation.run_all_simulations (fun _ => 0)
      (samples.fresh [0; 1; 2]%nat) samples.abc
    = Some (Returned (self', h'))
    /\ map fst (dict_items (simulation.results self')) = config.ALGORITHMS
    /\ simulation.compare_algorithms self' = Returned (be, bc)
    /\ simulation.results self' !! be = Some me
    /\ simulation.results self' !! bc = Some mc.
Proof.
  destruct (ranking_after_all_runs (fun _ => 0)
              (samples.fresh [0; 1; 2]%nat) samples.abc)
    as (self' & h' & be & me & bc & mc & Hrun & Hk & Hcmp & _ & _ & Hbe & Hbc
        & _).
  - reflexivity.
  - exists self', h', be, me, bc, mc. auto.
Defined.
